(** * Metric dependency resolution, map-metric providers and the profiler's
      parameter namespace: a shallow embedding of

      - [great_expectations/expectations/metrics/map_metric_provider.py]
      - [great_expectations/rule_based_profiler/types/parameter_container.py]

    Python values are embedded as an inductive type, dictionaries used as
    kwargs as finite maps, exceptions as an error monad. *)

From Stdlib Require Import ZArith List String Ascii Bool Lia.
From stdpp Require Import base option list gmap strings fin_maps.

Set Warnings "-register-all".
Open Scope string_scope.

(** ** Python basics shared by both subsystems *)

Module Py.

(** The exceptions the embedded functions can raise. *)
Inductive exn : Type :=
| KeyError
| IndexError
| TypeError
| ValueError
| AttributeError
| IndexingError
| BackendError (msg : string)
| MetricProviderError
| MetricComputationError
| InvalidMetricAccessorDomainKwargsKeyError
| ParameterAttributeNameParserError
| ProfilerExecutionError.

(** A computation either returns or raises. *)
Inductive result (A : Type) : Type :=
| Ok (a : A)
| Raise (e : exn).
Arguments Ok {A} a.
Arguments Raise {A} e.

Definition bind {A B : Type} (r : result A) (k : A -> result B) : result B :=
  match r with
  | Ok a => k a
  | Raise e => Raise e
  end.

(** Python values ([Any]).  [PNode] is a [ParameterNode]: a [dict] subclass. *)
Inductive pyval : Type :=
| PNone
| PBool (b : bool)
| PInt (z : Z)
| PStr (s : string)
| PList (l : list pyval)
| PDict (d : list (string * pyval))
| PNode (d : list (string * pyval)).

(** [MetricDomainTypes] *)
Inductive MetricDomainTypes : Type :=
| TABLE | COLUMN | COLUMN_PAIR | MULTICOLUMN | OTHER.

(** [s.endswith(suf)]: some tail of [s] is [suf]. *)
Fixpoint endswith (s suf : string) : bool :=
  if String.eqb s suf then true
  else match s with
       | EmptyString => false
       | String _ s' => endswith s' suf
       end.

(** [s.startswith(pre)]. *)
Fixpoint startswith (s pre : string) : bool :=
  match pre, s with
  | EmptyString, _ => true
  | String a pre', String b s' => if Ascii.eqb a b then startswith s' pre' else false
  | String _ _, EmptyString => false
  end.

(** [s[:-n]] for a length [n] ([s[:-0]] is [s[:0]], the empty string). *)
Definition drop_last (s : string) (n : nat) : string :=
  match n with
  | O => EmptyString
  | S _ => substring 0 (String.length s - n) s
  end.

(** [s[n:]]. *)
Fixpoint drop_first (n : nat) (s : string) : string :=
  match n, s with
  | O, _ => s
  | S n', String _ s' => drop_first n' s'
  | S _, EmptyString => EmptyString
  end.

(** [l[:n]] for a Python integer [n]: a negative bound counts from the end. *)
Definition slice_to {A : Type} (l : list A) (n : Z) : list A :=
  if (n <? 0)%Z then firstn (length l - Z.to_nat (- n)) l
  else firstn (Z.to_nat n) l.

(** [l[i]] for a Python integer [i]; [None] stands for [IndexError]. *)
Definition index_at {A : Type} (l : list A) (i : Z) : option A :=
  if (i <? 0)%Z then
    if (Z.of_nat (length l) + i <? 0)%Z then None
    else nth_error l (Z.to_nat (Z.of_nat (length l) + i))
  else nth_error l (Z.to_nat i).

End Py.
Export Py.

#[export] Instance result_bind : MBind result :=
  fun A B (k : A -> result B) (r : result A) => Py.bind r k.
#[export] Instance result_ret : MRet result := @Py.Ok.

(** ** Dependency resolution of map metrics
    ([MapMetricProvider._get_evaluation_dependencies] and its overrides) *)

Module Deps.

Abbreviation kwargs := (gmap string pyval).

Inductive engine_type : Type :=
| PandasExecutionEngine
| SqlAlchemyExecutionEngine
| SparkDFExecutionEngine.

(** Modelled from the spec: the class [MetricConfiguration] is imported from
    [great_expectations.validator.metric_configuration], which is not among
    the sources.  The spec's MetricIdentity is "name + domain kwargs + value
    kwargs", the kwargs being order-independent mappings compared by value. *)
Record MetricConfiguration : Type := mkMetric {
  metric_name : string;
  metric_domain_kwargs : kwargs;
  metric_value_kwargs : kwargs
}.

(** The constructor call [MetricConfiguration(name, domain_kwargs,
    value_kwargs)]; [None] for the value kwargs stands for no value kwargs. *)
Definition MetricConfiguration_new (name : string) (domain_kwargs : kwargs)
    (value_kwargs : option kwargs) : MetricConfiguration :=
  mkMetric name domain_kwargs (default ∅ value_kwargs).

(** [{k: v for (k, v) in d.items() if k != key}] *)
Definition without_key (key : string) (d : kwargs) : kwargs :=
  filter (fun kv : string * pyval => kv.1 ≠ key) d.

(** [{k: v for (k, v) in d.items() if k not in keys}] *)
Definition without_keys (keys : list string) (d : kwargs) : kwargs :=
  filter (fun kv : string * pyval => kv.1 ∉ keys) d.

Definition detail_suffixes : list string :=
  [ ".unexpected_values"; ".unexpected_value_counts"; ".unexpected_index_list";
    ".unexpected_rows"; ".filtered_row_count" ].

Section Registry.

(** Provider functions are opaque to dependency resolution. *)
Context {Provider : Type}.

(** Modelled from the spec: the registry of
    [great_expectations.expectations.registry] is not among the sources.  It is
    the table "(metric name, execution backend type) -> provider", whose
    lookup fails with a provider-not-found error when the entry is absent. *)
Definition registry : Type := string -> engine_type -> option Provider.

Definition get_metric_provider (reg : registry) (name : string)
    (execution_engine : engine_type) : result Provider :=
  match reg name execution_engine with
  | Some p => Ok p
  | None => Raise MetricProviderError
  end.

Variable reg : registry.

Definition MapMetricProvider_get_evaluation_dependencies
    (metric : MetricConfiguration) (execution_engine : engine_type)
    : result (gmap string MetricConfiguration) :=
  let name := metric_name metric in
  let base_metric_value_kwargs :=
    without_key "result_format" (metric_value_kwargs metric) in
  let dependencies : gmap string MetricConfiguration := ∅ in
  let metric_suffix := ".unexpected_count" in
  dependencies ←
    (if endswith name metric_suffix then
       has_aggregate_fn ←
         match get_metric_provider reg (name +:+ ".aggregate_fn") execution_engine with
         | Ok _ => Ok true
         | Raise MetricProviderError => Ok false
         | Raise e => Raise e
         end;
       if has_aggregate_fn : bool then
         Ok (<["metric_partial_fn" :=
                 MetricConfiguration_new (name +:+ ".aggregate_fn")
                   (metric_domain_kwargs metric) (Some base_metric_value_kwargs)]>
               dependencies)
       else
         Ok (<["unexpected_condition" :=
                 MetricConfiguration_new
                   (drop_last name (String.length metric_suffix) +:+ ".condition")
                   (metric_domain_kwargs metric) (Some base_metric_value_kwargs)]>
               dependencies)
     else Ok dependencies);
  let metric_suffix := ".unexpected_count.aggregate_fn" in
  let dependencies :=
    if endswith name metric_suffix then
      <["unexpected_condition" :=
          MetricConfiguration_new
            (drop_last name (String.length metric_suffix) +:+ ".condition")
            (metric_domain_kwargs metric) (Some base_metric_value_kwargs)]>
        dependencies
    else dependencies in
  let dependencies :=
    fold_left
      (fun (dependencies : gmap string MetricConfiguration) metric_suffix =>
         if endswith name metric_suffix then
           <["unexpected_condition" :=
               MetricConfiguration_new
                 (drop_last name (String.length metric_suffix) +:+ ".condition")
                 (metric_domain_kwargs metric) (Some base_metric_value_kwargs)]>
             dependencies
         else dependencies)
      detail_suffixes dependencies in
  match get_metric_provider reg (name +:+ ".map") execution_engine with
  | Ok _ =>
      Ok (<["metric_map_fn" :=
              MetricConfiguration_new (name +:+ ".map")
                (metric_domain_kwargs metric) (Some (metric_value_kwargs metric))]>
            dependencies)
  | Raise MetricProviderError => Ok dependencies
  | Raise e => Raise e
  end.

(** The three table-level metrics every column-domain provider adds. *)
Definition add_table_dependencies (table_domain_kwargs : kwargs)
    (dependencies : gmap string MetricConfiguration)
    : gmap string MetricConfiguration :=
  let dependencies :=
    <["table.column_types" :=
        MetricConfiguration_new "table.column_types" table_domain_kwargs
          (Some {["include_nested" := PBool true]})]> dependencies in
  let dependencies :=
    <["table.columns" :=
        MetricConfiguration_new "table.columns" table_domain_kwargs None]>
      dependencies in
  <["table.row_count" :=
      MetricConfiguration_new "table.row_count" table_domain_kwargs None]>
    dependencies.

Definition ColumnMapMetricProvider_get_evaluation_dependencies
    (metric : MetricConfiguration) (execution_engine : engine_type)
    : result (gmap string MetricConfiguration) :=
  dependencies ← MapMetricProvider_get_evaluation_dependencies metric execution_engine;
  let table_domain_kwargs := without_key "column" (metric_domain_kwargs metric) in
  Ok (add_table_dependencies table_domain_kwargs dependencies).

Definition ColumnPairMapMetricProvider_get_evaluation_dependencies
    (metric : MetricConfiguration) (execution_engine : engine_type)
    : result (gmap string MetricConfiguration) :=
  dependencies ← MapMetricProvider_get_evaluation_dependencies metric execution_engine;
  let table_domain_kwargs :=
    without_keys ["column_A"; "column_B"; "ignore_row_if"]
      (metric_domain_kwargs metric) in
  Ok (add_table_dependencies table_domain_kwargs dependencies).

Definition MulticolumnMapMetricProvider_get_evaluation_dependencies
    (metric : MetricConfiguration) (execution_engine : engine_type)
    : result (gmap string MetricConfiguration) :=
  dependencies ← MapMetricProvider_get_evaluation_dependencies metric execution_engine;
  let table_domain_kwargs :=
    without_keys ["column_list"; "ignore_row_if"] (metric_domain_kwargs metric) in
  Ok (add_table_dependencies table_domain_kwargs dependencies).

(** The three provider classes that override
    [_get_evaluation_dependencies] (for the domain types COLUMN, COLUMN_PAIR
    and MULTICOLUMN), and the accessor keys each strips. *)
Inductive column_provider_class : Type :=
| ColumnMapMetricProvider
| ColumnPairMapMetricProvider
| MulticolumnMapMetricProvider.

Definition get_evaluation_dependencies (cls : column_provider_class)
    (metric : MetricConfiguration) (execution_engine : engine_type)
    : result (gmap string MetricConfiguration) :=
  match cls with
  | ColumnMapMetricProvider =>
      ColumnMapMetricProvider_get_evaluation_dependencies metric execution_engine
  | ColumnPairMapMetricProvider =>
      ColumnPairMapMetricProvider_get_evaluation_dependencies metric execution_engine
  | MulticolumnMapMetricProvider =>
      MulticolumnMapMetricProvider_get_evaluation_dependencies metric execution_engine
  end.

Definition accessor_keys (cls : column_provider_class) : list string :=
  match cls with
  | ColumnMapMetricProvider => ["column"]
  | ColumnPairMapMetricProvider => ["column_A"; "column_B"; "ignore_row_if"]
  | MulticolumnMapMetricProvider => ["column_list"; "ignore_row_if"]
  end.

(** *** Auxiliary definitions for the proofs *)

(** The dependencies the suffix rules generate, as a function of the name,
    the domain kwargs and the value kwargs without [result_format]. *)
Definition suffix_rules (name : string) (domain_kwargs base : kwargs)
    (eng : engine_type) : gmap string MetricConfiguration :=
  let condition suffix :=
    mkMetric (drop_last name (String.length suffix) +:+ ".condition")
      domain_kwargs base in
  let d1 : gmap string MetricConfiguration :=
    if endswith name ".unexpected_count" then
      match reg (name +:+ ".aggregate_fn") eng with
      | Some _ =>
          {["metric_partial_fn" :=
              mkMetric (name +:+ ".aggregate_fn") domain_kwargs base]}
      | None => {["unexpected_condition" := condition ".unexpected_count"]}
      end
    else ∅ in
  let d2 :=
    if endswith name ".unexpected_count.aggregate_fn"
    then <["unexpected_condition" := condition ".unexpected_count.aggregate_fn"]> d1
    else d1 in
  fold_left
    (fun (d : gmap string MetricConfiguration) suffix =>
       if endswith name suffix
       then <["unexpected_condition" := condition suffix]> d else d)
    detail_suffixes d2.

End Registry.

(** Every entry the suffix rules generate sits under one of the two suffix
    roles and carries the given domain kwargs and base value kwargs. *)
Definition suffix_entries_ok (domain_kwargs base : kwargs)
    (d : gmap string MetricConfiguration) : Prop :=
  forall role c, d !! role = Some c ->
    (role = "metric_partial_fn" \/ role = "unexpected_condition")
    /\ metric_domain_kwargs c = domain_kwargs
    /\ metric_value_kwargs c = base.


End Deps.

(** ** A model of the pandas objects the in-memory providers use *)

Module Frames.

Abbreviation kwargs := (gmap string pyval).

(** [for x in xs] over a list of fallible steps. *)
Fixpoint traverse {A B : Type} (f : A -> result B) (l : list A) : result (list B) :=
  match l with
  | [] => Ok []
  | x :: l' => y ← f x; ys ← traverse f l'; Ok (y :: ys)
  end.

(** [d[key]] for a kwargs dictionary. *)
Definition getitem (d : kwargs) (key : string) : result pyval :=
  match d !! key with
  | Some v => Ok v
  | None => Raise KeyError
  end.

(** [v[key]] for a Python value and a string key: a dictionary lookup. *)
Definition py_getitem_str (v : pyval) (key : string) : result pyval :=
  match v with
  | PDict d | PNode d =>
      match list_find (fun e : string * pyval => e.1 = key) d with
      | Some (_, e) => Ok e.2
      | None => Raise KeyError
      end
  | _ => Raise TypeError
  end.

(** [v == s] for a Python value and a string literal. *)
Definition py_eq_str (v : pyval) (s : string) : bool :=
  match v with
  | PStr s' => String.eqb s' s
  | _ => false
  end.

(** [v in names] for a list of strings: only an equal string is a member. *)
Definition py_in_strs (v : pyval) (names : list string) : bool :=
  match v with
  | PStr s => bool_decide (s ∈ names)
  | _ => false
  end.

(** [for x in v]: the elements a Python value iterates over. *)
Definition py_iter (v : pyval) : result (list pyval) :=
  match v with
  | PList l => Ok l
  | PStr s => Ok (map (fun a => PStr (String a EmptyString)) (list_ascii_of_string s))
  | PDict d | PNode d => Ok (map (fun e => PStr e.1) d)
  | _ => Raise TypeError
  end.

(** A slice bound [n] in [x[:n]]: an integer, a boolean (an integer in
    Python) or [None] (no bound). *)
Definition py_slice_bound (v : pyval) : result (option Z) :=
  match v with
  | PNone => Ok None
  | PInt z => Ok (Some z)
  | PBool b => Ok (Some (if b then 1%Z else 0%Z))
  | _ => Raise TypeError
  end.

Definition slice_to_bound {A : Type} (l : list A) (bound : option Z) : list A :=
  match bound with
  | None => l
  | Some n => slice_to l n
  end.

(** The call of [dict] with both dictionaries unpacked as keyword arguments:
    a repeated keyword is a [TypeError]. *)
Definition dict_merge (a b : kwargs) : result kwargs :=
  if bool_decide (dom a ∩ dom b = ∅) then Ok (a ∪ b) else Raise TypeError.

(** Positional selection by a boolean list. *)
Fixpoint select {A : Type} (l : list A) (bs : list bool) : list A :=
  match l, bs with
  | x :: l', b :: bs' => if b then x :: select l' bs' else select l' bs'
  | _, _ => []
  end.

Definition count_true (bs : list bool) : nat := length (filter (fun b => b = true) bs).

Definition label : Type := Z.

(** A pandas [Series]: index labels with their values, in row order. *)
Definition Series (A : Type) : Type := list (label * A).

(** pandas [check_bool_indexer]: a boolean Series used as an indexer is
    aligned to the index of the indexed object; a label of that index the
    indexer lacks makes it unalignable. *)
Definition check_bool_indexer (index : list label) (key : Series bool)
    : result (list bool) :=
  if bool_decide (key.*1 = index) then Ok key.*2
  else traverse
         (fun i => match list_find (fun e : label * bool => e.1 = i) key with
                   | Some (_, e) => Ok e.2
                   | None => Raise IndexingError
                   end) index.

(** [series[key]] for a boolean Series [key]. *)
Definition series_getitem_mask {A : Type} (s : Series A) (key : Series bool)
    : result (Series A) :=
  bs ← check_bool_indexer s.*1 key; Ok (select s bs).

(** [series == True] and [~series] on a boolean Series. *)
Definition series_eq_True (s : Series bool) : Series bool :=
  map (fun e => (e.1, Bool.eqb e.2 true)) s.
Definition series_invert (s : Series bool) : Series bool :=
  map (fun e => (e.1, negb e.2)) s.

(** [np.count_nonzero(series)] *)
Definition count_nonzero (s : Series bool) : nat := count_true s.*2.

Section DataFrame.

(** The non-null values of cells; [None] is the null marker. *)
Context {V : Type}.

Definition cell : Type := option V.

Record DataFrame : Type := mkDataFrame {
  df_columns : list string;
  df_rows : list (label * (string -> cell))
}.

Definition df_index (df : DataFrame) : list label := (df_rows df).*1.

(** [df[name]] for a column name. *)
Definition df_getitem (df : DataFrame) (name : string) : result (Series cell) :=
  if bool_decide (name ∈ df_columns df)
  then Ok (map (fun r => (r.1, r.2 name)) (df_rows df))
  else Raise KeyError.

(** [df[column_name]] where the name is a Python value: only a string can
    name a column of the frames modelled here. *)
Definition df_getitem_py (df : DataFrame) (column_name : pyval) : result (Series cell) :=
  match column_name with
  | PStr name => df_getitem df name
  | _ => Raise KeyError
  end.

(** [df[column_list]]: the sub-frame of the listed columns. *)
Definition df_getitem_list (df : DataFrame) (column_list : list pyval)
    : result DataFrame :=
  names ← traverse
            (fun c => match c with
                      | PStr name =>
                          if bool_decide (name ∈ df_columns df) then Ok name
                          else Raise KeyError
                      | _ => Raise KeyError
                      end) column_list;
  Ok (mkDataFrame names (df_rows df)).

(** A cell that holds a value (is not null). *)
Definition is_value (x : cell) : bool :=
  match x with Some _ => true | None => false end.

(** [series.notnull()] *)
Definition notnull (s : Series cell) : Series bool :=
  map (fun e => (e.1, is_value e.2)) s.

(** [df[key]] for a boolean Series [key]: the rows where it holds. *)
Definition df_getitem_mask (df : DataFrame) (key : Series bool) : result DataFrame :=
  bs ← check_bool_indexer (df_index df) key;
  Ok (mkDataFrame (df_columns df) (select (df_rows df) bs)).

(** [df[df[column_name].notnull()]] *)
Definition drop_null_rows (df : DataFrame) (column_name : pyval) : result DataFrame :=
  col ← df_getitem_py df column_name;
  df_getitem_mask df (notnull col).

(** [list(series)] *)
Definition series_to_list {A : Type} (s : Series A) : list A := s.*2.

End DataFrame.

Arguments DataFrame V : clear implicits.
Arguments cell V : clear implicits.

End Frames.

(** ** The provider adapters of [map_metric_provider.py] *)

Module Providers.
Import Deps Frames.

Inductive MetricPartialFunctionTypes : Type :=
| MAP_FN | MAP_SERIES | WINDOW_FN
| MAP_CONDITION_FN | MAP_CONDITION_SERIES | WINDOW_CONDITION_FN
| AGGREGATE_FN.

#[export] Instance MetricPartialFunctionTypes_eq_dec :
  EqDecision MetricPartialFunctionTypes.
Proof. solve_decision. Defined.

(** Modelled from the spec: the execution engine base class is not among
    the sources.  The spec's backend adapter contract, for a backend whose
    dataset handle has type [H]: [get_compute_domain] returns the handle
    with the compute and the accessor domain kwargs, [get_domain_records]
    the handle alone; [add_column_row_condition] adds the non-null filter
    of a column to domain kwargs. *)
Record ExecutionEngine (H : Type) : Type := mkEngine {
  get_compute_domain :
    kwargs -> MetricDomainTypes -> result (H * kwargs * kwargs);
  get_domain_records : kwargs -> result H;
  add_column_row_condition : kwargs -> option pyval -> result kwargs
}.
Arguments mkEngine {H} _ _ _.
Arguments get_compute_domain {H} _ _ _.
Arguments get_domain_records {H} _ _.
Arguments add_column_row_condition {H} _ _ _.

(** The resolved dependencies a provider is handed ([metrics]): the stored
    condition (a condition of type [C] with its compute and accessor domain
    kwargs) and the column names of the table. *)
Record Metrics (C : Type) : Type := mkMetrics {
  unexpected_condition : option (C * kwargs * kwargs);
  table_columns : option (list string)
}.
Arguments mkMetrics {C} _ _.
Arguments unexpected_condition {C} _.
Arguments table_columns {C} _.

(** The class attribute [filter_column_isnull] of the provider class, when
    it has one. *)
Record ProviderClass : Type := mkClass {
  filter_column_isnull : option bool
}.

(** [kwargs.get("filter_column_isnull",
                getattr(cls, "filter_column_isnull", dflt))] *)
Definition get_filter_column_isnull (kw : option bool) (cls : ProviderClass)
    (dflt : bool) : bool :=
  match kw with
  | Some b => b
  | None => default dflt (filter_column_isnull cls)
  end.

(** [metrics["table.columns"]] *)
Definition metrics_table_columns {C : Type} (metrics : Metrics C)
    : result (list string) :=
  match table_columns metrics with
  | Some l => Ok l
  | None => Raise KeyError
  end.

(** [metrics["unexpected_condition"]] *)
Definition metrics_unexpected_condition {C : Type} (metrics : Metrics C)
    : result (C * kwargs * kwargs) :=
  match unexpected_condition metrics with
  | Some c => Ok c
  | None => Raise KeyError
  end.

(** Unpacking [metrics.get("unexpected_condition")]: unpacking [None] is a
    [TypeError]. *)
Definition metrics_get_unexpected_condition {C : Type} (metrics : Metrics C)
    : result (C * kwargs * kwargs) :=
  match unexpected_condition metrics with
  | Some c => Ok c
  | None => Raise TypeError
  end.

(** [if column_name not in metrics["table.columns"]: raise
    InvalidMetricAccessorDomainKwargsKeyError(...)] *)
Definition check_column_exists {C : Type} (column_name : pyval)
    (metrics : Metrics C) : result unit :=
  columns ← metrics_table_columns metrics;
  if py_in_strs column_name columns then Ok tt
  else Raise InvalidMetricAccessorDomainKwargsKeyError.

(** [for column_name in column_list: if column_name not in ...: raise ...] *)
Definition check_columns_exist {C : Type} (column_list : list pyval)
    (metrics : Metrics C) : result unit :=
  _ ← traverse (fun column_name => check_column_exists column_name metrics)
        column_list;
  Ok tt.

(** The check of [partial_fn_type] each decorator makes for its engine. *)
Definition function_partial_fn_type (engine : engine_type)
    (partial_fn_type : option MetricPartialFunctionTypes)
    : result MetricPartialFunctionTypes :=
  match engine with
  | PandasExecutionEngine =>
      let t := default MAP_SERIES partial_fn_type in
      if bool_decide (t ≠ MAP_SERIES) then Raise ValueError else Ok t
  | SqlAlchemyExecutionEngine =>
      let t := default MAP_FN partial_fn_type in
      if bool_decide (t ∉ [MAP_FN]) then Raise ValueError else Ok t
  | SparkDFExecutionEngine =>
      let t := default MAP_FN partial_fn_type in
      if bool_decide (t ∉ [MAP_FN; WINDOW_FN]) then Raise ValueError else Ok t
  end.

Definition condition_partial_fn_type (engine : engine_type)
    (partial_fn_type : option MetricPartialFunctionTypes)
    : result MetricPartialFunctionTypes :=
  match engine with
  | PandasExecutionEngine =>
      let t := default MAP_CONDITION_SERIES partial_fn_type in
      if bool_decide (t ∉ [MAP_CONDITION_SERIES]) then Raise ValueError else Ok t
  | SqlAlchemyExecutionEngine | SparkDFExecutionEngine =>
      let t := default MAP_CONDITION_FN partial_fn_type in
      if bool_decide (t ∉ [MAP_CONDITION_FN; WINDOW_CONDITION_FN])
      then Raise ValueError else Ok t
  end.

(** The call raises the dedicated error for a missing column. *)
Definition raises_invalid_accessor {A : Type} (r : result A) : Prop :=
  r = Raise InvalidMetricAccessorDomainKwargsKeyError.

(** *** Column expressions of the query-generating backends *)

(** [sa.column(name)] for SQLAlchemy, [data[name]] for Spark. *)
Inductive vexpr : Type :=
| Column (name : string).

(** Boolean column expressions: an uninterpreted predicate of the
    business logic on a column, [e.is_(None)], [e.isNotNull()],
    [sa.not_(e)] / [~e], [sa.and_(a, b)] / [a & b], and [sa.or_] / [|]. *)
Inductive bexpr : Type :=
| Pred (p : string) (v : vexpr)
| IsNull (v : vexpr)
| IsNotNull (v : vexpr)
| Not (e : bexpr)
| And (a b : bexpr)
| Or (a b : bexpr).

(** Three-valued (Kleene) evaluation on one row; [None] is SQL's unknown. *)
Definition not3 (a : option bool) : option bool := negb <$> a.
Definition and3 (a b : option bool) : option bool :=
  match a, b with
  | Some false, _ | _, Some false => Some false
  | Some true, Some true => Some true
  | _, _ => None
  end.
Definition or3 (a b : option bool) : option bool :=
  match a, b with
  | Some true, _ | _, Some true => Some true
  | Some false, Some false => Some false
  | _, _ => None
  end.

Section Eval.
Context {V : Type}.
Variable interp : string -> cell V -> option bool.
Variable row : string -> cell V.

Definition eval_v (v : vexpr) : cell V :=
  match v with Column name => row name end.

Fixpoint eval (e : bexpr) : option bool :=
  match e with
  | Pred p v => interp p (eval_v v)
  | IsNull v => Some (match eval_v v with None => true | Some _ => false end)
  | IsNotNull v => Some (match eval_v v with None => false | Some _ => true end)
  | Not e => not3 (eval e)
  | And a b => and3 (eval a) (eval b)
  | Or a b => or3 (eval a) (eval b)
  end.
End Eval.

(** [sa.column(column_name)] with the name a Python value. *)
Definition sa_column (column_name : pyval) : result vexpr :=
  match column_name with
  | PStr name => Ok (Column name)
  | _ => Raise TypeError
  end.

(** *** The partial adapters ([inner_func] of each decorator)

    [kw] is the decorator's keyword [filter_column_isnull] when given;
    [metric_fn] is the business function, which may itself raise. *)

Section PandasPartials.
Context {V R : Type}.
Variable kw : option bool.

(** [column_function_partial], pandas engine. *)
Definition pandas_column_function_partial
    (metric_fn : Series (cell V) -> kwargs -> Metrics (Series bool) -> result R)
    (cls : ProviderClass) (execution_engine : ExecutionEngine (DataFrame V))
    (metric_domain_kwargs metric_value_kwargs : kwargs)
    (metrics : Metrics (Series bool)) : result (R * kwargs * kwargs) :=
  let filter_column_isnull := get_filter_column_isnull kw cls false in
  '(df, compute_domain_kwargs, accessor_domain_kwargs) ←
    get_compute_domain execution_engine metric_domain_kwargs COLUMN;
  column_name ← getitem accessor_domain_kwargs "column";
  _ ← check_column_exists column_name metrics;
  df ← (if filter_column_isnull then drop_null_rows df column_name else Ok df);
  column ← df_getitem_py df column_name;
  values ← metric_fn column metric_value_kwargs metrics;
  Ok (values, compute_domain_kwargs, accessor_domain_kwargs).

(** [column_condition_partial], pandas engine. *)
Definition pandas_column_condition_partial
    (metric_fn : Series (cell V) -> kwargs -> Metrics (Series bool)
                 -> result (Series bool))
    (cls : ProviderClass) (execution_engine : ExecutionEngine (DataFrame V))
    (metric_domain_kwargs metric_value_kwargs : kwargs)
    (metrics : Metrics (Series bool)) : result (Series bool * kwargs * kwargs) :=
  let filter_column_isnull := get_filter_column_isnull kw cls true in
  '(df, compute_domain_kwargs, accessor_domain_kwargs) ←
    get_compute_domain execution_engine metric_domain_kwargs COLUMN;
  column_name ← getitem accessor_domain_kwargs "column";
  _ ← check_column_exists column_name metrics;
  df ← (if filter_column_isnull then drop_null_rows df column_name else Ok df);
  column ← df_getitem_py df column_name;
  meets_expectation_series ← metric_fn column metric_value_kwargs metrics;
  Ok (series_invert meets_expectation_series,
      compute_domain_kwargs, accessor_domain_kwargs).

(** [column_pair_function_partial], pandas engine. *)
Definition pandas_column_pair_function_partial
    (metric_fn : Series (cell V) -> Series (cell V) -> kwargs
                 -> Metrics (Series bool) -> result R)
    (cls : ProviderClass) (execution_engine : ExecutionEngine (DataFrame V))
    (metric_domain_kwargs metric_value_kwargs : kwargs)
    (metrics : Metrics (Series bool)) : result (R * kwargs * kwargs) :=
  '(df, compute_domain_kwargs, accessor_domain_kwargs) ←
    get_compute_domain execution_engine metric_domain_kwargs COLUMN_PAIR;
  column_A_name ← getitem accessor_domain_kwargs "column_A";
  column_B_name ← getitem accessor_domain_kwargs "column_B";
  let column_list := [column_A_name; column_B_name] in
  _ ← check_columns_exist column_list metrics;
  column_A ← df_getitem_py df column_A_name;
  column_B ← df_getitem_py df column_B_name;
  values ← metric_fn column_A column_B metric_value_kwargs metrics;
  Ok (values, compute_domain_kwargs, accessor_domain_kwargs).

(** [column_pair_condition_partial], pandas engine. *)
Definition pandas_column_pair_condition_partial
    (metric_fn : Series (cell V) -> Series (cell V) -> kwargs
                 -> Metrics (Series bool) -> result (Series bool))
    (cls : ProviderClass) (execution_engine : ExecutionEngine (DataFrame V))
    (metric_domain_kwargs metric_value_kwargs : kwargs)
    (metrics : Metrics (Series bool)) : result (Series bool * kwargs * kwargs) :=
  '(df, compute_domain_kwargs, accessor_domain_kwargs) ←
    get_compute_domain execution_engine metric_domain_kwargs COLUMN_PAIR;
  column_A_name ← getitem accessor_domain_kwargs "column_A";
  column_B_name ← getitem accessor_domain_kwargs "column_B";
  let column_list := [column_A_name; column_B_name] in
  _ ← check_columns_exist column_list metrics;
  column_A ← df_getitem_py df column_A_name;
  column_B ← df_getitem_py df column_B_name;
  meets_expectation_series ← metric_fn column_A column_B metric_value_kwargs metrics;
  Ok (series_invert meets_expectation_series,
      compute_domain_kwargs, accessor_domain_kwargs).

(** [multicolumn_function_partial], pandas engine. *)
Definition pandas_multicolumn_function_partial
    (metric_fn : DataFrame V -> kwargs -> Metrics (Series bool) -> result R)
    (cls : ProviderClass) (execution_engine : ExecutionEngine (DataFrame V))
    (metric_domain_kwargs metric_value_kwargs : kwargs)
    (metrics : Metrics (Series bool)) : result (R * kwargs * kwargs) :=
  '(df, compute_domain_kwargs, accessor_domain_kwargs) ←
    get_compute_domain execution_engine metric_domain_kwargs MULTICOLUMN;
  column_list_value ← getitem accessor_domain_kwargs "column_list";
  column_list ← py_iter column_list_value;
  _ ← check_columns_exist column_list metrics;
  columns ← df_getitem_list df column_list;
  values ← metric_fn columns metric_value_kwargs metrics;
  Ok (values, compute_domain_kwargs, accessor_domain_kwargs).

(** [multicolumn_condition_partial], pandas engine. *)
Definition pandas_multicolumn_condition_partial
    (metric_fn : DataFrame V -> kwargs -> Metrics (Series bool)
                 -> result (Series bool))
    (cls : ProviderClass) (execution_engine : ExecutionEngine (DataFrame V))
    (metric_domain_kwargs metric_value_kwargs : kwargs)
    (metrics : Metrics (Series bool)) : result (Series bool * kwargs * kwargs) :=
  '(df, compute_domain_kwargs, accessor_domain_kwargs) ←
    get_compute_domain execution_engine metric_domain_kwargs MULTICOLUMN;
  column_list_value ← getitem accessor_domain_kwargs "column_list";
  column_list ← py_iter column_list_value;
  _ ← check_columns_exist column_list metrics;
  columns ← df_getitem_list df column_list;
  meets_expectation_series ← metric_fn columns metric_value_kwargs metrics;
  Ok (series_invert meets_expectation_series,
      compute_domain_kwargs, accessor_domain_kwargs).

End PandasPartials.

Section SqlAlchemyPartials.
(** The selectable, the dialect module and the SQLAlchemy engine are opaque
    handles passed on to the business function. *)
Context {Selectable Dialect SaEngine R : Type}.
Variable kw : option bool.

Record SqlAlchemyExecutionEngine_obj : Type := mkSqlEngine {
  sql_base : ExecutionEngine Selectable;
  dialect_module : Dialect;
  engine : SaEngine
}.

(** [column_function_partial], SQLAlchemy engine. *)
Definition sqlalchemy_column_function_partial
    (metric_fn : vexpr -> kwargs -> Dialect -> Selectable -> Metrics bexpr
                 -> result R)
    (cls : ProviderClass) (execution_engine : SqlAlchemyExecutionEngine_obj)
    (metric_domain_kwargs metric_value_kwargs : kwargs)
    (metrics : Metrics bexpr) : result (R * kwargs * kwargs) :=
  let filter_column_isnull := get_filter_column_isnull kw cls false in
  compute_domain_kwargs ←
    (if filter_column_isnull
     then add_column_row_condition (sql_base execution_engine)
            metric_domain_kwargs None
     else Ok metric_domain_kwargs);
  '(selectable, compute_domain_kwargs, accessor_domain_kwargs) ←
    get_compute_domain (sql_base execution_engine) compute_domain_kwargs COLUMN;
  column_name ← getitem accessor_domain_kwargs "column";
  _ ← check_column_exists column_name metrics;
  let dialect := dialect_module execution_engine in
  column ← sa_column column_name;
  column_function ← metric_fn column metric_value_kwargs dialect selectable metrics;
  Ok (column_function, compute_domain_kwargs, accessor_domain_kwargs).

(** [column_condition_partial], SQLAlchemy engine. *)
Definition sqlalchemy_column_condition_partial
    (metric_fn : vexpr -> kwargs -> Dialect -> Selectable -> SaEngine
                 -> Metrics bexpr -> result bexpr)
    (cls : ProviderClass) (execution_engine : SqlAlchemyExecutionEngine_obj)
    (metric_domain_kwargs metric_value_kwargs : kwargs)
    (metrics : Metrics bexpr) : result (bexpr * kwargs * kwargs) :=
  let filter_column_isnull := get_filter_column_isnull kw cls true in
  '(selectable, compute_domain_kwargs, accessor_domain_kwargs) ←
    get_compute_domain (sql_base execution_engine) metric_domain_kwargs COLUMN;
  column_name ← getitem accessor_domain_kwargs "column";
  _ ← check_column_exists column_name metrics;
  let sqlalchemy_engine := engine execution_engine in
  let dialect := dialect_module execution_engine in
  column ← sa_column column_name;
  expected_condition ←
    metric_fn column metric_value_kwargs dialect selectable sqlalchemy_engine
      metrics;
  unexpected_condition ←
    (if filter_column_isnull then
       column ← sa_column column_name;
       Ok (And (Not (IsNull column)) (Not expected_condition))
     else Ok (Not expected_condition));
  Ok (unexpected_condition, compute_domain_kwargs, accessor_domain_kwargs).

End SqlAlchemyPartials.

Section SparkPartials.
Context {R : Type}.
Variable kw : option bool.

(** A Spark data frame, as far as the adapters look at it: [data[name]] is
    a column reference, and the backend's own error for an unknown name. *)
Record SparkDataFrame : Type := mkSparkDataFrame {
  spark_columns : list string
}.

Definition spark_getitem (data : SparkDataFrame) (column_name : pyval)
    : result vexpr :=
  match column_name with
  | PStr name =>
      if bool_decide (name ∈ spark_columns data) then Ok (Column name)
      else Raise (BackendError "AnalysisException")
  | _ => Raise TypeError
  end.

(** [column_function_partial], Spark engine. *)
Definition spark_column_function_partial
    (metric_fn : vexpr -> kwargs -> Metrics bexpr -> kwargs -> result R)
    (cls : ProviderClass) (execution_engine : ExecutionEngine SparkDataFrame)
    (metric_domain_kwargs metric_value_kwargs : kwargs)
    (metrics : Metrics bexpr) : result (R * kwargs * kwargs) :=
  let filter_column_isnull := get_filter_column_isnull kw cls false in
  compute_domain_kwargs ←
    (if filter_column_isnull
     then add_column_row_condition execution_engine metric_domain_kwargs None
     else Ok metric_domain_kwargs);
  '(data, compute_domain_kwargs, accessor_domain_kwargs) ←
    get_compute_domain execution_engine compute_domain_kwargs COLUMN;
  column_name ← getitem accessor_domain_kwargs "column";
  _ ← check_column_exists column_name metrics;
  column ← spark_getitem data column_name;
  column_function ←
    metric_fn column metric_value_kwargs metrics compute_domain_kwargs;
  Ok (column_function, compute_domain_kwargs, accessor_domain_kwargs).

(** [column_condition_partial], Spark engine, for the validated
    [partial_fn_type]. *)
Definition spark_column_condition_partial
    (partial_fn_type : MetricPartialFunctionTypes)
    (metric_fn : vexpr -> kwargs -> SparkDataFrame -> Metrics bexpr -> kwargs
                 -> kwargs -> result bexpr)
    (cls : ProviderClass) (execution_engine : ExecutionEngine SparkDataFrame)
    (metric_domain_kwargs metric_value_kwargs : kwargs)
    (metrics : Metrics bexpr) : result (bexpr * kwargs * kwargs) :=
  let filter_column_isnull := get_filter_column_isnull kw cls true in
  '(data, compute_domain_kwargs, accessor_domain_kwargs) ←
    get_compute_domain execution_engine metric_domain_kwargs COLUMN;
  column_name ← getitem accessor_domain_kwargs "column";
  _ ← check_column_exists column_name metrics;
  column ← spark_getitem data column_name;
  expected_condition ←
    metric_fn column metric_value_kwargs data metrics compute_domain_kwargs
      accessor_domain_kwargs;
  if bool_decide (partial_fn_type = WINDOW_CONDITION_FN) then
    compute_domain_kwargs ←
      (if filter_column_isnull
       then add_column_row_condition execution_engine compute_domain_kwargs
              (Some column_name)
       else Ok compute_domain_kwargs);
    Ok (Not expected_condition, compute_domain_kwargs, accessor_domain_kwargs)
  else if filter_column_isnull then
    Ok (And (IsNotNull column) (Not expected_condition),
        compute_domain_kwargs, accessor_domain_kwargs)
  else
    Ok (Not expected_condition, compute_domain_kwargs, accessor_domain_kwargs).

End SparkPartials.

(** *** The in-memory providers of the unexpected-count and detail metrics

    [kw] is the keyword [filter_column_isnull] of the call, when given. *)

Section PandasDetails.
Context {V : Type}.
Variable kw : option bool.

(** [_pandas_map_condition_unexpected_count] *)
Definition _pandas_map_condition_unexpected_count
    (cls : ProviderClass) (execution_engine : ExecutionEngine (DataFrame V))
    (metric_domain_kwargs metric_value_kwargs : kwargs)
    (metrics : Metrics (Series bool)) : result nat :=
  '(boolean_mapped_unexpected_values, _, _) ← metrics_unexpected_condition metrics;
  Ok (count_nonzero boolean_mapped_unexpected_values).

(** [_pandas_column_map_condition_values] *)
Definition _pandas_column_map_condition_values
    (cls : ProviderClass) (execution_engine : ExecutionEngine (DataFrame V))
    (metric_domain_kwargs metric_value_kwargs : kwargs)
    (metrics : Metrics (Series bool)) : result (list (cell V)) :=
  '(boolean_mapped_unexpected_values, compute_domain_kwargs,
    accessor_domain_kwargs) ← metrics_unexpected_condition metrics;
  df ← get_domain_records execution_engine compute_domain_kwargs;
  let filter_column_isnull := get_filter_column_isnull kw cls false in
  if bool_decide ("column" ∉ dom accessor_domain_kwargs) then Raise ValueError
  else
    column_name ← getitem accessor_domain_kwargs "column";
    _ ← check_column_exists column_name metrics;
    df ← (if filter_column_isnull then drop_null_rows df column_name else Ok df);
    domain_values ← df_getitem_py df column_name;
    domain_values ←
      series_getitem_mask domain_values
        (series_eq_True boolean_mapped_unexpected_values);
    result_format ← getitem metric_value_kwargs "result_format";
    format ← py_getitem_str result_format "result_format";
    if py_eq_str format "COMPLETE" then Ok (series_to_list domain_values)
    else
      partial_unexpected_count ←
        py_getitem_str result_format "partial_unexpected_count";
      bound ← py_slice_bound partial_unexpected_count;
      Ok (series_to_list (slice_to_bound domain_values bound)).

(** The column checks shared by [_pandas_map_condition_index] and
    [_pandas_map_condition_rows]: a ["column"] accessor is checked and its
    null rows dropped on request, else the members of a ["column_list"]
    accessor are checked. *)
Definition check_accessor_columns (filter_column_isnull : bool)
    (accessor_domain_kwargs : kwargs) (metrics : Metrics (Series bool))
    (df : DataFrame V) : result (DataFrame V) :=
  if bool_decide ("column" ∈ dom accessor_domain_kwargs) then
    column_name ← getitem accessor_domain_kwargs "column";
    _ ← check_column_exists column_name metrics;
    if filter_column_isnull then drop_null_rows df column_name else Ok df
  else if bool_decide ("column_list" ∈ dom accessor_domain_kwargs) then
    column_list_value ← getitem accessor_domain_kwargs "column_list";
    column_list ← py_iter column_list_value;
    _ ← check_columns_exist column_list metrics;
    Ok df
  else Ok df.

(** [_pandas_map_condition_index] *)
Definition _pandas_map_condition_index
    (cls : ProviderClass) (execution_engine : ExecutionEngine (DataFrame V))
    (metric_domain_kwargs metric_value_kwargs : kwargs)
    (metrics : Metrics (Series bool)) : result (list label) :=
  '(boolean_mapped_unexpected_values, compute_domain_kwargs,
    accessor_domain_kwargs) ← metrics_get_unexpected_condition metrics;
  domain_kwargs ← dict_merge compute_domain_kwargs accessor_domain_kwargs;
  df ← get_domain_records execution_engine domain_kwargs;
  let filter_column_isnull := get_filter_column_isnull kw cls false in
  df ← check_accessor_columns filter_column_isnull accessor_domain_kwargs metrics df;
  result_format ← getitem metric_value_kwargs "result_format";
  df ← df_getitem_mask df boolean_mapped_unexpected_values;
  format ← py_getitem_str result_format "result_format";
  if py_eq_str format "COMPLETE" then Ok (df_index df)
  else
    partial_unexpected_count ←
      py_getitem_str result_format "partial_unexpected_count";
    bound ← py_slice_bound partial_unexpected_count;
    Ok (slice_to_bound (df_index df) bound).

(** [_pandas_map_condition_rows] *)
Definition _pandas_map_condition_rows
    (cls : ProviderClass) (execution_engine : ExecutionEngine (DataFrame V))
    (metric_domain_kwargs metric_value_kwargs : kwargs)
    (metrics : Metrics (Series bool)) : result (DataFrame V) :=
  '(boolean_mapped_unexpected_values, compute_domain_kwargs,
    accessor_domain_kwargs) ← metrics_get_unexpected_condition metrics;
  domain_kwargs ← dict_merge compute_domain_kwargs accessor_domain_kwargs;
  df ← get_domain_records execution_engine domain_kwargs;
  let filter_column_isnull := get_filter_column_isnull kw cls false in
  df ← check_accessor_columns filter_column_isnull accessor_domain_kwargs metrics df;
  result_format ← getitem metric_value_kwargs "result_format";
  df ← df_getitem_mask df boolean_mapped_unexpected_values;
  format ← py_getitem_str result_format "result_format";
  if py_eq_str format "COMPLETE" then Ok df
  else
    partial_unexpected_count ←
      py_getitem_str result_format "partial_unexpected_count";
    bound ← py_slice_bound partial_unexpected_count;
    Ok (mkDataFrame (df_columns df) (slice_to_bound (df_rows df) bound)).

(** The rows a column-domain detail provider works on: the domain records,
    without the rows whose cell in the column is null when null filtering
    is on. *)
Definition domain_rows (filter_column_isnull : bool) (df : DataFrame V)
    (column : string) : list (label * (string -> cell V)) :=
  if filter_column_isnull
  then List.filter (fun r => is_value (r.2 column)) (df_rows df)
  else df_rows df.

(** The values of the column at the rows a mask marks, in row order. *)
Definition values_at (rows : list (label * (string -> cell V)))
    (column : string) (mask : Series bool) : list (cell V) :=
  select (map (fun r => r.2 column) rows) mask.*2.

End PandasDetails.

(** *** The value-counts provider of the in-memory backend *)

(** The counting strategies the provider can attempt. *)
Inductive counting_strategy : Type :=
| DirectValueCounts     (* [series.value_counts()] *)
| TupleValueCounts.     (* [series.apply(tuple).value_counts()] *)

Section PandasValueCounts.
(** The pandas operations are taken as given: [value_counts] computes the
    counts (of type [Counts], a Series) of a Series or raises,
    [apply_tuple] is [series.apply(tuple)], and [counts_getitem] is
    [counts[label]]. *)
Context {V Counts : Type}.
Variable value_counts : Series (cell V) -> result Counts.
Variable apply_tuple : Series (cell V) -> result (Series (cell V)).
Variable counts_getitem : Counts -> pyval -> result pyval.
Variable kw : option bool.

(** pandas: the truth value of a Series is ambiguous; [bool(series)], and so
    [not series], raises [ValueError] whatever the Series holds. *)
Definition series_bool (counts : Counts) : result bool := Raise ValueError.

(** What the provider returns: all the counts, or the entry at one label. *)
Inductive value_counts_result : Type :=
| AllCounts (counts : Counts)
| CountAt (v : pyval).

(** [_pandas_column_map_condition_value_counts], with the list of the
    counting strategies it attempted. *)
Definition _pandas_column_map_condition_value_counts
    (cls : ProviderClass) (execution_engine : ExecutionEngine (DataFrame V))
    (metric_domain_kwargs metric_value_kwargs : kwargs)
    (metrics : Metrics (Series bool))
    : list counting_strategy * result value_counts_result :=
  let prelude :=
    '(boolean_mapped_unexpected_values, compute_domain_kwargs,
      accessor_domain_kwargs) ← metrics_get_unexpected_condition metrics;
    df ← get_domain_records execution_engine compute_domain_kwargs;
    let filter_column_isnull := get_filter_column_isnull kw cls false in
    column_name ← getitem accessor_domain_kwargs "column";
    if bool_decide ("column" ∉ dom accessor_domain_kwargs) then Raise ValueError
    else
      _ ← check_column_exists column_name metrics;
      df ← (if filter_column_isnull then drop_null_rows df column_name else Ok df);
      domain_values ← df_getitem_py df column_name;
      result_format ← getitem metric_value_kwargs "result_format";
      Ok (domain_values, boolean_mapped_unexpected_values, result_format) in
  match prelude with
  | Raise e => ([], Raise e)
  | Ok (domain_values, boolean_mapped_unexpected_values, result_format) =>
      let '(attempts, counted) :=
        match (selected ← series_getitem_mask domain_values
                            boolean_mapped_unexpected_values;
               value_counts selected) with
        | Ok counts => ([DirectValueCounts], Ok (Some counts))
        | Raise ValueError =>
            match (selected ← series_getitem_mask domain_values
                                boolean_mapped_unexpected_values;
                   tuples ← apply_tuple selected;
                   value_counts tuples) with
            | Ok counts => ([DirectValueCounts; TupleValueCounts], Ok (Some counts))
            | Raise ValueError => ([DirectValueCounts; TupleValueCounts], Ok None)
            | Raise e => ([DirectValueCounts; TupleValueCounts], Raise e)
            end
        | Raise e => ([DirectValueCounts], Raise e)
        end in
      (attempts,
       value_counts ← counted;
       match value_counts with
       | None => Raise MetricComputationError
       | Some counts =>
           truth ← series_bool counts;
           if negb truth then Raise MetricComputationError
           else
             format ← py_getitem_str result_format "result_format";
             if py_eq_str format "COMPLETE" then Ok (AllCounts counts)
             else
               partial_unexpected_count ←
                 py_getitem_str result_format "partial_unexpected_count";
               v ← counts_getitem counts partial_unexpected_count;
               Ok (CountAt v)
       end)
  end.

End PandasValueCounts.

End Providers.

(** ** The parameter namespace of the rule-based profiler
    ([parameter_container.py]) *)

Module Params.
Import Frames.

Definition FULLY_QUALIFIED_PARAMETER_NAME_DELIMITER_CHARACTER : string := "$".
Definition FULLY_QUALIFIED_PARAMETER_NAME_SEPARATOR_CHARACTER : string := ".".
Definition DOMAIN_KWARGS_PARAMETER_NAME : string := "domain_kwargs".
Definition DOMAIN_KWARGS_PARAMETER_FULLY_QUALIFIED_NAME : string :=
  "$domain.domain_kwargs".
Definition PARAMETER_NAME_ROOT_FOR_VARIABLES : string := "variables".
Definition VARIABLES_PREFIX : string := "$variables".
Definition VARIABLES_KEY : string := "$variables.".
Definition PARAMETER_NAME_ROOT_FOR_PARAMETERS : string := "parameter".
Definition PARAMETER_PREFIX : string := "$parameter".
Definition PARAMETER_KEY : string := "$parameter.".
Definition FULLY_QUALIFIED_PARAMETER_NAME_VALUE_KEY : string := "value".
Definition FULLY_QUALIFIED_PARAMETER_NAME_ATTRIBUTED_VALUE_KEY : string :=
  "attributed_value".
Definition FULLY_QUALIFIED_PARAMETER_NAME_METADATA_KEY : string := "details".

(** The members of the set [RESERVED_TERMINAL_LITERALS]. *)
Definition RESERVED_TERMINAL_LITERALS : list string :=
  [ FULLY_QUALIFIED_PARAMETER_NAME_VALUE_KEY;
    FULLY_QUALIFIED_PARAMETER_NAME_ATTRIBUTED_VALUE_KEY;
    FULLY_QUALIFIED_PARAMETER_NAME_METADATA_KEY ].

(** *** Dictionaries in insertion order *)

Abbreviation dict := (list (string * pyval)).

Fixpoint dict_get (d : dict) (key : string) : option pyval :=
  match d with
  | [] => None
  | (k, v) :: d' => if String.eqb k key then Some v else dict_get d' key
  end.

(** [d[key] = v]: an existing key keeps its place, a new one goes last. *)
Fixpoint dict_set (d : dict) (key : string) (v : pyval) : dict :=
  match d with
  | [] => [(key, v)]
  | (k, w) :: d' =>
      if String.eqb k key then (k, v) :: d' else (k, w) :: dict_set d' key v
  end.

Definition dict_contains (d : dict) (key : string) : bool :=
  match dict_get d key with Some _ => true | None => false end.

(** *** Strings *)

(** [s.split(".")]: the pieces between the separators, never an empty list. *)
Fixpoint split_on (sep : ascii) (s : string) : list string :=
  match s with
  | EmptyString => [EmptyString]
  | String a s' =>
      if Ascii.eqb a sep then EmptyString :: split_on sep s'
      else match split_on sep s' with
           | piece :: pieces => String a piece :: pieces
           | [] => [String a EmptyString]
           end
  end.

(** [sep.join(pieces)] *)
Fixpoint join (sep : string) (pieces : list string) : string :=
  match pieces with
  | [] => EmptyString
  | [p] => p
  | p :: ps => p +:+ sep +:+ join sep ps
  end.

(** *** The grammar [attribute_naming_pattern] *)

Definition in_range (lo hi : nat) (a : ascii) : bool :=
  Nat.leb lo (nat_of_ascii a) && Nat.leb (nat_of_ascii a) hi.

(** pyparsing's [alphas], [nums] and the body characters
    [alphanums + "_."] of a name. *)
Definition is_alpha (a : ascii) : bool := in_range 65 90 a || in_range 97 122 a.
Definition is_num (a : ascii) : bool := in_range 48 57 a.
Definition is_name_body (a : ascii) : bool :=
  is_alpha a || is_num a || Ascii.eqb a "_"%char || Ascii.eqb a "."%char.
Definition is_index_char (a : ascii) : bool := is_num a || Ascii.eqb a "-"%char.

(** The characters pyparsing skips before every token. *)
Definition is_white (a : ascii) : bool :=
  Ascii.eqb a " "%char || Nat.eqb (nat_of_ascii a) 9
  || Nat.eqb (nat_of_ascii a) 10 || Nat.eqb (nat_of_ascii a) 13.

Fixpoint skip_white (s : list ascii) : list ascii :=
  match s with
  | a :: s' => if is_white a then skip_white s' else s
  | [] => []
  end.

Fixpoint take_while (p : ascii -> bool) (s : list ascii) : list ascii * list ascii :=
  match s with
  | a :: s' =>
      if p a then let '(w, rest) := take_while p s' in (a :: w, rest)
      else ([], s)
  | [] => ([], [])
  end.

(** [Word(alphas, alphanums + "_.")] *)
Definition parse_name (s : list ascii) : option (string * list ascii) :=
  match skip_white s with
  | a :: s' =>
      if is_alpha a then
        let '(w, rest) := take_while is_name_body s' in
        Some (string_of_list_ascii (a :: w), rest)
      else None
  | [] => None
  end.

(** [Literal(lit)] *)
Fixpoint starts_with (lit s : list ascii) : option (list ascii) :=
  match lit, s with
  | [], _ => Some s
  | a :: lit', b :: s' => if Ascii.eqb a b then starts_with lit' s' else None
  | _ :: _, [] => None
  end.
Definition parse_literal (lit : string) (s : list ascii) : option (list ascii) :=
  starts_with (list_ascii_of_string lit) (skip_white s).

(** [Word(nums + "-")] *)
Definition parse_index_word (s : list ascii) : option (list ascii * list ascii) :=
  match take_while is_index_char (skip_white s) with
  | ([], _) => None
  | (w, rest) => Some (w, rest)
  end.

(** The parse action [int(t[0])] on a word of digits and dashes: an
    optional leading dash and at least one digit, else [ValueError]. *)
Definition digits_value (w : list ascii) : Z :=
  fold_left (fun acc a => (10 * acc + Z.of_nat (nat_of_ascii a - 48))%Z) w 0%Z.
Definition int_of_word (w : list ascii) : result Z :=
  match w with
  | a :: w' =>
      if Ascii.eqb a "-"%char then
        match w' with
        | [] => Raise ValueError
        | _ => if forallb is_num w' then Ok (- digits_value w')%Z
               else Raise ValueError
        end
      else if forallb is_num w then Ok (digits_value w) else Raise ValueError
  | [] => Raise ValueError
  end.

Definition dquote : ascii := ascii_of_nat 34.
Definition squote : ascii := ascii_of_nat 39.

(** A bracketed string key with the quote character [q]:
    [Suppress(Literal('[q')) + Word(alphas, alphanums + "_.")
     + Suppress(Literal('q]'))]. *)
Definition parse_quoted_key (q : ascii) (s : list ascii)
    : option (string * list ascii) :=
  s1 ← starts_with ["["%char; q] (skip_white s);
  '(w, s2) ← parse_name s1;
  s3 ← starts_with [q; "]"%char] (skip_white s2);
  Some (w, s3).

(** A bracketed index: [Suppress("[") + Word(nums + "-") + Suppress("]")]. *)
Definition parse_index (s : list ascii) : option (list ascii * list ascii) :=
  s1 ← starts_with ["["%char] (skip_white s);
  '(w, s2) ← parse_index_word s1;
  s3 ← starts_with ["]"%char] (skip_white s2);
  Some (w, s3).

(** One accessor.  The three alternatives of the grammar start differently,
    so at most one matches and the longest match is the first one found.
    The token is a string key or an integer index; the index's parse action
    can raise. *)
Definition parse_accessor (s : list ascii) : option (result pyval * list ascii) :=
  match parse_quoted_key dquote s with
  | Some (w, rest) => Some (Ok (PStr w), rest)
  | None =>
      match parse_quoted_key squote s with
      | Some (w, rest) => Some (Ok (PStr w), rest)
      | None =>
          match parse_index s with
          | Some (w, rest) => Some (z ← int_of_word w; Ok (PInt z), rest)
          | None => None
          end
      end
  end.

(** [ZeroOrMore(accessor)]; every accessor consumes input, so the length of
    the input bounds the number of rounds. *)
Fixpoint parse_accessors (fuel : nat) (s : list ascii) : result (list pyval) :=
  match fuel with
  | O => Ok []
  | S fuel' =>
      match parse_accessor s with
      | None => Ok []
      | Some (Raise e, _) => Raise e
      | Some (Ok token, rest) =>
          tokens ← parse_accessors fuel' rest; Ok (token :: tokens)
      end
  end.

(** [_parse_attribute_naming_pattern]: the tokens of the longest prefix of
    [name] the grammar matches (the rest of [name] is ignored). *)
Definition _parse_attribute_naming_pattern (name : string) : result (list pyval) :=
  match parse_name (list_ascii_of_string name) with
  | None => Raise ParameterAttributeNameParserError
  | Some (w, rest) =>
      tokens ← parse_accessors (length rest) rest; Ok (PStr w :: tokens)
  end.

(** [is_fully_qualified_parameter_name_literal_string_format] *)
Definition is_fully_qualified_parameter_name_literal_string_format
    (fully_qualified_parameter_name : string) : bool :=
  startswith fully_qualified_parameter_name
    FULLY_QUALIFIED_PARAMETER_NAME_DELIMITER_CHARACTER.

(** [validate_fully_qualified_parameter_name] *)
Definition validate_fully_qualified_parameter_name
    (fully_qualified_parameter_name : string) : result unit :=
  if negb (is_fully_qualified_parameter_name_literal_string_format
             fully_qualified_parameter_name)
  then Raise ProfilerExecutionError else Ok tt.

(** *** Parameter nodes and containers *)

(** [convert_dictionaries_to_parameter_nodes]: every dictionary becomes a
    [ParameterNode], inside lists too. *)
Fixpoint convert_dictionaries_to_parameter_nodes (source : pyval) : pyval :=
  match source with
  | PDict d =>
      PNode (map (fun e => match e with
                           | (key, value) =>
                               (key, convert_dictionaries_to_parameter_nodes value)
                           end) d)
  | PNode d =>
      PNode (map (fun e => match e with
                           | (key, value) =>
                               (key, convert_dictionaries_to_parameter_nodes value)
                           end) d)
  | PList l => PList (map convert_dictionaries_to_parameter_nodes l)
  | _ => source
  end.

(** The root nodes of a container are [ParameterNode]s, given by their
    entries; [parameter_nodes] is [None] until the first root is set. *)
Record ParameterContainer : Type := mkContainer {
  parameter_nodes : option (list (string * dict))
}.

Fixpoint roots_get (roots : list (string * dict)) (key : string) : option dict :=
  match roots with
  | [] => None
  | (k, v) :: roots' => if String.eqb k key then Some v else roots_get roots' key
  end.

Fixpoint roots_set (roots : list (string * dict)) (key : string) (v : dict)
    : list (string * dict) :=
  match roots with
  | [] => [(key, v)]
  | (k, w) :: roots' =>
      if String.eqb k key then (k, v) :: roots'
      else (k, w) :: roots_set roots' key v
  end.

(** [ParameterContainer.set_parameter_node] *)
Definition set_parameter_node (self : ParameterContainer)
    (parameter_name_root : string) (parameter_node : dict) : ParameterContainer :=
  mkContainer
    (Some (roots_set (default [] (parameter_nodes self))
             parameter_name_root parameter_node)).

(** [ParameterContainer.get_parameter_node]; [None] when there is no such
    root. *)
Definition get_parameter_node (self : ParameterContainer)
    (parameter_name_root : string) : option pyval :=
  match parameter_nodes self with
  | None => None
  | Some roots =>
      match roots_get roots parameter_name_root with
      | None => None
      | Some d => Some (convert_dictionaries_to_parameter_nodes (PNode d))
      end
  end.

(** [_build_parameter_node_tree_for_one_parameter]: the node after the
    in-place update.  Writing below a value that is not a dictionary is a
    [TypeError] (membership test or item assignment on it). *)
Fixpoint _build_parameter_node_tree_for_one_parameter (parameter_node : pyval)
    (parameter_name_as_list : list string) (parameter_value : pyval)
    : result pyval :=
  match parameter_name_as_list with
  | [] => Raise IndexError
  | parameter_name_part :: rest =>
      match rest with
      | _ :: _ =>
          match parameter_node with
          | PNode d =>
              let child := default (PNode []) (dict_get d parameter_name_part) in
              child' ← _build_parameter_node_tree_for_one_parameter child rest
                         parameter_value;
              Ok (PNode (dict_set d parameter_name_part child'))
          | PDict d =>
              let child := default (PNode []) (dict_get d parameter_name_part) in
              child' ← _build_parameter_node_tree_for_one_parameter child rest
                         parameter_value;
              Ok (PDict (dict_set d parameter_name_part child'))
          | _ => Raise TypeError
          end
      | [] =>
          let leaf := convert_dictionaries_to_parameter_nodes parameter_value in
          match parameter_node with
          | PNode d => Ok (PNode (dict_set d parameter_name_part leaf))
          | PDict d => Ok (PDict (dict_set d parameter_name_part leaf))
          | _ => Raise TypeError
          end
      end
  end.

(** One round of the loop of [build_parameter_container]. *)
Definition build_one_parameter (parameter_container : ParameterContainer)
    (fully_qualified_parameter_name : string) (parameter_value : pyval)
    : result ParameterContainer :=
  _ ← validate_fully_qualified_parameter_name fully_qualified_parameter_name;
  let fully_qualified_parameter_name_as_list :=
    split_on "."%char (drop_first 1 fully_qualified_parameter_name) in
  parameter_name_root ←
    match fully_qualified_parameter_name_as_list with
    | root :: _ => Ok root
    | [] => Raise IndexError
    end;
  let parameter_node :=
    default (PNode []) (get_parameter_node parameter_container parameter_name_root) in
  parameter_node ←
    _build_parameter_node_tree_for_one_parameter parameter_node
      fully_qualified_parameter_name_as_list parameter_value;
  match parameter_node with
  | PNode d => Ok (set_parameter_node parameter_container parameter_name_root d)
  | _ => Raise TypeError
  end.

(** [build_parameter_container]: the container after all the writes, in the
    order of [parameter_values]. *)
Fixpoint build_parameter_container (parameter_container : ParameterContainer)
    (parameter_values : list (string * pyval)) : result ParameterContainer :=
  match parameter_values with
  | [] => Ok parameter_container
  | (fully_qualified_parameter_name, parameter_value) :: rest =>
      parameter_container ←
        build_one_parameter parameter_container fully_qualified_parameter_name
          parameter_value;
      build_parameter_container parameter_container rest
  end.

(** [build_parameter_container_for_variables] *)
Definition build_parameter_container_for_variables
    (variables_configs : list (string * pyval)) : result ParameterContainer :=
  let parameter_values :=
    fold_left (fun acc e => dict_set acc (VARIABLES_KEY +:+ e.1) e.2)
      variables_configs [] in
  build_parameter_container (mkContainer None) parameter_values.

(** [container[key]] for the tokens of a name part: a string or an integer. *)
Definition py_getitem (container key : pyval) : result pyval :=
  match container, key with
  | PNode d, PStr k | PDict d, PStr k =>
      match dict_get d k with Some v => Ok v | None => Raise KeyError end
  | PNode _, _ | PDict _, _ => Raise KeyError
  | PList l, PInt i =>
      match index_at l i with Some v => Ok v | None => Raise IndexError end
  | PStr s, PInt i =>
      match index_at (list_ascii_of_string s) i with
      | Some a => Ok (PStr (String a EmptyString))
      | None => Raise IndexError
      end
  | _, _ => Raise TypeError
  end.

Fixpoint is_substring (k s : list ascii) : bool :=
  match starts_with k s with
  | Some _ => true
  | None => match s with
            | [] => false
            | _ :: s' => is_substring k s'
            end
  end.

(** [key in container] for a string [key]. *)
Definition py_contains (container : pyval) (key : string) : result bool :=
  match container with
  | PNode d | PDict d => Ok (dict_contains d key)
  | PList l => Ok (existsb (fun v => py_eq_str v key) l)
  | PStr s => Ok (is_substring (list_ascii_of_string key) (list_ascii_of_string s))
  | _ => Raise TypeError
  end.

(** The body of the loop over the parts of a name: the value reached, with
    the node the part was looked up in and the name looked up. *)
Definition resolve_part (parameter_name_part : string) (return_value : pyval)
    : result (pyval * pyval * string) :=
  parsed_attribute_name ← _parse_attribute_naming_pattern parameter_name_part;
  match parsed_attribute_name with
  | PStr attribute_value_reference :: accessors =>
      let parent_parameter_node := return_value in
      return_value ← py_getitem return_value (PStr attribute_value_reference);
      return_value ←
        foldl (fun acc attribute_value_accessor =>
                 v ← acc; py_getitem v attribute_value_accessor)
          (Ok return_value) accessors;
      Ok (return_value, parent_parameter_node, attribute_value_reference)
  | _ => Raise KeyError
  end.

Fixpoint resolve_parts (parts : list string) (state : pyval * pyval * string)
    : result (pyval * pyval * string) :=
  match parts with
  | [] => Ok state
  | parameter_name_part :: rest =>
      state ← resolve_part parameter_name_part state.1.1;
      resolve_parts rest state
  end.

(** [_get_parameter_value_from_parameter_container]; a [KeyError] of the
    loop is raised again as a [KeyError] (with another message). *)
Definition _get_parameter_value_from_parameter_container
    (fully_qualified_parameter_name : string)
    (fully_qualified_parameter_name_as_list : list string)
    (parameter_container : ParameterContainer) : result pyval :=
  parameter_name_root ←
    match fully_qualified_parameter_name_as_list with
    | root :: _ => Ok root
    | [] => Raise IndexError
    end;
  match get_parameter_node parameter_container parameter_name_root with
  | None => Ok PNone
  | Some parameter_node =>
      '(return_value, parent_parameter_node, attribute_value_reference) ←
        match resolve_parts fully_qualified_parameter_name_as_list
                (parameter_node, PNone, EmptyString) with
        | Raise KeyError => Raise KeyError
        | r => r
        end;
      present ← py_contains parent_parameter_node attribute_value_reference;
      if negb present then Raise KeyError else Ok return_value
  end.

(** Modelled from the spec: the class [Domain] of
    [great_expectations.rule_based_profiler.types] is not among the sources.
    A domain has an identity ([id]), by which the per-domain parameter
    containers are looked up, and its own [domain_kwargs]. *)
Record Domain : Type := mkDomain {
  domain_id : string;
  domain_kwargs : pyval
}.

(** The truth value of a Python value. *)
Definition py_truthy (v : pyval) : bool :=
  match v with
  | PNone => false
  | PBool b => b
  | PInt z => negb (Z.eqb z 0)
  | PStr s => negb (String.eqb s EmptyString)
  | PList l => match l with [] => false | _ => true end
  | PDict d | PNode d => match d with [] => false | _ => true end
  end.

(** [parameters[domain.id]] *)
Definition parameters_getitem (domain : option Domain)
    (parameters : option (list (string * option ParameterContainer)))
    : result (option ParameterContainer) :=
  match domain with
  | None => Raise AttributeError
  | Some dom =>
      match parameters with
      | None => Raise TypeError
      | Some ps =>
          match list_find (fun e : string * option ParameterContainer =>
                             e.1 = domain_id dom) ps with
          | Some (_, e) => Ok e.2
          | None => Raise KeyError
          end
      end
  end.

(** [get_parameter_value_by_fully_qualified_parameter_name] *)
Definition get_parameter_value_by_fully_qualified_parameter_name
    (fully_qualified_parameter_name : string) (domain : option Domain)
    (variables : option ParameterContainer)
    (parameters : option (list (string * option ParameterContainer)))
    : result pyval :=
  _ ← validate_fully_qualified_parameter_name fully_qualified_parameter_name;
  if String.eqb fully_qualified_parameter_name
       DOMAIN_KWARGS_PARAMETER_FULLY_QUALIFIED_NAME then
    match domain with
    | Some dom => Ok (domain_kwargs dom)
    | None => Ok PNone
    end
  else if startswith fully_qualified_parameter_name
            DOMAIN_KWARGS_PARAMETER_FULLY_QUALIFIED_NAME then
    match domain with
    | Some dom =>
        if py_truthy (domain_kwargs dom) then
          match domain_kwargs dom with
          | PDict d | PNode d =>
              Ok (default PNone
                    (dict_get d
                       (drop_first
                          (String.length
                             (DOMAIN_KWARGS_PARAMETER_FULLY_QUALIFIED_NAME
                                +:+ FULLY_QUALIFIED_PARAMETER_NAME_SEPARATOR_CHARACTER))
                          fully_qualified_parameter_name)))
          | _ => Raise AttributeError
          end
        else Ok PNone
    | None => Ok PNone
    end
  else
    parameter_container ←
      (if startswith fully_qualified_parameter_name VARIABLES_PREFIX
       then Ok variables
       else parameters_getitem domain parameters);
    let fully_qualified_parameter_name :=
      drop_first 1 fully_qualified_parameter_name in
    let fully_qualified_parameter_name_as_list :=
      split_on "."%char fully_qualified_parameter_name in
    match fully_qualified_parameter_name_as_list with
    | [] => Ok PNone
    | _ =>
        match parameter_container with
        | None => Raise AttributeError
        | Some parameter_container =>
            _get_parameter_value_from_parameter_container
              fully_qualified_parameter_name
              fully_qualified_parameter_name_as_list parameter_container
        end
    end.

(** *** Auxiliary definitions for the statements *)

(** A bare identifier: a letter followed by letters, digits and
    underscores (a name of the grammar without dots or accessors). *)
Definition is_identifier_body (a : ascii) : bool :=
  is_alpha a || is_num a || Ascii.eqb a "_"%char.
Definition is_identifier (s : string) : bool :=
  match s with
  | String a s' => is_alpha a && forallb is_identifier_body (list_ascii_of_string s')
  | EmptyString => false
  end.

(** A string without the separator character. *)
Definition no_separator (s : string) : bool :=
  forallb (fun a => negb (Ascii.eqb a "."%char)) (list_ascii_of_string s).

(** A value with every [ParameterNode] read as a plain dictionary. *)
Fixpoint erase_nodes (v : pyval) : pyval :=
  match v with
  | PDict d =>
      PDict (map (fun e => match e with (k, x) => (k, erase_nodes x) end) d)
  | PNode d =>
      PDict (map (fun e => match e with (k, x) => (k, erase_nodes x) end) d)
  | PList l => PList (map erase_nodes l)
  | _ => v
  end.

(** *** Enumerating the fully-qualified names *)

(** [_get_parameter_node_attribute_names_as_lists]: the paths to the
    entries that are not [ParameterNode]s, depth first. *)
Fixpoint attribute_names_of_value (path : list string) (value : pyval)
    : list (list string) :=
  match value with
  | PNode d =>
      flat_map (fun e => match e with
                         | (attribute_name_part, attribute_value_part) =>
                             attribute_names_of_value
                               (path ++ [attribute_name_part])%list
                               attribute_value_part
                         end) d
  | _ => [path]
  end.

Definition _get_parameter_node_attribute_names_as_lists
    (parameter_name_root_as_list : option (list string))
    (parameter_node : option dict) : list (list string) :=
  match parameter_node, parameter_name_root_as_list with
  | Some d, Some root => attribute_names_of_value root (PNode d)
  | _, _ => []
  end.

(** [list.index(key)] *)
Fixpoint list_index (key : string) (l : list string) : option nat :=
  match l with
  | [] => None
  | x :: l' => if String.eqb x key then Some 0
               else S <$> list_index key l'
  end.

(** [_get_parameter_name_parts_up_to_including_reserved_literal].
    [literals_order] is the order in which the set
    [RESERVED_TERMINAL_LITERALS] is iterated. *)
Definition _get_parameter_name_parts_up_to_including_reserved_literal
    (literals_order : list string) (attribute_name_as_list : list string)
    : result (list string) :=
  match attribute_name_as_list with
  | [] => Raise IndexError
  | first :: _ =>
      if String.eqb first PARAMETER_NAME_ROOT_FOR_VARIABLES then
        Ok [PARAMETER_NAME_ROOT_FOR_VARIABLES; PARAMETER_NAME_ROOT_FOR_VARIABLES]
      else if negb (existsb
                      (fun x => bool_decide (x ∈ RESERVED_TERMINAL_LITERALS))
                      attribute_name_as_list) then
        Ok attribute_name_as_list
      else
        let idx :=
          match omap (fun key => list_index key attribute_name_as_list)
                  literals_order with
          | i :: _ => Some i
          | [] => None
          end in
        match idx with
        | Some i => Ok (firstn i attribute_name_as_list)
        | None => Ok attribute_name_as_list
        end
  end.

(** [list(set(names))]: the distinct names.  The order of a set is not
    specified; the names are sorted before they are returned to callers. *)
Definition distinct (names : list string) : list string := remove_dups names.

(** [_get_parameter_node_attribute_names] *)
Definition _get_parameter_node_attribute_names (literals_order : list string)
    (parameter_name_root : option string) (parameter_node : option dict)
    : result (list string) :=
  let parameter_name_root_as_list :=
    match parameter_name_root with
    | Some root => if String.eqb root EmptyString then None else Some [root]
    | None => None
    end in
  let attribute_names_as_lists :=
    _get_parameter_node_attribute_names_as_lists parameter_name_root_as_list
      parameter_node in
  attribute_names ←
    traverse
      (fun attribute_name_as_list =>
         attribute_name_as_list ←
           _get_parameter_name_parts_up_to_including_reserved_literal
             literals_order attribute_name_as_list;
         Ok (FULLY_QUALIFIED_PARAMETER_NAME_DELIMITER_CHARACTER
               +:+ join FULLY_QUALIFIED_PARAMETER_NAME_SEPARATOR_CHARACTER
                     (drop 1 attribute_name_as_list)))
      attribute_names_as_lists;
  Ok (distinct attribute_names).

(** [sorted(names, reverse=True)]: insertion into descending order. *)
Fixpoint insert_descending (x : string) (l : list string) : list string :=
  match l with
  | [] => [x]
  | y :: l' => if String.leb y x then x :: l else y :: insert_descending x l'
  end.
Definition sorted_reverse (names : list string) : list string :=
  foldr insert_descending [] names.

(** [get_fully_qualified_parameter_names] *)
Definition get_fully_qualified_parameter_names (literals_order : list string)
    (domain : option Domain) (variables : option ParameterContainer)
    (parameters : option (list (string * option ParameterContainer)))
    : result (list string) :=
  let fully_qualified_parameter_names : list string := [] in
  fully_qualified_parameter_names ←
    match variables with
    | Some (mkContainer (Some roots)) =>
        match roots_get roots PARAMETER_NAME_ROOT_FOR_VARIABLES with
        | None => Raise KeyError
        | Some parameter_node =>
            names ← _get_parameter_node_attribute_names literals_order
                      (Some PARAMETER_NAME_ROOT_FOR_VARIABLES)
                      (Some parameter_node);
            Ok (fully_qualified_parameter_names ++ names)%list
        end
    | _ => Ok fully_qualified_parameter_names
    end;
  fully_qualified_parameter_names ←
    match parameters with
    | None => Ok fully_qualified_parameter_names
    | Some _ =>
        parameter_container ← parameters_getitem domain parameters;
        match parameter_container with
        | Some (mkContainer (Some roots)) =>
            foldl
              (fun acc e =>
                 fully_qualified_parameter_names ← acc;
                 names ← _get_parameter_node_attribute_names literals_order
                           (Some PARAMETER_NAME_ROOT_FOR_PARAMETERS)
                           (Some e.2);
                 Ok (fully_qualified_parameter_names ++ names)%list)
              (Ok fully_qualified_parameter_names) roots
        | _ => Ok fully_qualified_parameter_names
        end
    end;
  Ok (sorted_reverse fully_qualified_parameter_names).

End Params.

(** ** Concrete inputs used by the examples *)

Module Examples.
Import Deps.

(** A registry in which only the SQL engine has an aggregate function for
    [column_values.nonnull.unexpected_count]. *)
Definition example_registry : @registry unit :=
  fun name eng =>
    match eng with
    | SqlAlchemyExecutionEngine =>
        if String.eqb name "column_values.nonnull.unexpected_count.aggregate_fn"
        then Some tt else None
    | _ => None
    end.

Definition example_domain_kwargs : kwargs :=
  {[ "batch_id" := PStr "b1"; "column" := PStr "age" ]}.

Definition basic_result_format : pyval :=
  PDict [("result_format", PStr "BASIC"); ("partial_unexpected_count", PInt 10)].

Definition complete_result_format : pyval :=
  PDict [("result_format", PStr "COMPLETE"); ("partial_unexpected_count", PInt 20)].

Definition count_metric : MetricConfiguration :=
  mkMetric "column_values.nonnull.unexpected_count" example_domain_kwargs ∅.

Definition values_metric (result_format : pyval) : MetricConfiguration :=
  mkMetric "column_values.nonnull.unexpected_values" example_domain_kwargs
    {[ "result_format" := result_format ]}.

(** The table of the scenario in the specification: a column [age] holding
    10, 20, null, 40. *)
Import Frames Providers.

Definition age_row (x : cell Z) : string -> cell Z := fun _ => x.

Definition age_frame : DataFrame Z :=
  mkDataFrame ["age"]
    [ (0%Z, age_row (Some 10%Z)); (1%Z, age_row (Some 20%Z));
      (2%Z, age_row None); (3%Z, age_row (Some 40%Z)) ].

Definition age_engine : ExecutionEngine (DataFrame Z) :=
  mkEngine
    (fun domain_kwargs _ =>
       Ok (age_frame, delete "column" domain_kwargs,
           filter (fun kv : string * pyval => kv.1 = "column") domain_kwargs))
    (fun _ => Ok age_frame)
    (fun domain_kwargs _ => Ok domain_kwargs).

Definition age_accessor : kwargs := {[ "column" := PStr "age" ]}.
Definition age_compute : kwargs := {[ "batch_id" := PStr "b1" ]}.

(** The stored condition of "values are not null", computed without null
    filtering: only the third row is unexpected. *)
Definition age_null_mask : Series bool :=
  [ (0%Z, false); (1%Z, false); (2%Z, true); (3%Z, false) ].

Definition no_filter_class : ProviderClass := mkClass (Some false).
Definition default_class : ProviderClass := mkClass (Some true).

Definition basic_value_kwargs : kwargs :=
  {[ "result_format" := basic_result_format ]}.

(** Engines that resolve every domain to a given accessor. *)
Definition fixed_engine (accessor : kwargs) : ExecutionEngine (DataFrame Z) :=
  mkEngine (fun _ _ => Ok (age_frame, age_compute, accessor))
    (fun _ => Ok age_frame) (fun domain_kwargs _ => Ok domain_kwargs).

Definition fixed_sql_engine (accessor : kwargs)
    : @SqlAlchemyExecutionEngine_obj unit unit unit :=
  mkSqlEngine
    (mkEngine (fun _ _ => Ok (tt, age_compute, accessor)) (fun _ => Ok tt)
       (fun domain_kwargs _ => Ok domain_kwargs))
    tt tt.

Definition fixed_spark_engine (accessor : kwargs)
    : ExecutionEngine SparkDataFrame :=
  mkEngine (fun _ _ => Ok (mkSparkDataFrame ["age"], age_compute, accessor))
    (fun _ => Ok (mkSparkDataFrame ["age"]))
    (fun domain_kwargs _ => Ok domain_kwargs).

Definition missing_accessor : kwargs := {[ "column" := PStr "nonexistent" ]}.

(** Business functions: "the value is greater than 15". *)
Definition gt15_series (column : Series (cell Z)) (_ : kwargs)
    (_ : Metrics (Series bool)) : result (Series bool) :=
  Ok (map (fun e => (e.1, match e.2 with
                          | Some v => (15 <? v)%Z
                          | None => false
                          end)) column).

Definition gt15_sql (column : vexpr) (_ : kwargs) (_ : unit) (_ : unit)
    (_ : unit) (_ : Metrics bexpr) : result bexpr :=
  Ok (Pred "gt15" column).

(** A business function that fails with an error of the backend. *)
Definition failing_series (_ : Series (cell Z)) (_ : kwargs)
    (_ : Metrics (Series bool)) : result (Series bool) :=
  Raise (BackendError "column not found").

(** pandas operations for the value-counts provider: counting fails with
    [ValueError] on a Series that holds a null, and coercing to tuples
    leaves the Series as it is. *)
Definition null_sensitive_value_counts (s : Series (cell Z)) : result nat :=
  if forallb (fun e => is_value e.2) s then Ok (length s) else Raise ValueError.
Definition identity_apply_tuple (s : Series (cell Z)) : result (Series (cell Z)) :=
  Ok s.
Definition no_counts_getitem (_ : nat) (_ : pyval) : result pyval := Raise KeyError.

(** Names of the parameter namespace. *)
Import Params.

Definition double_quote : string := String dquote EmptyString.

(** The name [$parameter.a.b[0]["c"]]. *)
Definition bracket_name : string :=
  "$parameter.a.b[0][" +:+ double_quote +:+ "c" +:+ double_quote +:+ "]".

Definition example_domain : Domain := mkDomain "domain_1" PNone.

Definition parameters_of (container : ParameterContainer)
    : option (list (string * option ParameterContainer)) :=
  Some [("domain_1", Some container)].

End Examples.

(** ** The in-memory execution engine
    ([great_expectations/execution_engine/pandas_execution_engine.py]) *)

Module PandasEngine.
Import Deps Frames Providers Params.

(** [ge_exceptions.ValidationError], carried by its class name. *)
Definition ValidationError : exn := BackendError "ValidationError".

(** [d.get(key)] / [d.get(key, None)] *)
Definition kwargs_get (d : kwargs) (key : string) : pyval :=
  default PNone (d !! key).

Section Engine.
Context {V : Type}.

(** The state of a [PandasExecutionEngine] the domain functions read.
    [active_batch_data], [_split_domain_kwargs] and
    [add_column_row_condition] belong to the base class, which is not among
    the sources, and [query] is pandas' [DataFrame.query]: the four are
    taken as given. *)
Record PandasExecutionEngine_obj : Type := mkPandasEngine {
  active_batch_data_id : option string;
  active_batch_data : option (DataFrame V);
  loaded_batch_data_dict : list (string * DataFrame V);
  query : DataFrame V -> pyval -> pyval -> result (DataFrame V);
  _split_domain_kwargs : kwargs -> MetricDomainTypes -> result (kwargs * kwargs);
  base_add_column_row_condition : kwargs -> option pyval -> result kwargs
}.

(** The labels pandas reads from the [subset] argument of [dropna]: the
    members of a list, the keys of a dictionary, every column when it is
    [None], and a scalar as a single label. *)
Definition subset_labels (df : DataFrame V) (subset : pyval) : list pyval :=
  match subset with
  | PList l => l
  | PDict d | PNode d => map (fun e => PStr e.1) d
  | PNone => map PStr (df_columns df)
  | v => [v]
  end.

(** The rows [dropna] keeps: with [how="all"] the rows in which some cell of
    the subset holds a value, with [how="any"] the rows in which every cell
    of the subset does. *)
Definition keeps_row (how_all : bool) (names : list string)
    (r : label * (string -> cell V)) : bool :=
  if how_all then existsb (fun n => is_value (r.2 n)) names
  else forallb (fun n => is_value (r.2 n)) names.

(** pandas: [df.dropna(axis=0, how=..., subset=...)].  A label of the subset
    that is not a column is a [KeyError]. *)
Definition dropna (how_all : bool) (subset : pyval) (df : DataFrame V)
    : result (DataFrame V) :=
  names ← traverse
            (fun c => match c with
                      | PStr name =>
                          if bool_decide (name ∈ df_columns df) then Ok name
                          else Raise KeyError
                      | _ => Raise KeyError
                      end) (subset_labels df subset);
  Ok (mkDataFrame (df_columns df)
        (List.filter (keeps_row how_all names) (df_rows df))).

(** [batch_id in self.loaded_batch_data_dict], then the lookup: the keys of
    the dictionary are strings, and a list or dictionary cannot be hashed. *)
Definition find_batch (batches : list (string * DataFrame V)) (batch_id : pyval)
    : result (DataFrame V) :=
  match batch_id with
  | PStr s =>
      match list_find (fun e : string * DataFrame V => e.1 = s) batches with
      | Some (_, e) => Ok e.2
      | None => Raise ValidationError
      end
  | PList _ | PDict _ | PNode _ => Raise TypeError
  | _ => Raise ValidationError
  end.

(** The batch [get_domain_records] works on: the one named by
    [batch_id], else the active one. *)
Definition batch_data (self : PandasExecutionEngine_obj) (domain_kwargs : kwargs)
    : result (DataFrame V) :=
  let batch_id := kwargs_get domain_kwargs "batch_id" in
  match batch_id with
  | PNone =>
      match active_batch_data_id self with
      | Some _ =>
          match active_batch_data self with
          | Some data => Ok data
          | None => Raise AttributeError
          end
      | None => Raise ValidationError
      end
  | _ => find_batch (loaded_batch_data_dict self) batch_id
  end.

(** [PandasExecutionEngine.get_domain_records] *)
Definition get_domain_records (self : PandasExecutionEngine_obj)
    (domain_kwargs : kwargs) : result (DataFrame V) :=
  let table := kwargs_get domain_kwargs "table" in
  if py_truthy table then Raise ValueError
  else
    data ← batch_data self domain_kwargs;
    let row_condition := kwargs_get domain_kwargs "row_condition" in
    data ←
      (if py_truthy row_condition then
         let condition_parser := kwargs_get domain_kwargs "condition_parser" in
         if negb (py_in_strs condition_parser ["python"; "pandas"])
         then Raise ValueError
         else query self data row_condition condition_parser
       else Ok data);
    if bool_decide ("column" ∈ dom domain_kwargs) then Ok data
    else if bool_decide ("column_A" ∈ dom domain_kwargs)
            && bool_decide ("column_B" ∈ dom domain_kwargs)
            && bool_decide ("ignore_row_if" ∈ dom domain_kwargs) then
      column_A_name ← getitem domain_kwargs "column_A";
      column_B_name ← getitem domain_kwargs "column_B";
      ignore_row_if ← getitem domain_kwargs "ignore_row_if";
      if py_eq_str ignore_row_if "both_values_are_missing" then
        dropna true (PList [column_A_name; column_B_name]) data
      else if py_eq_str ignore_row_if "either_value_is_missing" then
        dropna false (PList [column_A_name; column_B_name]) data
      else if negb (py_in_strs ignore_row_if ["neither"; "never"]) then
        Raise ValueError
      else Ok data
    else if bool_decide ("column_list" ∈ dom domain_kwargs)
            && bool_decide ("ignore_row_if" ∈ dom domain_kwargs) then
      column_list ← getitem domain_kwargs "column_list";
      ignore_row_if ← getitem domain_kwargs "ignore_row_if";
      if py_eq_str ignore_row_if "all_values_are_missing" then
        dropna true column_list data
      else if py_eq_str ignore_row_if "any_value_is_missing" then
        dropna false column_list data
      else if negb (py_eq_str ignore_row_if "never") then Raise ValueError
      else Ok data
    else Ok data.

(** [PandasExecutionEngine.get_compute_domain] *)
Definition get_compute_domain (self : PandasExecutionEngine_obj)
    (domain_kwargs : kwargs) (domain_type : MetricDomainTypes)
    : result (DataFrame V * kwargs * kwargs) :=
  data ← get_domain_records self domain_kwargs;
  let table := kwargs_get domain_kwargs "table" in
  if py_truthy table then Raise ValueError
  else
    '(compute, accessor) ← _split_domain_kwargs self domain_kwargs domain_type;
    Ok (data, compute, accessor).

(** The engine, as the providers call it. *)
Definition as_engine (self : PandasExecutionEngine_obj)
    : ExecutionEngine (DataFrame V) :=
  mkEngine (get_compute_domain self) (get_domain_records self)
    (base_add_column_row_condition self).

End Engine.

Arguments PandasExecutionEngine_obj V : clear implicits.

End PandasEngine.

(** ** The remaining adapters and providers of [map_metric_provider.py] *)

Module MoreProviders.
Import Deps Frames Providers.

Section SqlAlchemyPairPartials.
Context {Selectable Dialect SaEngine R : Type}.
Abbreviation SqlEngine := (@SqlAlchemyExecutionEngine_obj Selectable Dialect SaEngine).

(** [column_pair_function_partial], SQLAlchemy engine. *)
Definition sqlalchemy_column_pair_function_partial
    (metric_fn : vexpr -> vexpr -> kwargs -> Metrics bexpr -> result R)
    (cls : ProviderClass) (execution_engine : SqlEngine)
    (metric_domain_kwargs metric_value_kwargs : kwargs)
    (metrics : Metrics bexpr) : result (R * kwargs * kwargs) :=
  '(selectable, compute_domain_kwargs, accessor_domain_kwargs) ←
    get_compute_domain (sql_base execution_engine) metric_domain_kwargs
      COLUMN_PAIR;
  column_A_name ← getitem accessor_domain_kwargs "column_A";
  column_B_name ← getitem accessor_domain_kwargs "column_B";
  let column_list := [column_A_name; column_B_name] in
  _ ← check_columns_exist column_list metrics;
  column_A ← sa_column column_A_name;
  column_B ← sa_column column_B_name;
  column_pair_function ← metric_fn column_A column_B metric_value_kwargs metrics;
  Ok (column_pair_function, compute_domain_kwargs, accessor_domain_kwargs).

(** [column_pair_condition_partial], SQLAlchemy engine. *)
Definition sqlalchemy_column_pair_condition_partial
    (metric_fn : vexpr -> vexpr -> kwargs -> Dialect -> Selectable -> SaEngine
                 -> Metrics bexpr -> result bexpr)
    (cls : ProviderClass) (execution_engine : SqlEngine)
    (metric_domain_kwargs metric_value_kwargs : kwargs)
    (metrics : Metrics bexpr) : result (bexpr * kwargs * kwargs) :=
  '(selectable, compute_domain_kwargs, accessor_domain_kwargs) ←
    get_compute_domain (sql_base execution_engine) metric_domain_kwargs
      COLUMN_PAIR;
  column_A_name ← getitem accessor_domain_kwargs "column_A";
  column_B_name ← getitem accessor_domain_kwargs "column_B";
  let column_list := [column_A_name; column_B_name] in
  _ ← check_columns_exist column_list metrics;
  let sqlalchemy_engine := engine execution_engine in
  let dialect := dialect_module execution_engine in
  column_A ← sa_column column_A_name;
  column_B ← sa_column column_B_name;
  expected_condition ←
    metric_fn column_A column_B metric_value_kwargs dialect selectable
      sqlalchemy_engine metrics;
  let unexpected_condition := Not expected_condition in
  Ok (unexpected_condition, compute_domain_kwargs, accessor_domain_kwargs).

(** [multicolumn_function_partial], SQLAlchemy engine: [table.columns] is
    read before the loop over the column list. *)
Definition sqlalchemy_multicolumn_function_partial
    (metric_fn : list vexpr -> kwargs -> pyval -> list string -> Dialect
                 -> Selectable -> SaEngine -> Metrics bexpr -> result R)
    (cls : ProviderClass) (execution_engine : SqlEngine)
    (metric_domain_kwargs metric_value_kwargs : kwargs)
    (metrics : Metrics bexpr) : result (R * kwargs * kwargs) :=
  '(selectable, compute_domain_kwargs, accessor_domain_kwargs) ←
    get_compute_domain (sql_base execution_engine) metric_domain_kwargs
      MULTICOLUMN;
  column_list_value ← getitem accessor_domain_kwargs "column_list";
  table_columns ← metrics_table_columns metrics;
  column_list ← py_iter column_list_value;
  _ ← traverse
        (fun column_name =>
           if py_in_strs column_name table_columns then Ok tt
           else Raise InvalidMetricAccessorDomainKwargsKeyError) column_list;
  let sqlalchemy_engine := engine execution_engine in
  column_selector ← traverse sa_column column_list;
  let dialect := dialect_module execution_engine in
  multicolumn_function ←
    metric_fn column_selector metric_value_kwargs column_list_value
      table_columns dialect selectable sqlalchemy_engine metrics;
  Ok (multicolumn_function, compute_domain_kwargs, accessor_domain_kwargs).

(** [multicolumn_condition_partial], SQLAlchemy engine. *)
Definition sqlalchemy_multicolumn_condition_partial
    (metric_fn : list vexpr -> kwargs -> Dialect -> Selectable -> SaEngine
                 -> Metrics bexpr -> result bexpr)
    (cls : ProviderClass) (execution_engine : SqlEngine)
    (metric_domain_kwargs metric_value_kwargs : kwargs)
    (metrics : Metrics bexpr) : result (bexpr * kwargs * kwargs) :=
  '(selectable, compute_domain_kwargs, accessor_domain_kwargs) ←
    get_compute_domain (sql_base execution_engine) metric_domain_kwargs
      MULTICOLUMN;
  column_list_value ← getitem accessor_domain_kwargs "column_list";
  column_list ← py_iter column_list_value;
  _ ← check_columns_exist column_list metrics;
  let sqlalchemy_engine := engine execution_engine in
  column_selector ← traverse sa_column column_list;
  let dialect := dialect_module execution_engine in
  expected_condition ←
    metric_fn column_selector metric_value_kwargs dialect selectable
      sqlalchemy_engine metrics;
  let unexpected_condition := Not expected_condition in
  Ok (unexpected_condition, compute_domain_kwargs, accessor_domain_kwargs).

End SqlAlchemyPairPartials.

Section SparkPairPartials.
Context {R : Type}.

(** [data[column_list]] on a Spark data frame: the selection of the listed
    columns, and the backend's own error for an unknown name. *)
Definition spark_getitem_list (data : SparkDataFrame) (column_list : list pyval)
    : result SparkDataFrame :=
  names ← traverse
            (fun c => match c with
                      | PStr name =>
                          if bool_decide (name ∈ spark_columns data) then Ok name
                          else Raise (BackendError "AnalysisException")
                      | _ => Raise TypeError
                      end) column_list;
  Ok (mkSparkDataFrame names).

(** [column_pair_function_partial], Spark engine. *)
Definition spark_column_pair_function_partial
    (metric_fn : vexpr -> vexpr -> kwargs -> Metrics bexpr -> result R)
    (cls : ProviderClass) (execution_engine : ExecutionEngine SparkDataFrame)
    (metric_domain_kwargs metric_value_kwargs : kwargs)
    (metrics : Metrics bexpr) : result (R * kwargs * kwargs) :=
  '(data, compute_domain_kwargs, accessor_domain_kwargs) ←
    get_compute_domain execution_engine metric_domain_kwargs COLUMN_PAIR;
  column_A_name ← getitem accessor_domain_kwargs "column_A";
  column_B_name ← getitem accessor_domain_kwargs "column_B";
  let column_list := [column_A_name; column_B_name] in
  _ ← check_columns_exist column_list metrics;
  column_A ← spark_getitem data column_A_name;
  column_B ← spark_getitem data column_B_name;
  column_pair_function ← metric_fn column_A column_B metric_value_kwargs metrics;
  Ok (column_pair_function, compute_domain_kwargs, accessor_domain_kwargs).

(** [column_pair_condition_partial], Spark engine. *)
Definition spark_column_pair_condition_partial
    (metric_fn : vexpr -> vexpr -> kwargs -> Metrics bexpr -> result bexpr)
    (cls : ProviderClass) (execution_engine : ExecutionEngine SparkDataFrame)
    (metric_domain_kwargs metric_value_kwargs : kwargs)
    (metrics : Metrics bexpr) : result (bexpr * kwargs * kwargs) :=
  '(data, compute_domain_kwargs, accessor_domain_kwargs) ←
    get_compute_domain execution_engine metric_domain_kwargs COLUMN_PAIR;
  column_A_name ← getitem accessor_domain_kwargs "column_A";
  column_B_name ← getitem accessor_domain_kwargs "column_B";
  let column_list := [column_A_name; column_B_name] in
  _ ← check_columns_exist column_list metrics;
  column_A ← spark_getitem data column_A_name;
  column_B ← spark_getitem data column_B_name;
  expected_condition ← metric_fn column_A column_B metric_value_kwargs metrics;
  Ok (Not expected_condition, compute_domain_kwargs, accessor_domain_kwargs).

(** [multicolumn_function_partial], Spark engine. *)
Definition spark_multicolumn_function_partial
    (metric_fn : SparkDataFrame -> kwargs -> Metrics bexpr -> result R)
    (cls : ProviderClass) (execution_engine : ExecutionEngine SparkDataFrame)
    (metric_domain_kwargs metric_value_kwargs : kwargs)
    (metrics : Metrics bexpr) : result (R * kwargs * kwargs) :=
  '(data, compute_domain_kwargs, accessor_domain_kwargs) ←
    get_compute_domain execution_engine metric_domain_kwargs MULTICOLUMN;
  column_list_value ← getitem accessor_domain_kwargs "column_list";
  column_list ← py_iter column_list_value;
  _ ← check_columns_exist column_list metrics;
  columns ← spark_getitem_list data column_list;
  multicolumn_function ← metric_fn columns metric_value_kwargs metrics;
  Ok (multicolumn_function, compute_domain_kwargs, accessor_domain_kwargs).

(** [multicolumn_condition_partial], Spark engine. *)
Definition spark_multicolumn_condition_partial
    (metric_fn : SparkDataFrame -> kwargs -> Metrics bexpr -> result bexpr)
    (cls : ProviderClass) (execution_engine : ExecutionEngine SparkDataFrame)
    (metric_domain_kwargs metric_value_kwargs : kwargs)
    (metrics : Metrics bexpr) : result (bexpr * kwargs * kwargs) :=
  '(data, compute_domain_kwargs, accessor_domain_kwargs) ←
    get_compute_domain execution_engine metric_domain_kwargs MULTICOLUMN;
  column_list_value ← getitem accessor_domain_kwargs "column_list";
  column_list ← py_iter column_list_value;
  _ ← check_columns_exist column_list metrics;
  columns ← spark_getitem_list data column_list;
  expected_condition ← metric_fn columns metric_value_kwargs metrics;
  Ok (Not expected_condition, compute_domain_kwargs, accessor_domain_kwargs).

End SparkPairPartials.

(** *** The aggregate form of the unexpected count *)

(** [sa.func.sum(sa.case([(condition, 1)], else_=0))] for SQLAlchemy,
    [F.sum(F.when(condition, 1).otherwise(0))] for Spark. *)
Inductive aexpr : Type :=
| SumCase (condition : bexpr).

(** [_sqlalchemy_map_condition_unexpected_count_aggregate_fn] and
    [_spark_map_condition_unexpected_count_aggregate_fn] (the two have the
    same body up to the library that builds the expression). *)
Definition _map_condition_unexpected_count_aggregate_fn
    (metrics : Metrics bexpr) : result (aexpr * kwargs * kwargs) :=
  '(unexpected_condition, compute_domain_kwargs, accessor_domain_kwargs) ←
    metrics_get_unexpected_condition metrics;
  Ok (SumCase unexpected_condition, compute_domain_kwargs,
      accessor_domain_kwargs).

Section EvalAggregate.
Context {V : Type}.
Variable interp : string -> cell V -> option bool.

(** A CASE (or WHEN) takes its branch on the rows where the condition is
    true, and the ELSE branch where it is false or unknown. *)
Definition case_value (condition : bexpr) (row : string -> cell V) : Z :=
  match eval interp row condition with
  | Some true => 1%Z
  | _ => 0%Z
  end.

(** The value of the aggregate over the rows of a table; SUM over no row is
    null. *)
Definition eval_aggregate (rows : list (string -> cell V)) (a : aexpr)
    : option Z :=
  match a with
  | SumCase condition =>
      match rows with
      | [] => None
      | _ => Some (fold_right Z.add 0%Z (map (case_value condition) rows))
      end
  end.

End EvalAggregate.

(** *** The in-memory providers of the column-pair and multicolumn domains *)

Section PandasPairDetails.
Context {V : Type}.

(** [_pandas_column_pair_map_condition_values] *)
Definition _pandas_column_pair_map_condition_values
    (cls : ProviderClass) (execution_engine : ExecutionEngine (DataFrame V))
    (metric_domain_kwargs metric_value_kwargs : kwargs)
    (metrics : Metrics (Series bool)) : result (list (cell V * cell V)) :=
  '(boolean_mapped_unexpected_values, compute_domain_kwargs,
    accessor_domain_kwargs) ← metrics_unexpected_condition metrics;
  domain_kwargs ← dict_merge compute_domain_kwargs accessor_domain_kwargs;
  df ← get_domain_records execution_engine domain_kwargs;
  if negb (bool_decide ("column_A" ∈ dom domain_kwargs)
           && bool_decide ("column_B" ∈ dom domain_kwargs))
  then Raise ValueError
  else
    column_A_name ← getitem accessor_domain_kwargs "column_A";
    column_B_name ← getitem accessor_domain_kwargs "column_B";
    let column_list := [column_A_name; column_B_name] in
    _ ← check_columns_exist column_list metrics;
    domain_values ← df_getitem_list df column_list;
    domain_values ←
      df_getitem_mask domain_values
        (series_eq_True boolean_mapped_unexpected_values);
    result_format ← getitem metric_value_kwargs "result_format";
    values_A ← df_getitem_py domain_values column_A_name;
    values_B ← df_getitem_py domain_values column_B_name;
    let unexpected_list := zip (series_to_list values_A) (series_to_list values_B) in
    format ← py_getitem_str result_format "result_format";
    if py_eq_str format "COMPLETE" then Ok unexpected_list
    else
      partial_unexpected_count ←
        py_getitem_str result_format "partial_unexpected_count";
      bound ← py_slice_bound partial_unexpected_count;
      Ok (slice_to_bound unexpected_list bound).

(** [_pandas_column_pair_map_condition_filtered_row_count] *)
Definition _pandas_column_pair_map_condition_filtered_row_count
    (cls : ProviderClass) (execution_engine : ExecutionEngine (DataFrame V))
    (metric_domain_kwargs metric_value_kwargs : kwargs)
    (metrics : Metrics (Series bool)) : result nat :=
  '(_, compute_domain_kwargs, accessor_domain_kwargs) ←
    metrics_unexpected_condition metrics;
  domain_kwargs ← dict_merge compute_domain_kwargs accessor_domain_kwargs;
  df ← get_domain_records execution_engine domain_kwargs;
  if negb (bool_decide ("column_A" ∈ dom domain_kwargs)
           && bool_decide ("column_B" ∈ dom domain_kwargs))
  then Raise ValueError
  else
    column_A_name ← getitem accessor_domain_kwargs "column_A";
    column_B_name ← getitem accessor_domain_kwargs "column_B";
    let column_list := [column_A_name; column_B_name] in
    _ ← check_columns_exist column_list metrics;
    Ok (length (df_rows df)).

(** [_pandas_multicolumn_map_condition_filtered_row_count] *)
Definition _pandas_multicolumn_map_condition_filtered_row_count
    (cls : ProviderClass) (execution_engine : ExecutionEngine (DataFrame V))
    (metric_domain_kwargs metric_value_kwargs : kwargs)
    (metrics : Metrics (Series bool)) : result nat :=
  '(_, compute_domain_kwargs, accessor_domain_kwargs) ←
    metrics_unexpected_condition metrics;
  domain_kwargs ← dict_merge compute_domain_kwargs accessor_domain_kwargs;
  df ← get_domain_records execution_engine domain_kwargs;
  if bool_decide ("column_list" ∉ dom accessor_domain_kwargs)
  then Raise ValueError
  else
    column_list_value ← getitem accessor_domain_kwargs "column_list";
    column_list ← py_iter column_list_value;
    _ ← check_columns_exist column_list metrics;
    Ok (length (df_rows df)).

End PandasPairDetails.

End MoreProviders.
(** ** The parameter namespace: conversion back to dictionaries
    ([great_expectations/rule_based_profiler/types/parameter_container.py]) *)

Module ParamsMore.
Import Frames Params.

(** [convert_parameter_nodes_to_dictionaries].  [source.to_dict()] of a
    [ParameterNode] is the plain dictionary of its entries
    ([ParameterNode.to_dict] passes [dict(self)] to this function, which
    returns a value that is no [ParameterNode] as it is); the loop then
    converts the values of that dictionary. *)
Fixpoint convert_parameter_nodes_to_dictionaries (source : pyval) : pyval :=
  match source with
  | PNode d =>
      PDict (map (fun e => match e with
                           | (key, value) =>
                               (key, convert_parameter_nodes_to_dictionaries value)
                           end) d)
  | _ => source
  end.

(** *** Auxiliary definitions for the statements *)

(** A value without dictionaries of either class. *)
Fixpoint no_dict (v : pyval) : bool :=
  match v with
  | PDict _ | PNode _ => false
  | PList l => forallb no_dict l
  | _ => true
  end.

(** A value of plain dictionaries none of which is inside a list. *)
Fixpoint dicts_outside_lists (v : pyval) : bool :=
  match v with
  | PDict d => forallb (fun e => dicts_outside_lists e.2) d
  | PNode _ => false
  | PList l => forallb no_dict l
  | _ => true
  end.

(** Two paths part ways: at some position both have a part and the parts
    differ, so neither path is a prefix of the other. *)
Fixpoint diverge (names1 names2 : list string) : bool :=
  match names1, names2 with
  | a :: rest1, b :: rest2 =>
      if String.eqb a b then diverge rest1 rest2 else true
  | _, _ => false
  end.

(** Whether a value is a dictionary of either class. *)
Definition is_dictionary (v : pyval) : bool :=
  match v with
  | PDict _ | PNode _ => true
  | _ => false
  end.

(** The entries of a node after the values of [configs] were written under
    their keys, one after the other. *)
Definition written (configs : list (string * pyval)) (c : dict) : dict :=
  fold_left
    (fun c e => dict_set c e.1 (convert_dictionaries_to_parameter_nodes e.2))
    configs c.

End ParamsMore.

(** ** Concrete inputs for the engine and the further providers *)

Module EngineExamples.
Import Deps Frames Providers Params PandasEngine.

(** A table with the columns [a] and [b]; [b] alone is null in the last row,
    [a] alone in the second, both in the third. *)
Definition pair_row (a b : cell Z) : string -> cell Z :=
  fun name => if String.eqb name "a" then a
              else if String.eqb name "b" then b else None.

Definition pair_frame : DataFrame Z :=
  mkDataFrame ["a"; "b"]
    [ (0%Z, pair_row (Some 1%Z) (Some 2%Z)); (1%Z, pair_row None (Some 3%Z));
      (2%Z, pair_row None None); (3%Z, pair_row (Some 4%Z) None) ].

(** The split of domain kwargs into compute and accessor kwargs: the
    accessor keys of the domain type go to the accessor kwargs. *)
Definition example_split (domain_kwargs : kwargs) (domain_type : MetricDomainTypes)
    : result (kwargs * kwargs) :=
  let keys :=
    match domain_type with
    | COLUMN => ["column"]
    | COLUMN_PAIR => ["column_A"; "column_B"]
    | MULTICOLUMN => ["column_list"]
    | _ => []
    end in
  Ok (filter (fun kv : string * pyval => kv.1 ∉ keys) domain_kwargs,
      filter (fun kv : string * pyval => kv.1 ∈ keys) domain_kwargs).

(** An engine with the batch [b1] loaded and active. *)
Definition pair_engine : PandasExecutionEngine_obj Z :=
  mkPandasEngine (Some "b1") (Some pair_frame) [("b1", pair_frame)]
    (fun df _ _ => Ok df) example_split (fun domain_kwargs _ => Ok domain_kwargs).

Definition pair_domain_kwargs (column_A column_B ignore_row_if : string) : kwargs :=
  {[ "batch_id" := PStr "b1"; "column_A" := PStr column_A;
     "column_B" := PStr column_B; "ignore_row_if" := PStr ignore_row_if ]}.

Definition list_domain_kwargs (column_list : list string) (ignore_row_if : string)
    : kwargs :=
  {[ "batch_id" := PStr "b1"; "column_list" := PList (map PStr column_list);
     "ignore_row_if" := PStr ignore_row_if ]}.

(** A business function on two columns: "the values are equal". *)
Definition equal_series (column_A column_B : Series (cell Z)) (_ : kwargs)
    (_ : Metrics (Series bool)) : result (Series bool) :=
  Ok (map (fun e => (e.1.1, match e.1.2, e.2.2 with
                            | Some x, Some y => Z.eqb x y
                            | _, _ => false
                            end)) (zip column_A column_B)).

(** A business function of the SQLAlchemy backend on two columns. *)
Definition equal_sql (column_A column_B : vexpr) (_ : kwargs) (_ : unit)
    (_ : unit) (_ : unit) (_ : Metrics bexpr) : result bexpr :=
  Ok (Pred "equals_other" column_A).

Definition missing_pair_accessor : kwargs :=
  {[ "column_A" := PStr "nonexistent"; "column_B" := PStr "b" ]}.

(** Business functions of the query backends on one column. *)
Definition positive_sql (column : vexpr) (_ : kwargs) (_ : unit) (_ : unit)
    (_ : unit) (_ : Metrics bexpr) : result bexpr :=
  Ok (Pred "positive" column).
Definition positive_spark (column : vexpr) (_ : kwargs) (_ : SparkDataFrame)
    (_ : Metrics bexpr) (_ _ : kwargs) : result bexpr :=
  Ok (Pred "positive" column).

(** The predicate [positive] on a cell: unknown on a null. *)
Definition positive_interp (p : string) (x : cell Z) : option bool :=
  match x with
  | Some z => Some (0 <? z)%Z
  | None => None
  end.

End EngineExamples.
(** ** Facts on suffixes *)

Section Suffix.

Lemma endswith_unfold (s suf : string) :
  endswith s suf =
  if String.eqb s suf then true
  else match s with
       | EmptyString => false
       | String _ s' => endswith s' suf
       end.
Proof. destruct s; reflexivity. Qed.

Lemma endswith_refl (s : string) : endswith s s = true.
Proof. rewrite endswith_unfold, String.eqb_refl. reflexivity. Qed.

Lemma endswith_app (p suf : string) : endswith (p +:+ suf) suf = true.
Proof.
  induction p as [|a p IH].
  - apply endswith_refl.
  - rewrite endswith_unfold. change (String a p +:+ suf) with (String a (p +:+ suf)).
    destruct (String.eqb _ _); [reflexivity | exact IH].
Qed.

Lemma endswith_split (s suf : string) :
  endswith s suf = true -> exists p, s = p +:+ suf.
Proof.
  induction s as [|a s IH]; rewrite endswith_unfold.
  - destruct (String.eqb EmptyString suf) eqn:E; [|discriminate].
    apply String.eqb_eq in E. intros _. exists EmptyString. exact E.
  - destruct (String.eqb (String a s) suf) eqn:E.
    + intros _. apply String.eqb_eq in E. exists EmptyString. exact E.
    + intros H. destruct (IH H) as [p ->]. exists (String a p). reflexivity.
Qed.

(** Two suffixes of one string are comparable. *)
Lemma endswith_comparable (s a b : string) :
  endswith s a = true -> endswith s b = true ->
  endswith a b = true \/ endswith b a = true.
Proof.
  induction s as [|c s IH]; intros Ha Hb.
  - rewrite endswith_unfold in Ha, Hb.
    destruct (String.eqb EmptyString a) eqn:Ea; [|discriminate].
    destruct (String.eqb EmptyString b) eqn:Eb; [|discriminate].
    apply String.eqb_eq in Ea, Eb. subst. left. reflexivity.
  - destruct (String.eqb (String c s) a) eqn:Ea.
    + apply String.eqb_eq in Ea. subst a. left. exact Hb.
    + destruct (String.eqb (String c s) b) eqn:Eb.
      * apply String.eqb_eq in Eb. subst b. right. exact Ha.
      * rewrite endswith_unfold in Ha, Hb. rewrite Ea in Ha. rewrite Eb in Hb. auto.
Qed.

Lemma endswith_exclusive (s a b : string) :
  endswith a b = false -> endswith b a = false ->
  endswith s a = true -> endswith s b = false.
Proof.
  intros Hab Hba Ha. destruct (endswith s b) eqn:Hb; [|reflexivity].
  destruct (endswith_comparable s a b Ha Hb); congruence.
Qed.

Lemma length_string_app (p q : string) :
  String.length (p +:+ q) = String.length p + String.length q.
Proof. induction p as [|a p IH]; simpl; [reflexivity | rewrite IH; reflexivity]. Qed.

Lemma substring_app_prefix (p q : string) :
  substring 0 (String.length p) (p +:+ q) = p.
Proof.
  induction p as [|a p IH]; simpl.
  - destruct q; reflexivity.
  - rewrite IH. reflexivity.
Qed.

(** Stripping a non-empty suffix that was appended gives the prefix back. *)
Lemma drop_last_app (p suf : string) :
  suf <> EmptyString -> drop_last (p +:+ suf) (String.length suf) = p.
Proof.
  intros Hne. unfold drop_last.
  destruct (String.length suf) eqn:E.
  - destruct suf; [congruence | discriminate].
  - rewrite <- E, length_string_app.
    replace (String.length p + String.length suf - String.length suf)
      with (String.length p) by lia.
    apply substring_app_prefix.
Qed.

Lemma string_app_inj_r (p q suf : string) :
  suf <> EmptyString -> p +:+ suf = q +:+ suf -> p = q.
Proof.
  intros Hne H.
  rewrite <- (drop_last_app p suf Hne), <- (drop_last_app q suf Hne), H.
  reflexivity.
Qed.

End Suffix.


(** ** The dependency resolver: suffix rules *)

Module DepsTheory.
Import Deps.

Lemma without_key_delete (key : string) (d : kwargs) :
  without_key key d = delete key d.
Proof.
  apply map_eq. intros i. unfold without_key.
  destruct (decide (i = key)) as [->|Hne].
  - rewrite lookup_delete_eq. apply map_lookup_filter_None. right.
    intros x _ Hx. apply Hx. reflexivity.
  - rewrite lookup_delete_ne by congruence.
    destruct (d !! i) as [x|] eqn:E.
    + apply map_lookup_filter_Some. split; [exact E | exact Hne].
    + apply map_lookup_filter_None. left. exact E.
Qed.

Lemma without_keys_lookup (keys : list string) (d : kwargs) (i : string) :
  without_keys keys d !! i = if decide (i ∈ keys) then None else d !! i.
Proof.
  unfold without_keys. destruct (decide (i ∈ keys)) as [Hin|Hnin].
  - apply map_lookup_filter_None. right. intros x _ Hx. apply Hx. exact Hin.
  - destruct (d !! i) as [x|] eqn:E.
    + apply map_lookup_filter_Some. split; [exact E | exact Hnin].
    + apply map_lookup_filter_None. left. exact E.
Qed.

Section Rules.

Context {Provider : Type}.
Variable reg : @registry Provider.

(** A loop whose body changes nothing on any element changes nothing. *)
Lemma fold_left_unchanged {A B : Type} (g : A -> B -> A) (l : list B) (a : A) :
  Forall (fun s => forall d, g d s = d) l -> fold_left g l a = a.
Proof.
  revert a. induction l as [|s l IH]; intros a Hall; [reflexivity|].
  inversion Hall as [|? ? Hs Hl]; subst. simpl. rewrite Hs. apply IH, Hl.
Qed.

Lemma detail_suffixes_excluded (name suf : string) :
  endswith name suf = true ->
  Forall (fun s => endswith suf s = false /\ endswith s suf = false) detail_suffixes ->
  Forall (fun s => endswith name s = false) detail_suffixes.
Proof.
  intros H HF. eapply Forall_impl; [exact HF|]. intros s [H1 H2].
  exact (endswith_exclusive name suf s H1 H2 H).
Qed.

Ltac closed_suffixes :=
  unfold detail_suffixes;
  repeat first [ apply List.Forall_nil | apply List.Forall_cons; [split; reflexivity|] ].

(** C2.  A metric whose name ends in [.unexpected_count] gets exactly one of
    two dependencies: when a provider is registered for
    [<name>.aggregate_fn] on the execution engine, the role
    [metric_partial_fn] maps to the metric [<name>.aggregate_fn] with the same
    domain kwargs (and there is no [unexpected_condition] entry); otherwise
    the role [unexpected_condition] maps to [<prefix>.condition], where
    [<prefix>] is the name without the suffix (and there is no
    [metric_partial_fn] entry). *)
Theorem unexpected_count_dependency (metric : MetricConfiguration)
    (eng : engine_type) :
  endswith (metric_name metric) ".unexpected_count" = true ->
  exists deps prefix,
    MapMetricProvider_get_evaluation_dependencies reg metric eng = Ok deps
    /\ metric_name metric = prefix +:+ ".unexpected_count"
    /\ match reg (metric_name metric +:+ ".aggregate_fn") eng with
       | Some _ =>
           deps !! "metric_partial_fn" =
             Some (mkMetric (metric_name metric +:+ ".aggregate_fn")
                     (metric_domain_kwargs metric)
                     (delete "result_format" (metric_value_kwargs metric)))
           /\ deps !! "unexpected_condition" = None
       | None =>
           deps !! "unexpected_condition" =
             Some (mkMetric (prefix +:+ ".condition")
                     (metric_domain_kwargs metric)
                     (delete "result_format" (metric_value_kwargs metric)))
           /\ deps !! "metric_partial_fn" = None
       end.
Proof.
  intros H. destruct (endswith_split _ _ H) as [p Hp].
  assert (Hd : drop_last (metric_name metric) (String.length ".unexpected_count") = p).
  { rewrite Hp. apply drop_last_app. discriminate. }
  unfold MapMetricProvider_get_evaluation_dependencies, get_metric_provider.
  cbv zeta. rewrite H, Hd, without_key_delete.
  rewrite (endswith_exclusive _ ".unexpected_count"
             ".unexpected_count.aggregate_fn" eq_refl eq_refl H).
  assert (Hloop : forall (f : string -> MetricConfiguration) d,
    fold_left
      (fun (dependencies : gmap string MetricConfiguration) metric_suffix =>
         if endswith (metric_name metric) metric_suffix
         then <["unexpected_condition" := f metric_suffix]> dependencies
         else dependencies) detail_suffixes d = d).
  { intros f d. apply fold_left_unchanged.
    eapply Forall_impl;
      [apply (detail_suffixes_excluded _ _ H); closed_suffixes|].
    intros s Hs d'. simpl in Hs. rewrite Hs. reflexivity. }
  destruct (reg (metric_name metric +:+ ".aggregate_fn") eng) as [pr|];
    destruct (reg (metric_name metric +:+ ".map") eng) as [pm|];
    unfold mbind, result_bind, Py.bind;
    rewrite (Hloop (fun metric_suffix => MetricConfiguration_new
               (drop_last (metric_name metric) (String.length metric_suffix)
                  +:+ ".condition") (metric_domain_kwargs metric)
               (Some (delete "result_format" (metric_value_kwargs metric)))));
    eexists; exists p; (split; [reflexivity|]); (split; [exact Hp|]);
    split; simplify_map_eq; reflexivity.
Qed.

(** Rewrites [endswith s b] to [false] from [H : endswith s a = true], when
    the closed suffixes [a] and [b] are not suffixes of each other. *)
Ltac exclude_suffix H b :=
  match type of H with
  | endswith ?s ?a = true =>
      try rewrite (endswith_exclusive s a b eq_refl eq_refl H)
  end.

(** C3.  A metric whose name ends in one of the five detail suffixes gets
    the dependency [unexpected_condition], whose metric is
    [<prefix>.condition] for the name's prefix before that suffix, with the
    domain kwargs of the requested metric. *)
Theorem detail_metric_dependency (metric : MetricConfiguration)
    (eng : engine_type) (suf : string) :
  In suf detail_suffixes ->
  endswith (metric_name metric) suf = true ->
  exists deps prefix,
    MapMetricProvider_get_evaluation_dependencies reg metric eng = Ok deps
    /\ metric_name metric = prefix +:+ suf
    /\ deps !! "unexpected_condition" =
         Some (mkMetric (prefix +:+ ".condition")
                 (metric_domain_kwargs metric)
                 (delete "result_format" (metric_value_kwargs metric))).
Proof.
  intros Hin H. destruct (endswith_split _ _ H) as [p Hp].
  assert (Hd : suf <> EmptyString ->
               drop_last (metric_name metric) (String.length suf) = p).
  { intros Hne. rewrite Hp. apply drop_last_app, Hne. }
  unfold MapMetricProvider_get_evaluation_dependencies, get_metric_provider.
  cbv zeta. rewrite without_key_delete.
  unfold detail_suffixes in Hin. simpl in Hin.
  destruct Hin as [<-|[<-|[<-|[<-|[<-|[]]]]]];
    exclude_suffix H ".unexpected_count";
    exclude_suffix H ".unexpected_count.aggregate_fn";
    unfold mbind, result_bind, Py.bind, detail_suffixes; cbn [fold_left];
    rewrite ?H;
    exclude_suffix H ".unexpected_values";
    exclude_suffix H ".unexpected_value_counts";
    exclude_suffix H ".unexpected_index_list";
    exclude_suffix H ".unexpected_rows";
    exclude_suffix H ".filtered_row_count";
    rewrite Hd by discriminate;
    destruct (reg (metric_name metric +:+ ".map") eng) as [pm|];
    eexists; exists p; (split; [reflexivity|]); (split; [exact Hp|]);
    simplify_map_eq; reflexivity.
Qed.

Lemma dependencies_decompose (metric : MetricConfiguration) (eng : engine_type) :
  MapMetricProvider_get_evaluation_dependencies reg metric eng =
  let d := suffix_rules reg (metric_name metric) (metric_domain_kwargs metric)
             (delete "result_format" (metric_value_kwargs metric)) eng in
  match reg (metric_name metric +:+ ".map") eng with
  | Some _ =>
      Ok (<["metric_map_fn" :=
              mkMetric (metric_name metric +:+ ".map")
                (metric_domain_kwargs metric) (metric_value_kwargs metric)]> d)
  | None => Ok d
  end.
Proof.
  unfold MapMetricProvider_get_evaluation_dependencies, suffix_rules,
    get_metric_provider, MetricConfiguration_new.
  cbv zeta. rewrite without_key_delete.
  destruct (endswith (metric_name metric) ".unexpected_count");
    [destruct (reg (metric_name metric +:+ ".aggregate_fn") eng)|];
    unfold mbind, result_bind, Py.bind;
    destruct (reg (metric_name metric +:+ ".map") eng); reflexivity.
Qed.

Lemma suffix_entries_ok_empty (dk base : kwargs) : suffix_entries_ok dk base ∅.
Proof. intros role c H. rewrite lookup_empty in H. discriminate. Qed.

Lemma suffix_entries_ok_insert (dk base : kwargs) (role name : string)
    (d : gmap string MetricConfiguration) :
  role = "metric_partial_fn" \/ role = "unexpected_condition" ->
  suffix_entries_ok dk base d ->
  suffix_entries_ok dk base (<[role := mkMetric name dk base]> d).
Proof.
  intros Hrole Hd role' c H.
  destruct (decide (role = role')) as [<-|Hne].
  - rewrite lookup_insert_eq in H. injection H as <-. auto.
  - rewrite lookup_insert_ne in H by exact Hne. exact (Hd _ _ H).
Qed.

Lemma suffix_rules_ok (name : string) (dk base : kwargs) (eng : engine_type) :
  suffix_entries_ok dk base (suffix_rules reg name dk base eng).
Proof.
  unfold suffix_rules. cbv zeta.
  set (d1 := if endswith name ".unexpected_count" then _ else _).
  assert (H1 : suffix_entries_ok dk base d1).
  { subst d1. destruct (endswith name ".unexpected_count");
      [destruct (reg _ eng)|]; try apply suffix_entries_ok_empty;
      apply suffix_entries_ok_insert; auto using suffix_entries_ok_empty. }
  set (d2 := if endswith name ".unexpected_count.aggregate_fn" then _ else _).
  assert (H2 : suffix_entries_ok dk base d2).
  { subst d2. destruct (endswith name ".unexpected_count.aggregate_fn");
      [apply suffix_entries_ok_insert; auto | exact H1]. }
  clearbody d2. clear H1 d1. revert d2 H2.
  induction detail_suffixes as [|s l IH]; intros d2 H2; [exact H2|].
  simpl. apply IH. destruct (endswith name s);
    [apply suffix_entries_ok_insert; auto | exact H2].
Qed.

(** C10.  Every dependency generated by the suffix rules (roles
    [metric_partial_fn] and [unexpected_condition]) carries the parent's
    value kwargs with the key [result_format] removed; the [metric_map_fn]
    dependency carries the parent's value kwargs unmodified; hence two
    requests that differ only in [result_format] resolve to one and the same
    dependency under each suffix role. *)
Theorem suffix_dependencies_ignore_result_format
    (metric metric' : MetricConfiguration) (eng : engine_type) :
  metric_name metric' = metric_name metric ->
  metric_domain_kwargs metric' = metric_domain_kwargs metric ->
  delete "result_format" (metric_value_kwargs metric') =
    delete "result_format" (metric_value_kwargs metric) ->
  exists deps deps',
    MapMetricProvider_get_evaluation_dependencies reg metric eng = Ok deps
    /\ MapMetricProvider_get_evaluation_dependencies reg metric' eng = Ok deps'
    /\ (forall role c,
          role = "metric_partial_fn" \/ role = "unexpected_condition" ->
          deps !! role = Some c ->
          metric_value_kwargs c =
            delete "result_format" (metric_value_kwargs metric)
          /\ deps' !! role = Some c)
    /\ (forall c, deps !! "metric_map_fn" = Some c ->
          metric_value_kwargs c = metric_value_kwargs metric).
Proof.
  intros Hn Hdk Hvk.
  rewrite !dependencies_decompose. cbv zeta. rewrite Hn, Hdk, Hvk.
  set (d := suffix_rules _ _ _ _ _).
  assert (Hd := suffix_rules_ok (metric_name metric) (metric_domain_kwargs metric)
                  (delete "result_format" (metric_value_kwargs metric)) eng).
  fold d in Hd.
  assert (Hmap : d !! "metric_map_fn" = None).
  { destruct (d !! "metric_map_fn") as [c|] eqn:E; [|reflexivity].
    destruct (Hd _ _ E) as [[?|?] _]; discriminate. }
  destruct (reg (metric_name metric +:+ ".map") eng) as [pm|];
    eexists; eexists; (split; [reflexivity|]); (split; [reflexivity|]); split.
  - intros role c Hrole H.
    assert (Hne : "metric_map_fn" <> role) by (destruct Hrole; subst; discriminate).
    rewrite lookup_insert_ne in H by exact Hne.
    rewrite lookup_insert_ne by exact Hne.
    split; [apply (Hd _ _ H) | exact H].
  - intros c H. rewrite lookup_insert_eq in H. injection H as <-. reflexivity.
  - intros role c Hrole H. split; [apply (Hd _ _ H) | exact H].
  - intros c H. rewrite Hmap in H. discriminate.
Qed.

Lemma without_keys_delete (keys : list string) (d : kwargs) :
  without_keys keys d = foldr delete d keys.
Proof.
  apply map_eq. intros i. rewrite without_keys_lookup.
  induction keys as [|k keys IH]; simpl.
  - destruct (decide (i ∈ [])) as [Hin|_]; [inversion Hin | reflexivity].
  - destruct (decide (i = k)) as [->|Hne].
    + rewrite lookup_delete_eq.
      destruct (decide (k ∈ k :: keys)) as [_|Hn]; [reflexivity|].
      exfalso. apply Hn. left.
    + rewrite lookup_delete_ne by congruence. rewrite <- IH.
      destruct (decide (i ∈ k :: keys)) as [Hin|Hnin];
        destruct (decide (i ∈ keys)) as [Hin'|Hnin']; try reflexivity.
      * apply elem_of_cons in Hin. destruct Hin; contradiction.
      * exfalso. apply Hnin. right. exact Hin'.
Qed.

(** C4.  Whatever metric is resolved through a COLUMN, COLUMN_PAIR or
    MULTICOLUMN map-metric provider, the returned dependencies contain the
    three table-level metrics [table.column_types], [table.columns] and
    [table.row_count], each keyed by the requested metric's domain kwargs
    with the accessor keys of that domain type removed. *)
Theorem table_dependencies_always_present (cls : column_provider_class)
    (metric : MetricConfiguration) (eng : engine_type) :
  exists deps,
    get_evaluation_dependencies reg cls metric eng = Ok deps
    /\ Forall
         (fun table_metric =>
            exists c,
              deps !! table_metric = Some c
              /\ metric_name c = table_metric
              /\ metric_domain_kwargs c =
                   foldr delete (metric_domain_kwargs metric)
                     (accessor_keys cls))
         ["table.column_types"; "table.columns"; "table.row_count"].
Proof.
  unfold get_evaluation_dependencies,
    ColumnMapMetricProvider_get_evaluation_dependencies,
    ColumnPairMapMetricProvider_get_evaluation_dependencies,
    MulticolumnMapMetricProvider_get_evaluation_dependencies.
  rewrite dependencies_decompose. cbv zeta.
  destruct cls;
    destruct (reg (metric_name metric +:+ ".map") eng) as [pm|];
    unfold mbind, result_bind, Py.bind, add_table_dependencies;
    rewrite ?without_keys_delete, ?without_key_delete;
    eexists; (split; [reflexivity|]);
    repeat apply List.Forall_cons; try apply List.Forall_nil;
    eexists; (split; [simplify_map_eq; reflexivity|]); split; reflexivity.
Qed.

End Rules.

Import Examples.

Lemma unexpected_count_dependency_pandas :
  exists deps,
    MapMetricProvider_get_evaluation_dependencies example_registry count_metric
      PandasExecutionEngine = Ok deps
    /\ deps !! "unexpected_condition" =
         Some (mkMetric "column_values.nonnull.condition" example_domain_kwargs
                 (delete "result_format" ∅)).
Proof.
  destruct (unexpected_count_dependency example_registry count_metric
              PandasExecutionEngine eq_refl) as (deps & p & Hdeps & Hp & Hc & _).
  exists deps. split; [exact Hdeps|].
  rewrite <- (string_app_inj_r "column_values.nonnull" p ".unexpected_count")
    in Hc by (discriminate || exact Hp).
  exact Hc.
Defined.

Lemma detail_metric_dependency_values :
  exists deps,
    MapMetricProvider_get_evaluation_dependencies example_registry
      (values_metric basic_result_format) PandasExecutionEngine = Ok deps
    /\ deps !! "unexpected_condition" =
         Some (mkMetric "column_values.nonnull.condition" example_domain_kwargs
                 (delete "result_format"
                    (metric_value_kwargs (values_metric basic_result_format)))).
Proof.
  destruct (detail_metric_dependency example_registry
              (values_metric basic_result_format) PandasExecutionEngine
              ".unexpected_values" (or_introl eq_refl) eq_refl)
    as (deps & p & Hdeps & Hp & Hc).
  exists deps. split; [exact Hdeps|].
  rewrite <- (string_app_inj_r "column_values.nonnull" p ".unexpected_values")
    in Hc by (discriminate || exact Hp).
  exact Hc.
Defined.

Lemma result_format_shares_condition :
  exists deps deps',
    MapMetricProvider_get_evaluation_dependencies example_registry
      (values_metric basic_result_format) PandasExecutionEngine = Ok deps
    /\ MapMetricProvider_get_evaluation_dependencies example_registry
         (values_metric complete_result_format) PandasExecutionEngine = Ok deps'
    /\ forall c, deps !! "unexpected_condition" = Some c ->
         deps' !! "unexpected_condition" = Some c.
Proof.
  assert (Hvk : delete "result_format"
                  (metric_value_kwargs (values_metric complete_result_format)) =
                delete "result_format"
                  (metric_value_kwargs (values_metric basic_result_format))).
  { unfold values_metric. simpl. rewrite !delete_singleton_eq. reflexivity. }
  destruct (suffix_dependencies_ignore_result_format example_registry
              (values_metric basic_result_format)
              (values_metric complete_result_format) PandasExecutionEngine
              eq_refl eq_refl Hvk) as (deps & deps' & H1 & H2 & H3 & _).
  exists deps, deps'. split; [exact H1|]. split; [exact H2|].
  intros c Hc. apply (H3 "unexpected_condition" c); [right; reflexivity | exact Hc].
Defined.

End DepsTheory.

(** ** Facts on the pandas model *)

Module FramesTheory.
Import Frames.

Lemma check_bool_indexer_aligned (index : list label) (key : Series bool) :
  key.*1 = index -> check_bool_indexer index key = Ok key.*2.
Proof.
  intros H. unfold check_bool_indexer.
  rewrite bool_decide_eq_true_2 by exact H. reflexivity.
Qed.

Lemma select_filter {A : Type} (p : A -> bool) (l : list A) :
  select l (map p l) = List.filter p l.
Proof.
  induction l as [|x l IH]; simpl; [reflexivity|].
  rewrite IH. destruct (p x); reflexivity.
Qed.

Lemma length_select {A : Type} (l : list A) (bs : list bool) :
  length l = length bs -> length (select l bs) = count_true bs.
Proof.
  unfold count_true. revert bs.
  induction l as [|x l IH]; intros [|b bs] Hlen; simpl in *; try discriminate;
    [reflexivity|].
  injection Hlen as Hlen. specialize (IH bs Hlen).
  destruct b.
  - rewrite filter_cons_True by reflexivity. simpl. rewrite IH. reflexivity.
  - rewrite filter_cons_False by discriminate. exact IH.
Qed.

Lemma select_fmap {A B : Type} (f : A -> B) (l : list A) (bs : list bool) :
  f <$> select l bs = select (f <$> l) bs.
Proof.
  revert bs. induction l as [|x l IH]; intros [|b bs]; simpl; try reflexivity.
  destruct b; simpl; rewrite IH; reflexivity.
Qed.

Lemma series_eq_True_id (s : Series bool) : series_eq_True s = s.
Proof.
  unfold series_eq_True. induction s as [|[i b] s IH]; simpl; [reflexivity|].
  rewrite IH. destruct b; reflexivity.
Qed.

Lemma slice_to_nonneg {A : Type} (l : list A) (n : Z) :
  (0 <= n)%Z -> slice_to l n = firstn (Z.to_nat n) l.
Proof.
  intros H. unfold slice_to.
  destruct (n <? 0)%Z eqn:E; [apply Z.ltb_lt in E; lia | reflexivity].
Qed.

Section DataFrameFacts.
Context {V : Type}.

(** Dropping the null rows of a column keeps, in order, the rows whose cell
    in that column holds a value. *)
Lemma drop_null_rows_filter (df : DataFrame V) (c : string) :
  c ∈ df_columns df ->
  drop_null_rows df (PStr c) =
  Ok (mkDataFrame (df_columns df)
        (List.filter (fun r => is_value (r.2 c)) (df_rows df))).
Proof.
  intros Hc. unfold drop_null_rows, df_getitem_py, df_getitem, df_getitem_mask.
  rewrite bool_decide_eq_true_2 by exact Hc. simpl.
  rewrite check_bool_indexer_aligned.
  2:{ unfold notnull, df_index. rewrite <- !list_fmap_compose. reflexivity. }
  simpl. f_equal. f_equal.
  unfold notnull. rewrite <- !list_fmap_compose.
  apply (select_filter (fun r => is_value (r.2 c))).
Qed.

End DataFrameFacts.

End FramesTheory.

(** ** The in-memory providers: counts and values *)

Module ProvidersTheory.
Import Deps Frames Providers FramesTheory.

Lemma check_column_exists_present {C : Type} (c : string) (cols : list string)
    (metrics : Metrics C) :
  table_columns metrics = Some cols -> c ∈ cols ->
  check_column_exists (PStr c) metrics = Ok tt.
Proof.
  intros Hcols Hc. unfold check_column_exists, metrics_table_columns.
  rewrite Hcols. simpl. rewrite bool_decide_eq_true_2 by exact Hc. reflexivity.
Qed.

Lemma check_column_exists_missing {C : Type} (column_name : pyval)
    (cols : list string) (metrics : Metrics C) :
  table_columns metrics = Some cols -> py_in_strs column_name cols = false ->
  check_column_exists column_name metrics =
  Raise InvalidMetricAccessorDomainKwargsKeyError.
Proof.
  intros Hcols Hc. unfold check_column_exists, metrics_table_columns.
  rewrite Hcols. simpl. rewrite Hc. reflexivity.
Qed.

Lemma getitem_Some (d : kwargs) (key : string) (v : pyval) :
  d !! key = Some v -> getitem d key = Ok v.
Proof. intros H. unfold getitem. rewrite H. reflexivity. Qed.

Lemma key_in_dom (d : kwargs) (key : string) (v : pyval) :
  d !! key = Some v -> key ∈ dom d.
Proof. intros H. apply elem_of_dom. eauto. Qed.

Section PandasColumn.
Context {V : Type}.

(** The frame a column-domain detail provider works on. *)
Lemma pandas_domain_frame (flag : bool) (df : DataFrame V) (c : string) :
  c ∈ df_columns df ->
  (if flag then drop_null_rows df (PStr c) else Ok df)
  = Ok (mkDataFrame (df_columns df) (domain_rows flag df c)).
Proof.
  intros Hc. unfold domain_rows. destruct flag.
  - apply drop_null_rows_filter, Hc.
  - destruct df; reflexivity.
Qed.

(** Selecting with a mask that has the index of the selected Series. *)
Lemma series_getitem_mask_aligned {A : Type} (s : Series A) (mask : Series bool) :
  mask.*1 = s.*1 ->
  series_getitem_mask s (series_eq_True mask) = Ok (select s mask.*2).
Proof.
  intros Hal. unfold series_getitem_mask. rewrite series_eq_True_id.
  rewrite check_bool_indexer_aligned by exact Hal. reflexivity.
Qed.

(** C1.  On the in-memory backend, for a stored unexpected condition
    aligned with the domain records: the unexpected-count provider returns
    [k], the number of rows on which the condition holds, whatever the
    value kwargs (so whatever the result format); with the result format
    COMPLETE the unexpected-values provider returns the column values at all
    the unexpected rows in row order, [k] of them; with any other result
    format and a cap [n] (a count, so not negative), it returns the first
    [min k n] of that same list. *)
Theorem unexpected_count_and_values (kw : option bool) (cls : ProviderClass)
    (execution_engine : ExecutionEngine (DataFrame V))
    (metric_domain_kwargs metric_value_kwargs : kwargs)
    (mask : Series bool) (compute_domain_kwargs accessor_domain_kwargs : kwargs)
    (columns : list string) (column : string) (df : DataFrame V)
    (result_format format : pyval) :
  let metrics :=
    mkMetrics (Some (mask, compute_domain_kwargs, accessor_domain_kwargs))
      (Some columns) in
  let rows := domain_rows (get_filter_column_isnull kw cls false) df column in
  let k := count_nonzero mask in
  let unexpected := values_at rows column mask in
  get_domain_records execution_engine compute_domain_kwargs = Ok df ->
  accessor_domain_kwargs !! "column" = Some (PStr column) ->
  column ∈ columns ->
  column ∈ df_columns df ->
  mask.*1 = rows.*1 ->
  metric_value_kwargs !! "result_format" = Some result_format ->
  py_getitem_str result_format "result_format" = Ok format ->
  (forall value_kwargs,
     _pandas_map_condition_unexpected_count cls execution_engine
       metric_domain_kwargs value_kwargs metrics = Ok k)
  /\ length unexpected = k
  /\ (py_eq_str format "COMPLETE" = true ->
      _pandas_column_map_condition_values kw cls execution_engine
        metric_domain_kwargs metric_value_kwargs metrics = Ok unexpected)
  /\ (forall n : Z,
        py_eq_str format "COMPLETE" = false ->
        py_getitem_str result_format "partial_unexpected_count" = Ok (PInt n) ->
        (0 <= n)%Z ->
        _pandas_column_map_condition_values kw cls execution_engine
          metric_domain_kwargs metric_value_kwargs metrics
        = Ok (firstn (Nat.min k (Z.to_nat n)) unexpected)).
Proof.
  intros metrics rows k unexpected Hdf Hcol Hcols Hdfc Hal Hrf Hfmt.
  assert (Hlen : length unexpected = k).
  { subst unexpected k. unfold values_at, count_nonzero.
    apply length_select. rewrite length_map.
    rewrite <- (length_fmap fst rows), <- Hal, !length_fmap. reflexivity. }
  assert (Hvalues :
    _pandas_column_map_condition_values kw cls execution_engine
      metric_domain_kwargs metric_value_kwargs metrics =
    (if py_eq_str format "COMPLETE" then Ok unexpected
     else
       partial_unexpected_count ←
         py_getitem_str result_format "partial_unexpected_count";
       bound ← py_slice_bound partial_unexpected_count;
       Ok (slice_to_bound unexpected bound))).
  { unfold _pandas_column_map_condition_values. subst metrics. simpl.
    rewrite Hdf. simpl.
    rewrite bool_decide_eq_false_2
      by (intros Hn; apply Hn; eapply key_in_dom; exact Hcol).
    rewrite (getitem_Some _ _ _ Hcol). simpl.
    rewrite (check_column_exists_present column columns) by (reflexivity || exact Hcols).
    simpl.
    rewrite (pandas_domain_frame _ df column Hdfc). simpl.
    unfold df_getitem. simpl. rewrite bool_decide_eq_true_2 by exact Hdfc. simpl.
    fold rows. rewrite series_getitem_mask_aligned
      by (rewrite Hal, <- list_fmap_compose; reflexivity).
    simpl.
    rewrite (getitem_Some _ _ _ Hrf). simpl. rewrite Hfmt. simpl.
    assert (Hsel : forall bs, (select (map (fun r => (r.1, r.2 column)) rows) bs).*2
                   = select (map (fun r => r.2 column) rows) bs).
    { intros bs. unfold fmap at 1. rewrite (select_fmap snd).
      f_equal. rewrite <- list_fmap_compose. reflexivity. }
    destruct (py_eq_str format "COMPLETE").
    - unfold series_to_list. rewrite Hsel. reflexivity.
    - destruct (py_getitem_str result_format "partial_unexpected_count")
        as [p|e]; simpl; [|reflexivity].
      destruct (py_slice_bound p) as [[n|]|e]; simpl; try reflexivity.
      + unfold series_to_list, slice_to. f_equal.
        destruct (n <? 0)%Z; rewrite fmap_take, ?length_fmap; unfold take;
          rewrite Hsel; fold unexpected.
        * f_equal. subst unexpected. unfold values_at.
          rewrite !length_select; [reflexivity| |];
            rewrite ?length_map, ?length_fmap;
            rewrite <- (length_fmap fst rows), <- Hal, !length_fmap; reflexivity.
        * reflexivity.
      + unfold series_to_list. rewrite Hsel. reflexivity. }
  split; [|split; [exact Hlen|split]].
  - intros value_kwargs. reflexivity.
  - intros Hc. rewrite Hvalues, Hc. reflexivity.
  - intros n Hc Hn Hpos. rewrite Hvalues, Hc, Hn. simpl.
    rewrite slice_to_nonneg by exact Hpos. f_equal.
    destruct (Nat.le_ge_cases k (Z.to_nat n)) as [Hle|Hge].
    + rewrite Nat.min_l by exact Hle.
      rewrite !firstn_all2 by lia. reflexivity.
    + rewrite Nat.min_r by exact Hge. reflexivity.
Qed.

End PandasColumn.

Import Examples.

Lemma unexpected_count_and_values_age :
  _pandas_map_condition_unexpected_count no_filter_class age_engine
    example_domain_kwargs basic_value_kwargs
    (mkMetrics (Some (age_null_mask, age_compute, age_accessor)) (Some ["age"]))
  = Ok 1
  /\ _pandas_column_map_condition_values None no_filter_class age_engine
       example_domain_kwargs basic_value_kwargs
       (mkMetrics (Some (age_null_mask, age_compute, age_accessor)) (Some ["age"]))
     = Ok [None].
Proof.
  destruct (unexpected_count_and_values None no_filter_class age_engine
              example_domain_kwargs basic_value_kwargs age_null_mask
              age_compute age_accessor ["age"] "age" age_frame
              basic_result_format (PStr "BASIC"))
    as (Hcount & _ & _ & Hpartial).
  - reflexivity.
  - reflexivity.
  - constructor.
  - constructor.
  - reflexivity.
  - reflexivity.
  - reflexivity.
  - split.
    + apply Hcount.
    + apply (Hpartial 10%Z); [reflexivity | reflexivity | lia].
Defined.

End ProvidersTheory.

(** ** The partial adapters: what a condition partial stores *)

Module PartialsTheory.
Import Deps Frames Providers FramesTheory ProvidersTheory.

Lemma and3_comm (a b : option bool) : and3 a b = and3 b a.
Proof. destruct a as [[]|], b as [[]|]; reflexivity. Qed.

(** What the pandas condition partial computes on a column that exists. *)
Lemma pandas_condition_partial_run {V : Type}
    (kw : option bool) (cls : ProviderClass)
    (metric_domain_kwargs metric_value_kwargs : kwargs)
    (compute_domain_kwargs accessor_domain_kwargs : kwargs)
    (columns : list string) (column : string)
    (pandas_engine : ExecutionEngine (DataFrame V)) (df : DataFrame V)
    (pandas_fn : Series (cell V) -> kwargs -> Metrics (Series bool)
                 -> result (Series bool))
    (pandas_metrics : Metrics (Series bool)) :
  accessor_domain_kwargs !! "column" = Some (PStr column) ->
  column ∈ columns ->
  table_columns pandas_metrics = Some columns ->
  get_compute_domain pandas_engine metric_domain_kwargs COLUMN
    = Ok (df, compute_domain_kwargs, accessor_domain_kwargs) ->
  column ∈ df_columns df ->
  pandas_column_condition_partial kw pandas_fn cls pandas_engine
    metric_domain_kwargs metric_value_kwargs pandas_metrics
  = (meets ← pandas_fn
               (map (fun r => (r.1, r.2 column))
                  (domain_rows (get_filter_column_isnull kw cls true) df column))
               metric_value_kwargs pandas_metrics;
     Ok (map (fun e => (e.1, negb e.2)) meets,
         compute_domain_kwargs, accessor_domain_kwargs)).
Proof.
  intros Hcol Hin Hpm Hpd Hdf.
  unfold pandas_column_condition_partial. rewrite Hpd. simpl.
  rewrite (getitem_Some _ _ _ Hcol). simpl.
  rewrite (check_column_exists_present column columns) by assumption. simpl.
  rewrite (pandas_domain_frame _ df column Hdf). simpl.
  unfold df_getitem. simpl. rewrite bool_decide_eq_true_2 by exact Hdf.
  reflexivity.
Qed.

(** The condition a pandas condition partial stores has the index of the
    domain rows, when the business function keeps the index of its column:
    it is aligned with what the detail providers select from. *)
Lemma pandas_condition_aligned {V : Type}
    (kw : option bool) (cls : ProviderClass)
    (metric_domain_kwargs metric_value_kwargs : kwargs)
    (compute_domain_kwargs accessor_domain_kwargs : kwargs)
    (columns : list string) (column : string)
    (pandas_engine : ExecutionEngine (DataFrame V)) (df : DataFrame V)
    (pandas_fn : Series (cell V) -> kwargs -> Metrics (Series bool)
                 -> result (Series bool))
    (pandas_metrics : Metrics (Series bool))
    (stored : Series bool * kwargs * kwargs) :
  accessor_domain_kwargs !! "column" = Some (PStr column) ->
  column ∈ columns ->
  table_columns pandas_metrics = Some columns ->
  get_compute_domain pandas_engine metric_domain_kwargs COLUMN
    = Ok (df, compute_domain_kwargs, accessor_domain_kwargs) ->
  column ∈ df_columns df ->
  (forall s vk m r, pandas_fn s vk m = Ok r -> r.*1 = s.*1) ->
  pandas_column_condition_partial kw pandas_fn cls pandas_engine
    metric_domain_kwargs metric_value_kwargs pandas_metrics = Ok stored ->
  stored.1.1.*1
  = (domain_rows (get_filter_column_isnull kw cls true) df column).*1
  /\ stored.1.2 = compute_domain_kwargs
  /\ stored.2 = accessor_domain_kwargs.
Proof.
  intros Hcol Hin Hpm Hpd Hdf Hkeep Hrun.
  rewrite (pandas_condition_partial_run kw cls metric_domain_kwargs
             metric_value_kwargs compute_domain_kwargs accessor_domain_kwargs
             columns column pandas_engine df pandas_fn pandas_metrics
             Hcol Hin Hpm Hpd Hdf) in Hrun.
  destruct (pandas_fn _ _ _) as [meets|e] eqn:E; simpl in Hrun; [|discriminate].
  injection Hrun as <-. simpl. split; [|split; reflexivity].
  apply Hkeep in E.
  transitivity (meets.*1).
  - unfold fmap. rewrite List.map_map. reflexivity.
  - rewrite E. unfold fmap. rewrite List.map_map. reflexivity.
Qed.

(** C5.  A column condition partial stores the negation of the business
    function's "meets expectation" result.  On the pandas backend the
    business function is applied to the column of the domain rows, from
    which the rows with a null cell are dropped first when
    [filter_column_isnull] is set, and its boolean Series is negated.  On
    the SQLAlchemy backend the stored condition is one predicate: with
    [filter_column_isnull] it is the conjunction of [column IS NOT NULL] and
    [NOT meets] (on every row it evaluates as NOT(meets) AND column IS NOT
    NULL), without it [NOT meets] alone. *)
Theorem condition_partial_stores_negation
    {V Selectable Dialect SaEngine : Type}
    (kw : option bool) (cls : ProviderClass)
    (metric_domain_kwargs metric_value_kwargs : kwargs)
    (compute_domain_kwargs accessor_domain_kwargs : kwargs)
    (columns : list string) (column : string)
    (pandas_engine : ExecutionEngine (DataFrame V)) (df : DataFrame V)
    (pandas_fn : Series (cell V) -> kwargs -> Metrics (Series bool)
                 -> result (Series bool))
    (pandas_metrics : Metrics (Series bool))
    (sql_engine : @SqlAlchemyExecutionEngine_obj Selectable Dialect SaEngine)
    (selectable : Selectable)
    (sql_fn : vexpr -> kwargs -> Dialect -> Selectable -> SaEngine
              -> Metrics bexpr -> result bexpr)
    (sql_metrics : Metrics bexpr) :
  let filter_column_isnull := get_filter_column_isnull kw cls true in
  accessor_domain_kwargs !! "column" = Some (PStr column) ->
  column ∈ columns ->
  table_columns pandas_metrics = Some columns ->
  table_columns sql_metrics = Some columns ->
  get_compute_domain pandas_engine metric_domain_kwargs COLUMN
    = Ok (df, compute_domain_kwargs, accessor_domain_kwargs) ->
  column ∈ df_columns df ->
  get_compute_domain (sql_base sql_engine) metric_domain_kwargs COLUMN
    = Ok (selectable, compute_domain_kwargs, accessor_domain_kwargs) ->
  pandas_column_condition_partial kw pandas_fn cls pandas_engine
    metric_domain_kwargs metric_value_kwargs pandas_metrics
  = (meets ← pandas_fn
               (map (fun r => (r.1, r.2 column))
                  (domain_rows filter_column_isnull df column))
               metric_value_kwargs pandas_metrics;
     Ok (map (fun e => (e.1, negb e.2)) meets,
         compute_domain_kwargs, accessor_domain_kwargs))
  /\ sqlalchemy_column_condition_partial kw sql_fn cls sql_engine
       metric_domain_kwargs metric_value_kwargs sql_metrics
     = (meets ← sql_fn (Column column) metric_value_kwargs
                  (dialect_module sql_engine) selectable (engine sql_engine)
                  sql_metrics;
        Ok (if filter_column_isnull
            then And (Not (IsNull (Column column))) (Not meets)
            else Not meets,
            compute_domain_kwargs, accessor_domain_kwargs))
  /\ (forall (interp : string -> cell V -> option bool)
            (row : string -> cell V) (meets : bexpr),
        eval interp row (And (Not (IsNull (Column column))) (Not meets))
        = and3 (not3 (eval interp row meets))
               (eval interp row (IsNotNull (Column column)))).
Proof.
  intros flag Hcol Hin Hpm Hsm Hpd Hdf Hsd. split; [|split].
  - apply (pandas_condition_partial_run kw cls _ _ _ _ columns column _ df);
      assumption.
  - unfold sqlalchemy_column_condition_partial. rewrite Hsd. simpl.
    rewrite (getitem_Some _ _ _ Hcol). simpl.
    rewrite (check_column_exists_present column columns) by assumption. simpl.
    fold flag. destruct (sql_fn _ _ _ _ _ _) as [meets|e]; simpl; [|reflexivity].
    destruct flag; reflexivity.
  - intros interp row meets. simpl. rewrite and3_comm.
    destruct (row column); reflexivity.
Qed.

Import Examples.

Lemma condition_partial_stores_negation_age :
  pandas_column_condition_partial None gt15_series default_class
    (fixed_engine age_accessor) example_domain_kwargs ∅
    (mkMetrics None (Some ["age"]))
  = Ok ([(0%Z, true); (1%Z, false); (3%Z, false)], age_compute, age_accessor)
  /\ sqlalchemy_column_condition_partial None gt15_sql default_class
       (fixed_sql_engine age_accessor) example_domain_kwargs ∅
       (mkMetrics None (Some ["age"]))
     = Ok (And (Not (IsNull (Column "age"))) (Not (Pred "gt15" (Column "age"))),
           age_compute, age_accessor).
Proof.
  destruct (condition_partial_stores_negation (V := Z) None default_class
              example_domain_kwargs ∅ age_compute age_accessor ["age"] "age"
              (fixed_engine age_accessor) age_frame gt15_series
              (mkMetrics None (Some ["age"]))
              (fixed_sql_engine age_accessor) tt gt15_sql
              (mkMetrics None (Some ["age"])))
    as (Hpandas & Hsql & _).
  - reflexivity.
  - constructor.
  - reflexivity.
  - reflexivity.
  - reflexivity.
  - constructor.
  - reflexivity.
  - split; [rewrite Hpandas | rewrite Hsql]; reflexivity.
Defined.

End PartialsTheory.

(** ** A missing column fails fast *)

Module MissingColumnTheory.
Import Deps Frames Providers FramesTheory ProvidersTheory.

Lemma check_column_exists_cases {C : Type} (column_name : pyval)
    (cols : list string) (metrics : Metrics C) :
  table_columns metrics = Some cols ->
  check_column_exists column_name metrics =
  if py_in_strs column_name cols then Ok tt
  else Raise InvalidMetricAccessorDomainKwargsKeyError.
Proof.
  intros Hcols. unfold check_column_exists, metrics_table_columns.
  rewrite Hcols. reflexivity.
Qed.

(** The loop over a column list raises at its first missing column. *)
Lemma check_columns_exist_missing {C : Type} (l : list pyval)
    (cols : list string) (metrics : Metrics C) :
  table_columns metrics = Some cols ->
  (exists x, x ∈ l /\ py_in_strs x cols = false) ->
  check_columns_exist l metrics = Raise InvalidMetricAccessorDomainKwargsKeyError.
Proof.
  intros Hcols [x [Hx Hmiss]]. unfold check_columns_exist.
  induction l as [|y l IH]; [inversion Hx|].
  simpl. rewrite (check_column_exists_cases y cols metrics Hcols).
  destruct (py_in_strs y cols) eqn:Ey.
  - simpl. apply elem_of_cons in Hx. destruct Hx as [->|Hx]; [congruence|].
    specialize (IH Hx).
    destruct (traverse _ l) as [ys|e]; simpl in *; [discriminate | exact IH].
  - reflexivity.
Qed.

Section ColumnDomain.
Context {V R Selectable Dialect SaEngine Counts : Type}.
Variables (kw : option bool) (cls : ProviderClass).
Variables (metric_domain_kwargs metric_value_kwargs : kwargs).
Variables (columns : list string) (compute accessor : kwargs).
Variable pandas_engine : ExecutionEngine (DataFrame V).
Variable sql_engine : @SqlAlchemyExecutionEngine_obj Selectable Dialect SaEngine.
Variable spark_engine : ExecutionEngine SparkDataFrame.
Variables (mask : Series bool) (condition : bexpr).

Let pandas_metrics : Metrics (Series bool) :=
  mkMetrics (Some (mask, compute, accessor)) (Some columns).
Let expr_metrics : Metrics bexpr :=
  mkMetrics (Some (condition, compute, accessor)) (Some columns).

Section Column.
Variable column_name : pyval.
Hypothesis Hcolumn : accessor !! "column" = Some column_name.
Hypothesis Hmissing : py_in_strs column_name columns = false.

Lemma check_fails_pandas :
  check_column_exists column_name pandas_metrics
  = Raise InvalidMetricAccessorDomainKwargsKeyError.
Proof. apply (check_column_exists_missing _ columns); [reflexivity | exact Hmissing]. Qed.

Lemma check_fails_expr :
  check_column_exists column_name expr_metrics
  = Raise InvalidMetricAccessorDomainKwargsKeyError.
Proof. apply (check_column_exists_missing _ columns); [reflexivity | exact Hmissing]. Qed.

Lemma pandas_column_function_partial_missing (df : DataFrame V) (c : kwargs)
    (fn : Series (cell V) -> kwargs -> Metrics (Series bool) -> result R) :
  get_compute_domain pandas_engine metric_domain_kwargs COLUMN
    = Ok (df, c, accessor) ->
  raises_invalid_accessor
    (pandas_column_function_partial kw fn cls pandas_engine
       metric_domain_kwargs metric_value_kwargs pandas_metrics).
Proof.
  intros Hdomain.
  unfold raises_invalid_accessor, pandas_column_function_partial.
  rewrite Hdomain. simpl.
  rewrite (getitem_Some _ _ _ Hcolumn). simpl. rewrite check_fails_pandas.
  reflexivity.
Qed.

Lemma pandas_column_condition_partial_missing (df : DataFrame V) (c : kwargs)
    (fn : Series (cell V) -> kwargs -> Metrics (Series bool)
          -> result (Series bool)) :
  get_compute_domain pandas_engine metric_domain_kwargs COLUMN
    = Ok (df, c, accessor) ->
  raises_invalid_accessor
    (pandas_column_condition_partial kw fn cls pandas_engine
       metric_domain_kwargs metric_value_kwargs pandas_metrics).
Proof.
  intros Hdomain.
  unfold raises_invalid_accessor, pandas_column_condition_partial.
  rewrite Hdomain. simpl.
  rewrite (getitem_Some _ _ _ Hcolumn). simpl. rewrite check_fails_pandas.
  reflexivity.
Qed.

Lemma sqlalchemy_column_function_partial_missing (dk c : kwargs)
    (selectable : Selectable)
    (fn : vexpr -> kwargs -> Dialect -> Selectable -> Metrics bexpr -> result R) :
  (if get_filter_column_isnull kw cls false
   then add_column_row_condition (sql_base sql_engine) metric_domain_kwargs None
   else Ok metric_domain_kwargs) = Ok dk ->
  get_compute_domain (sql_base sql_engine) dk COLUMN
    = Ok (selectable, c, accessor) ->
  raises_invalid_accessor
    (sqlalchemy_column_function_partial kw fn cls sql_engine
       metric_domain_kwargs metric_value_kwargs expr_metrics).
Proof.
  intros Hrow Hdomain.
  unfold raises_invalid_accessor, sqlalchemy_column_function_partial.
  cbv zeta. rewrite Hrow. simpl. rewrite Hdomain. simpl.
  rewrite (getitem_Some _ _ _ Hcolumn). simpl. rewrite check_fails_expr.
  reflexivity.
Qed.

Lemma sqlalchemy_column_condition_partial_missing (c : kwargs)
    (selectable : Selectable)
    (fn : vexpr -> kwargs -> Dialect -> Selectable -> SaEngine
          -> Metrics bexpr -> result bexpr) :
  get_compute_domain (sql_base sql_engine) metric_domain_kwargs COLUMN
    = Ok (selectable, c, accessor) ->
  raises_invalid_accessor
    (sqlalchemy_column_condition_partial kw fn cls sql_engine
       metric_domain_kwargs metric_value_kwargs expr_metrics).
Proof.
  intros Hdomain.
  unfold raises_invalid_accessor, sqlalchemy_column_condition_partial.
  rewrite Hdomain. simpl.
  rewrite (getitem_Some _ _ _ Hcolumn). simpl. rewrite check_fails_expr.
  reflexivity.
Qed.

Lemma spark_column_function_partial_missing (dk c : kwargs)
    (data : SparkDataFrame)
    (fn : vexpr -> kwargs -> Metrics bexpr -> kwargs -> result R) :
  (if get_filter_column_isnull kw cls false
   then add_column_row_condition spark_engine metric_domain_kwargs None
   else Ok metric_domain_kwargs) = Ok dk ->
  get_compute_domain spark_engine dk COLUMN = Ok (data, c, accessor) ->
  raises_invalid_accessor
    (spark_column_function_partial kw fn cls spark_engine
       metric_domain_kwargs metric_value_kwargs expr_metrics).
Proof.
  intros Hrow Hdomain.
  unfold raises_invalid_accessor, spark_column_function_partial.
  cbv zeta. rewrite Hrow. simpl. rewrite Hdomain. simpl.
  rewrite (getitem_Some _ _ _ Hcolumn). simpl. rewrite check_fails_expr.
  reflexivity.
Qed.

Lemma spark_column_condition_partial_missing (c : kwargs)
    (data : SparkDataFrame) (partial_fn_type : MetricPartialFunctionTypes)
    (fn : vexpr -> kwargs -> SparkDataFrame -> Metrics bexpr -> kwargs
          -> kwargs -> result bexpr) :
  get_compute_domain spark_engine metric_domain_kwargs COLUMN
    = Ok (data, c, accessor) ->
  raises_invalid_accessor
    (spark_column_condition_partial kw partial_fn_type fn cls spark_engine
       metric_domain_kwargs metric_value_kwargs expr_metrics).
Proof.
  intros Hdomain.
  unfold raises_invalid_accessor, spark_column_condition_partial.
  rewrite Hdomain. simpl.
  rewrite (getitem_Some _ _ _ Hcolumn). simpl. rewrite check_fails_expr.
  reflexivity.
Qed.

Lemma pandas_column_values_missing (df : DataFrame V) :
  get_domain_records pandas_engine compute = Ok df ->
  raises_invalid_accessor
    (_pandas_column_map_condition_values kw cls pandas_engine
       metric_domain_kwargs metric_value_kwargs pandas_metrics).
Proof.
  intros Hrecords.
  unfold raises_invalid_accessor, _pandas_column_map_condition_values. simpl.
  rewrite Hrecords. simpl.
  rewrite bool_decide_eq_false_2
    by (intros Hn; apply Hn; eapply key_in_dom; exact Hcolumn).
  rewrite (getitem_Some _ _ _ Hcolumn). simpl. rewrite check_fails_pandas.
  reflexivity.
Qed.

Lemma check_accessor_columns_missing (flag : bool) (df : DataFrame V) :
  check_accessor_columns flag accessor pandas_metrics df
  = Raise InvalidMetricAccessorDomainKwargsKeyError.
Proof.
  unfold check_accessor_columns.
  rewrite bool_decide_eq_true_2 by (eapply key_in_dom; exact Hcolumn).
  rewrite (getitem_Some _ _ _ Hcolumn). simpl. rewrite check_fails_pandas.
  reflexivity.
Qed.

Lemma pandas_index_missing (domain_kwargs : kwargs) (df : DataFrame V) :
  dict_merge compute accessor = Ok domain_kwargs ->
  get_domain_records pandas_engine domain_kwargs = Ok df ->
  raises_invalid_accessor
    (_pandas_map_condition_index kw cls pandas_engine
       metric_domain_kwargs metric_value_kwargs pandas_metrics).
Proof.
  intros Hmerge Hrecords.
  unfold raises_invalid_accessor, _pandas_map_condition_index. simpl.
  rewrite Hmerge. simpl. rewrite Hrecords.
  simpl. rewrite check_accessor_columns_missing. reflexivity.
Qed.

Lemma pandas_rows_missing (domain_kwargs : kwargs) (df : DataFrame V) :
  dict_merge compute accessor = Ok domain_kwargs ->
  get_domain_records pandas_engine domain_kwargs = Ok df ->
  raises_invalid_accessor
    (_pandas_map_condition_rows kw cls pandas_engine
       metric_domain_kwargs metric_value_kwargs pandas_metrics).
Proof.
  intros Hmerge Hrecords.
  unfold raises_invalid_accessor, _pandas_map_condition_rows. simpl.
  rewrite Hmerge. simpl. rewrite Hrecords.
  simpl. rewrite check_accessor_columns_missing. reflexivity.
Qed.

Lemma pandas_value_counts_missing (df : DataFrame V)
    (value_counts : Series (cell V) -> result Counts)
    (apply_tuple : Series (cell V) -> result (Series (cell V)))
    (counts_getitem : Counts -> pyval -> result pyval) :
  get_domain_records pandas_engine compute = Ok df ->
  _pandas_column_map_condition_value_counts value_counts apply_tuple
    counts_getitem kw cls pandas_engine metric_domain_kwargs
    metric_value_kwargs pandas_metrics
  = ([], Raise InvalidMetricAccessorDomainKwargsKeyError).
Proof.
  intros Hrecords.
  unfold _pandas_column_map_condition_value_counts. simpl.
  rewrite Hrecords. simpl.
  rewrite (getitem_Some _ _ _ Hcolumn). simpl.
  rewrite bool_decide_eq_false_2
    by (intros Hn; apply Hn; eapply key_in_dom; exact Hcolumn).
  rewrite check_fails_pandas. reflexivity.
Qed.

End Column.

Section ColumnPair.
Variables column_A_name column_B_name : pyval.
Hypothesis HA : accessor !! "column_A" = Some column_A_name.
Hypothesis HB : accessor !! "column_B" = Some column_B_name.
Hypothesis Hmissing :
  py_in_strs column_A_name columns = false
  \/ py_in_strs column_B_name columns = false.
Variables (df : DataFrame V) (c : kwargs).
Hypothesis Hdomain :
  get_compute_domain pandas_engine metric_domain_kwargs COLUMN_PAIR
  = Ok (df, c, accessor).

Lemma check_pair_fails :
  check_columns_exist [column_A_name; column_B_name] pandas_metrics
  = Raise InvalidMetricAccessorDomainKwargsKeyError.
Proof.
  apply (check_columns_exist_missing _ columns); [reflexivity|].
  destruct Hmissing as [H|H]; [exists column_A_name | exists column_B_name];
    (split; [|exact H]); repeat constructor.
Qed.

Lemma pandas_column_pair_function_partial_missing
    (fn : Series (cell V) -> Series (cell V) -> kwargs -> Metrics (Series bool)
          -> result R) :
  raises_invalid_accessor
    (pandas_column_pair_function_partial fn cls pandas_engine
       metric_domain_kwargs metric_value_kwargs pandas_metrics).
Proof.
  unfold raises_invalid_accessor, pandas_column_pair_function_partial.
  rewrite Hdomain. simpl.
  rewrite (getitem_Some _ _ _ HA), (getitem_Some _ _ _ HB). simpl.
  rewrite check_pair_fails. reflexivity.
Qed.

Lemma pandas_column_pair_condition_partial_missing
    (fn : Series (cell V) -> Series (cell V) -> kwargs -> Metrics (Series bool)
          -> result (Series bool)) :
  raises_invalid_accessor
    (pandas_column_pair_condition_partial fn cls pandas_engine
       metric_domain_kwargs metric_value_kwargs pandas_metrics).
Proof.
  unfold raises_invalid_accessor, pandas_column_pair_condition_partial.
  rewrite Hdomain. simpl.
  rewrite (getitem_Some _ _ _ HA), (getitem_Some _ _ _ HB). simpl.
  rewrite check_pair_fails. reflexivity.
Qed.

End ColumnPair.

Section Multicolumn.
Variable column_list : list pyval.
Hypothesis Hlist : accessor !! "column_list" = Some (PList column_list).
Hypothesis Hmissing :
  exists x, x ∈ column_list /\ py_in_strs x columns = false.
Variables (df : DataFrame V) (c : kwargs).
Hypothesis Hdomain :
  get_compute_domain pandas_engine metric_domain_kwargs MULTICOLUMN
  = Ok (df, c, accessor).

Lemma check_list_fails :
  check_columns_exist column_list pandas_metrics
  = Raise InvalidMetricAccessorDomainKwargsKeyError.
Proof. apply (check_columns_exist_missing _ columns); [reflexivity | exact Hmissing]. Qed.

Lemma pandas_multicolumn_function_partial_missing
    (fn : DataFrame V -> kwargs -> Metrics (Series bool) -> result R) :
  raises_invalid_accessor
    (pandas_multicolumn_function_partial fn cls pandas_engine
       metric_domain_kwargs metric_value_kwargs pandas_metrics).
Proof.
  unfold raises_invalid_accessor, pandas_multicolumn_function_partial.
  rewrite Hdomain. simpl.
  rewrite (getitem_Some _ _ _ Hlist). simpl. rewrite check_list_fails.
  reflexivity.
Qed.

Lemma pandas_multicolumn_condition_partial_missing
    (fn : DataFrame V -> kwargs -> Metrics (Series bool)
          -> result (Series bool)) :
  raises_invalid_accessor
    (pandas_multicolumn_condition_partial fn cls pandas_engine
       metric_domain_kwargs metric_value_kwargs pandas_metrics).
Proof.
  unfold raises_invalid_accessor, pandas_multicolumn_condition_partial.
  rewrite Hdomain. simpl.
  rewrite (getitem_Some _ _ _ Hlist). simpl. rewrite check_list_fails.
  reflexivity.
Qed.

End Multicolumn.

(** The engine resolves the domain first: what it raises is what the
    partials of the in-memory backend raise. *)
Lemma pandas_partials_raise_engine_error (e : exn)
    (metrics : Metrics (Series bool)) :
  (get_compute_domain pandas_engine metric_domain_kwargs COLUMN = Raise e ->
   (forall fn : Series (cell V) -> kwargs -> Metrics (Series bool) -> result R,
      pandas_column_function_partial kw fn cls pandas_engine
        metric_domain_kwargs metric_value_kwargs metrics = Raise e)
   /\ (forall fn,
         pandas_column_condition_partial kw fn cls pandas_engine
           metric_domain_kwargs metric_value_kwargs metrics = Raise e))
  /\ (get_compute_domain pandas_engine metric_domain_kwargs COLUMN_PAIR
        = Raise e ->
      (forall fn : Series (cell V) -> Series (cell V) -> kwargs
                   -> Metrics (Series bool) -> result R,
         pandas_column_pair_function_partial fn cls pandas_engine
           metric_domain_kwargs metric_value_kwargs metrics = Raise e)
      /\ (forall fn,
            pandas_column_pair_condition_partial fn cls pandas_engine
              metric_domain_kwargs metric_value_kwargs metrics = Raise e))
  /\ (get_compute_domain pandas_engine metric_domain_kwargs MULTICOLUMN
        = Raise e ->
      (forall fn : DataFrame V -> kwargs -> Metrics (Series bool) -> result R,
         pandas_multicolumn_function_partial fn cls pandas_engine
           metric_domain_kwargs metric_value_kwargs metrics = Raise e)
      /\ (forall fn,
            pandas_multicolumn_condition_partial fn cls pandas_engine
              metric_domain_kwargs metric_value_kwargs metrics = Raise e)).
Proof.
  repeat split; intros fn.
  - unfold pandas_column_function_partial. rewrite H. reflexivity.
  - unfold pandas_column_condition_partial. rewrite H. reflexivity.
  - unfold pandas_column_pair_function_partial. rewrite H. reflexivity.
  - unfold pandas_column_pair_condition_partial. rewrite H. reflexivity.
  - unfold pandas_multicolumn_function_partial. rewrite H. reflexivity.
  - unfold pandas_multicolumn_condition_partial. rewrite H. reflexivity.
Qed.

End ColumnDomain.

(** C6, as the code has it.  Every adapter that reads a column name from
    the accessor domain kwargs checks it against the resolved
    [table.columns] metric once the execution engine has resolved the
    domain of the call: when a column the accessor names is not a member,
    the call raises [InvalidMetricAccessorDomainKwargsKeyError], whatever
    the business function is (so before it could be invoked, and whether or
    not the data has such a column).  This holds for the function and
    condition partials of the column domain on the three backends and of the
    column-pair and multicolumn domains on the in-memory backend, and for
    the in-memory providers of the unexpected values, value counts, index
    list and rows of a column.  The check comes after the engine's
    resolution of the domain: an error the engine raises there is the error
    of the call. *)
Theorem missing_column_fails_fast
    {V R Selectable Dialect SaEngine Counts : Type}
    (kw : option bool) (cls : ProviderClass)
    (metric_domain_kwargs metric_value_kwargs : kwargs)
    (columns : list string) (compute accessor : kwargs)
    (pandas_engine : ExecutionEngine (DataFrame V))
    (sql_engine : @SqlAlchemyExecutionEngine_obj Selectable Dialect SaEngine)
    (spark_engine : ExecutionEngine SparkDataFrame)
    (mask : Series bool) (condition : bexpr) :
  let pandas_metrics : Metrics (Series bool) :=
    mkMetrics (Some (mask, compute, accessor)) (Some columns) in
  let expr_metrics : Metrics bexpr :=
    mkMetrics (Some (condition, compute, accessor)) (Some columns) in
  (forall column_name,
     accessor !! "column" = Some column_name ->
     py_in_strs column_name columns = false ->
     (forall df c,
        get_compute_domain pandas_engine metric_domain_kwargs COLUMN
          = Ok (df, c, accessor) ->
        (forall fn : Series (cell V) -> kwargs -> Metrics (Series bool) -> result R,
           raises_invalid_accessor
             (pandas_column_function_partial kw fn cls pandas_engine
                metric_domain_kwargs metric_value_kwargs pandas_metrics))
        /\ (forall fn,
              raises_invalid_accessor
                (pandas_column_condition_partial kw fn cls pandas_engine
                   metric_domain_kwargs metric_value_kwargs pandas_metrics)))
     /\ (forall df,
           get_domain_records pandas_engine compute = Ok df ->
           raises_invalid_accessor
             (_pandas_column_map_condition_values kw cls pandas_engine
                metric_domain_kwargs metric_value_kwargs pandas_metrics)
           /\ (forall (value_counts : Series (cell V) -> result Counts)
                      apply_tuple counts_getitem,
                 (_pandas_column_map_condition_value_counts value_counts
                    apply_tuple counts_getitem kw cls pandas_engine
                    metric_domain_kwargs metric_value_kwargs pandas_metrics).2
                 = Raise InvalidMetricAccessorDomainKwargsKeyError))
     /\ (forall domain_kwargs df,
           dict_merge compute accessor = Ok domain_kwargs ->
           get_domain_records pandas_engine domain_kwargs = Ok df ->
           raises_invalid_accessor
             (_pandas_map_condition_index kw cls pandas_engine
                metric_domain_kwargs metric_value_kwargs pandas_metrics)
           /\ raises_invalid_accessor
                (_pandas_map_condition_rows kw cls pandas_engine
                   metric_domain_kwargs metric_value_kwargs pandas_metrics))
     /\ (forall dk selectable c,
           (if get_filter_column_isnull kw cls false
            then add_column_row_condition (sql_base sql_engine)
                   metric_domain_kwargs None
            else Ok metric_domain_kwargs) = Ok dk ->
           get_compute_domain (sql_base sql_engine) dk COLUMN
             = Ok (selectable, c, accessor) ->
           forall fn : vexpr -> kwargs -> Dialect -> Selectable -> Metrics bexpr
                       -> result R,
             raises_invalid_accessor
               (sqlalchemy_column_function_partial kw fn cls sql_engine
                  metric_domain_kwargs metric_value_kwargs expr_metrics))
     /\ (forall selectable c,
           get_compute_domain (sql_base sql_engine) metric_domain_kwargs COLUMN
             = Ok (selectable, c, accessor) ->
           forall fn,
             raises_invalid_accessor
               (sqlalchemy_column_condition_partial kw fn cls sql_engine
                  metric_domain_kwargs metric_value_kwargs expr_metrics))
     /\ (forall dk data c,
           (if get_filter_column_isnull kw cls false
            then add_column_row_condition spark_engine metric_domain_kwargs None
            else Ok metric_domain_kwargs) = Ok dk ->
           get_compute_domain spark_engine dk COLUMN = Ok (data, c, accessor) ->
           forall fn : vexpr -> kwargs -> Metrics bexpr -> kwargs -> result R,
             raises_invalid_accessor
               (spark_column_function_partial kw fn cls spark_engine
                  metric_domain_kwargs metric_value_kwargs expr_metrics))
     /\ (forall data c,
           get_compute_domain spark_engine metric_domain_kwargs COLUMN
             = Ok (data, c, accessor) ->
           forall partial_fn_type fn,
             raises_invalid_accessor
               (spark_column_condition_partial kw partial_fn_type fn cls
                  spark_engine metric_domain_kwargs metric_value_kwargs
                  expr_metrics)))
  /\ (forall column_A_name column_B_name df c,
        accessor !! "column_A" = Some column_A_name ->
        accessor !! "column_B" = Some column_B_name ->
        py_in_strs column_A_name columns = false
        \/ py_in_strs column_B_name columns = false ->
        get_compute_domain pandas_engine metric_domain_kwargs COLUMN_PAIR
          = Ok (df, c, accessor) ->
        (forall fn : Series (cell V) -> Series (cell V) -> kwargs
                     -> Metrics (Series bool) -> result R,
           raises_invalid_accessor
             (pandas_column_pair_function_partial fn cls pandas_engine
                metric_domain_kwargs metric_value_kwargs pandas_metrics))
        /\ (forall fn,
              raises_invalid_accessor
                (pandas_column_pair_condition_partial fn cls pandas_engine
                   metric_domain_kwargs metric_value_kwargs pandas_metrics)))
  /\ (forall column_list df c,
        accessor !! "column_list" = Some (PList column_list) ->
        (exists x, x ∈ column_list /\ py_in_strs x columns = false) ->
        get_compute_domain pandas_engine metric_domain_kwargs MULTICOLUMN
          = Ok (df, c, accessor) ->
        (forall fn : DataFrame V -> kwargs -> Metrics (Series bool) -> result R,
           raises_invalid_accessor
             (pandas_multicolumn_function_partial fn cls pandas_engine
                metric_domain_kwargs metric_value_kwargs pandas_metrics))
        /\ (forall fn,
              raises_invalid_accessor
                (pandas_multicolumn_condition_partial fn cls pandas_engine
                   metric_domain_kwargs metric_value_kwargs pandas_metrics)))
  /\ (forall e,
        (get_compute_domain pandas_engine metric_domain_kwargs COLUMN = Raise e ->
         (forall fn : Series (cell V) -> kwargs -> Metrics (Series bool)
                      -> result R,
            pandas_column_function_partial kw fn cls pandas_engine
              metric_domain_kwargs metric_value_kwargs pandas_metrics = Raise e)
         /\ (forall fn,
               pandas_column_condition_partial kw fn cls pandas_engine
                 metric_domain_kwargs metric_value_kwargs pandas_metrics
               = Raise e))
        /\ (get_compute_domain pandas_engine metric_domain_kwargs COLUMN_PAIR
              = Raise e ->
            (forall fn : Series (cell V) -> Series (cell V) -> kwargs
                         -> Metrics (Series bool) -> result R,
               pandas_column_pair_function_partial fn cls pandas_engine
                 metric_domain_kwargs metric_value_kwargs pandas_metrics
               = Raise e)
            /\ (forall fn,
                  pandas_column_pair_condition_partial fn cls pandas_engine
                    metric_domain_kwargs metric_value_kwargs pandas_metrics
                  = Raise e))
        /\ (get_compute_domain pandas_engine metric_domain_kwargs MULTICOLUMN
              = Raise e ->
            (forall fn : DataFrame V -> kwargs -> Metrics (Series bool)
                         -> result R,
               pandas_multicolumn_function_partial fn cls pandas_engine
                 metric_domain_kwargs metric_value_kwargs pandas_metrics
               = Raise e)
            /\ (forall fn,
                  pandas_multicolumn_condition_partial fn cls pandas_engine
                    metric_domain_kwargs metric_value_kwargs pandas_metrics
                  = Raise e))).
Proof.
  intros pandas_metrics expr_metrics. split; [|split; [|split]].
  - intros column_name Hcolumn Hmissing. repeat split.
    + intros fn. eapply pandas_column_function_partial_missing; eassumption.
    + intros fn. eapply pandas_column_condition_partial_missing; eassumption.
    + eapply pandas_column_values_missing; eassumption.
    + intros vc at_ cg. unfold pandas_metrics.
      erewrite (pandas_value_counts_missing (Counts := Counts)) by eassumption.
      reflexivity.
    + eapply pandas_index_missing; eassumption.
    + eapply pandas_rows_missing; eassumption.
    + intros dk selectable c Hrow Hdomain fn.
      eapply sqlalchemy_column_function_partial_missing; eassumption.
    + intros selectable c Hdomain fn.
      eapply sqlalchemy_column_condition_partial_missing; eassumption.
    + intros dk data c Hrow Hdomain fn.
      eapply spark_column_function_partial_missing; eassumption.
    + intros data c Hdomain t fn.
      eapply spark_column_condition_partial_missing; eassumption.
  - intros a b df c HA HB Hmissing Hdomain. split; intros fn.
    + eapply pandas_column_pair_function_partial_missing; eassumption.
    + eapply pandas_column_pair_condition_partial_missing; eassumption.
  - intros l df c Hlist Hmissing Hdomain. split; intros fn.
    + eapply pandas_multicolumn_function_partial_missing; eassumption.
    + eapply pandas_multicolumn_condition_partial_missing; eassumption.
  - intros e.
    apply (pandas_partials_raise_engine_error (R := R) kw cls
             metric_domain_kwargs metric_value_kwargs pandas_engine e
             pandas_metrics).
Qed.

Import Examples PandasEngine EngineExamples.

Lemma missing_column_fails_fast_nonexistent :
  pandas_column_condition_partial None failing_series default_class
    (as_engine pair_engine)
    {[ "batch_id" := PStr "b1"; "column" := PStr "nonexistent" ]} ∅
    (mkMetrics
       (Some (age_null_mask, {[ "batch_id" := PStr "b1" ]}, missing_accessor))
       (Some ["a"; "b"]))
  = Raise InvalidMetricAccessorDomainKwargsKeyError.
Proof.
  destruct (missing_column_fails_fast (V := Z) (R := unit) (Counts := nat)
              None default_class
              {[ "batch_id" := PStr "b1"; "column" := PStr "nonexistent" ]} ∅
              ["a"; "b"] {[ "batch_id" := PStr "b1" ]} missing_accessor
              (as_engine pair_engine) (fixed_sql_engine missing_accessor)
              (fixed_spark_engine missing_accessor) age_null_mask
              (Pred "gt15" (Column "age"))) as [Hcolumn _].
  destruct (Hcolumn (PStr "nonexistent") eq_refl eq_refl) as [Hpandas _].
  apply (Hpandas pair_frame {[ "batch_id" := PStr "b1" ]}).
  reflexivity.
Defined.

(** C6 as stated fails for the column-pair domain on the in-memory engine:
    with [ignore_row_if] set to [both_values_are_missing] the engine reads
    the two columns while it resolves the domain, and for a column the batch
    and [table.columns] lack ([column_A] is [nonexistent], the columns are
    [a] and [b]) the call raises pandas' [KeyError], not
    [InvalidMetricAccessorDomainKwargsKeyError]. *)
Lemma pair_missing_column_raises_key_error :
  missing_pair_accessor !! "column_A" = Some (PStr "nonexistent")
  /\ py_in_strs (PStr "nonexistent") ["a"; "b"] = false
  /\ pandas_column_pair_condition_partial equal_series default_class
       (as_engine pair_engine)
       (pair_domain_kwargs "nonexistent" "b" "both_values_are_missing") ∅
       (mkMetrics None (Some ["a"; "b"]))
     = Raise KeyError
  /\ ~ raises_invalid_accessor
         (pandas_column_pair_condition_partial equal_series default_class
            (as_engine pair_engine)
            (pair_domain_kwargs "nonexistent" "b" "both_values_are_missing") ∅
            (mkMetrics None (Some ["a"; "b"]))).
Proof.
  assert (Hraise :
    pandas_column_pair_condition_partial equal_series default_class
      (as_engine pair_engine)
      (pair_domain_kwargs "nonexistent" "b" "both_values_are_missing") ∅
      (mkMetrics None (Some ["a"; "b"]))
    = Raise KeyError) by (vm_compute; reflexivity).
  split; [reflexivity|]. split; [reflexivity|]. split; [exact Hraise|].
  unfold raises_invalid_accessor. rewrite Hraise. discriminate.
Qed.

End MissingColumnTheory.

(** ** The value-counts provider: one fallback *)

Module ValueCountsTheory.
Import Deps Frames Providers FramesTheory ProvidersTheory.

Section Fallback.
Context {V Counts : Type}.
Variable value_counts : Series (cell V) -> result Counts.
Variable apply_tuple : Series (cell V) -> result (Series (cell V)).
Variable counts_getitem : Counts -> pyval -> result pyval.

(** C9.  In the in-memory value-counts provider, when the direct
    [value_counts] raises [ValueError], exactly one fallback is attempted,
    counting after coercing each value to a tuple, and the provider raises
    [MetricComputationError] if and only if that fallback raises
    [ValueError] too.  (The pandas operations are arbitrary, except that
    they do not raise the provider's own [MetricComputationError].) *)
Theorem value_counts_single_fallback (kw : option bool) (cls : ProviderClass)
    (execution_engine : ExecutionEngine (DataFrame V))
    (metric_domain_kwargs metric_value_kwargs : kwargs)
    (mask : Series bool) (compute_domain_kwargs accessor_domain_kwargs : kwargs)
    (columns : list string) (column : string) (df : DataFrame V)
    (result_format : pyval) :
  let metrics :=
    mkMetrics (Some (mask, compute_domain_kwargs, accessor_domain_kwargs))
      (Some columns) in
  let domain_values :=
    map (fun r => (r.1, r.2 column))
      (domain_rows (get_filter_column_isnull kw cls false) df column) in
  let direct :=
    selected ← series_getitem_mask domain_values mask; value_counts selected in
  let fallback :=
    selected ← series_getitem_mask domain_values mask;
    tuples ← apply_tuple selected;
    value_counts tuples in
  get_domain_records execution_engine compute_domain_kwargs = Ok df ->
  accessor_domain_kwargs !! "column" = Some (PStr column) ->
  column ∈ columns ->
  column ∈ df_columns df ->
  metric_value_kwargs !! "result_format" = Some result_format ->
  direct = Raise ValueError ->
  fallback <> Raise MetricComputationError ->
  exists outcome,
    _pandas_column_map_condition_value_counts value_counts apply_tuple
      counts_getitem kw cls execution_engine metric_domain_kwargs
      metric_value_kwargs metrics
    = ([DirectValueCounts; TupleValueCounts], outcome)
    /\ (outcome = Raise MetricComputationError <-> fallback = Raise ValueError).
Proof.
  intros metrics domain_values direct fallback Hdf Hcol Hcols Hdfc Hrf Hdirect Hown.
  unfold _pandas_column_map_condition_value_counts. subst metrics. simpl.
  rewrite Hdf. simpl. rewrite (getitem_Some _ _ _ Hcol). simpl.
  rewrite bool_decide_eq_false_2
    by (intros Hn; apply Hn; eapply key_in_dom; exact Hcol).
  rewrite (check_column_exists_present column columns) by (reflexivity || exact Hcols).
  simpl. rewrite (pandas_domain_frame _ df column Hdfc). simpl.
  unfold df_getitem. simpl. rewrite bool_decide_eq_true_2 by exact Hdfc. simpl.
  rewrite (getitem_Some _ _ _ Hrf). simpl.
  fold domain_values. fold direct. fold fallback. rewrite Hdirect.
  destruct fallback as [counts|e] eqn:Ef.
  - eexists. split; [reflexivity|]. simpl. unfold series_bool. simpl.
    split; discriminate.
  - destruct e; (eexists; split; [reflexivity|]); simpl;
      split; intros H; try discriminate; try reflexivity; congruence.
Qed.

End Fallback.

Import Examples.

Lemma value_counts_single_fallback_nulls :
  _pandas_column_map_condition_value_counts null_sensitive_value_counts
    identity_apply_tuple no_counts_getitem None no_filter_class age_engine
    example_domain_kwargs basic_value_kwargs
    (mkMetrics (Some (age_null_mask, age_compute, age_accessor)) (Some ["age"]))
  = ([DirectValueCounts; TupleValueCounts], Raise MetricComputationError).
Proof.
  destruct (value_counts_single_fallback null_sensitive_value_counts
              identity_apply_tuple no_counts_getitem None no_filter_class
              age_engine example_domain_kwargs basic_value_kwargs age_null_mask
              age_compute age_accessor ["age"] "age" age_frame
              basic_result_format) as (outcome & Hrun & Hiff).
  - reflexivity.
  - reflexivity.
  - constructor.
  - constructor.
  - reflexivity.
  - reflexivity.
  - discriminate.
  - rewrite Hrun. f_equal. apply Hiff. reflexivity.
Defined.

End ValueCountsTheory.

(** ** The parameter namespace: writing and reading paths *)

Module ParamsTheory.
Import Frames Params.

(** Structural induction on Python values, through lists and dictionaries. *)
Lemma pyval_ind' (P : pyval -> Prop)
    (HNone : P PNone) (HBool : forall b, P (PBool b))
    (HInt : forall z, P (PInt z)) (HStr : forall s, P (PStr s))
    (HList : forall l, Forall P l -> P (PList l))
    (HDict : forall d, Forall (fun e => P e.2) d -> P (PDict d))
    (HNode : forall d, Forall (fun e => P e.2) d -> P (PNode d)) :
  forall v, P v.
Proof.
  fix IH 1. intros [ | b | z | s | l | d | d].
  - exact HNone.
  - apply HBool.
  - apply HInt.
  - apply HStr.
  - apply HList. induction l as [|x l IHl]; constructor; [apply IH | exact IHl].
  - apply HDict. induction d as [|[k x] d IHd]; constructor; [apply IH | exact IHd].
  - apply HNode. induction d as [|[k x] d IHd]; constructor; [apply IH | exact IHd].
Qed.

Abbreviation convert := convert_dictionaries_to_parameter_nodes.

(** Converting twice changes nothing more. *)
Lemma convert_idempotent (v : pyval) : convert (convert v) = convert v.
Proof.
  induction v as [ | | | | l IH | d IH | d IH] using pyval_ind'; simpl;
    try reflexivity.
  - f_equal. rewrite List.map_map. apply List.map_ext_Forall. exact IH.
  - f_equal. rewrite List.map_map.
    induction IH as [|[k x] d H _ IHd]; simpl; [reflexivity|].
    simpl in H. rewrite H, IHd. reflexivity.
  - f_equal. rewrite List.map_map.
    induction IH as [|[k x] d H _ IHd]; simpl; [reflexivity|].
    simpl in H. rewrite H, IHd. reflexivity.
Qed.

(** Conversion only changes the class of dictionaries. *)
Lemma erase_nodes_convert (v : pyval) : erase_nodes (convert v) = erase_nodes v.
Proof.
  induction v as [ | | | | l IH | d IH | d IH] using pyval_ind'; simpl;
    try reflexivity.
  - f_equal. rewrite List.map_map. apply List.map_ext_Forall. exact IH.
  - f_equal. rewrite List.map_map.
    induction IH as [|[k x] d H _ IHd]; simpl; [reflexivity|].
    simpl in H. rewrite H, IHd. reflexivity.
  - f_equal. rewrite List.map_map.
    induction IH as [|[k x] d H _ IHd]; simpl; [reflexivity|].
    simpl in H. rewrite H, IHd. reflexivity.
Qed.

(** *** Splitting and joining names *)

Lemma split_on_no_separator (s : string) :
  no_separator s = true -> split_on "."%char s = [s].
Proof.
  unfold no_separator. induction s as [|a s IH]; simpl; [reflexivity|].
  intros H. apply andb_prop in H as [Ha Hs].
  destruct (Ascii.eqb a ".") eqn:E; [discriminate|].
  rewrite (IH Hs). reflexivity.
Qed.

Lemma split_on_app (s t : string) :
  no_separator s = true ->
  split_on "."%char (s +:+ "." +:+ t) = s :: split_on "."%char t.
Proof.
  unfold no_separator. induction s as [|a s IH]; simpl; [reflexivity|].
  intros H. apply andb_prop in H as [Ha Hs].
  destruct (Ascii.eqb a ".") eqn:E; [discriminate|].
  rewrite (IH Hs). reflexivity.
Qed.

Lemma split_on_join (p : string) (ps : list string) :
  forallb no_separator (p :: ps) = true ->
  split_on "."%char (join "." (p :: ps)) = p :: ps.
Proof.
  revert p. induction ps as [|q ps IH]; intros p H.
  - simpl in *. apply split_on_no_separator.
    apply andb_prop in H as [H _]. exact H.
  - change (join "." (p :: q :: ps)) with (p +:+ "." +:+ join "." (q :: ps)).
    simpl in H. apply andb_prop in H as [Hp Hq].
    rewrite split_on_app by exact Hp. f_equal. apply IH. exact Hq.
Qed.

Lemma is_identifier_no_separator (s : string) :
  is_identifier s = true -> no_separator s = true.
Proof.
  unfold is_identifier, no_separator. destruct s as [|a s]; [discriminate|].
  intros H. apply andb_prop in H as [Ha Hs]. simpl.
  apply andb_true_intro. split.
  - destruct (Ascii.eqb a ".") eqn:E; [|reflexivity].
    apply Ascii.eqb_eq in E. subst a. discriminate.
  - apply forallb_forall. intros x Hx.
    rewrite forallb_forall in Hs. specialize (Hs x Hx).
    destruct (Ascii.eqb x ".") eqn:E; [|reflexivity].
    apply Ascii.eqb_eq in E. subst x. discriminate.
Qed.

(** *** The grammar on bare identifiers *)

Lemma take_while_all (p : ascii -> bool) (s : list ascii) :
  forallb p s = true -> take_while p s = (s, []).
Proof.
  induction s as [|a s IH]; simpl; [reflexivity|].
  intros H. apply andb_prop in H as [Ha Hs]. rewrite Ha, (IH Hs). reflexivity.
Qed.

Lemma is_alpha_not_white (a : ascii) : is_alpha a = true -> is_white a = false.
Proof.
  unfold is_alpha, is_white, in_range. intros H.
  destruct (Ascii.eqb a " ") eqn:E.
  - apply Ascii.eqb_eq in E. subst a. discriminate.
  - simpl.
    destruct (Nat.eqb _ 9) eqn:E9; [apply Nat.eqb_eq in E9; rewrite E9 in H; discriminate|].
    destruct (Nat.eqb _ 10) eqn:E10; [apply Nat.eqb_eq in E10; rewrite E10 in H; discriminate|].
    destruct (Nat.eqb _ 13) eqn:E13; [apply Nat.eqb_eq in E13; rewrite E13 in H; discriminate|].
    reflexivity.
Qed.

(** A bare identifier parses to itself, with no accessor. *)
Lemma parse_identifier (s : string) :
  is_identifier s = true -> _parse_attribute_naming_pattern s = Ok [PStr s].
Proof.
  unfold is_identifier, _parse_attribute_naming_pattern, parse_name.
  destruct s as [|a s]; [discriminate|].
  intros H. apply andb_prop in H as [Ha Hs]. simpl.
  rewrite (is_alpha_not_white a Ha), Ha.
  rewrite take_while_all.
  - simpl. rewrite string_of_list_ascii_of_string. reflexivity.
  - apply forallb_forall. intros x Hx.
    rewrite forallb_forall in Hs. specialize (Hs x Hx).
    unfold is_identifier_body in Hs. unfold is_name_body.
    rewrite Hs. reflexivity.
Qed.

(** *** Dictionaries *)

Lemma dict_get_set (d : dict) (k : string) (v : pyval) :
  dict_get (dict_set d k v) k = Some v.
Proof.
  induction d as [|[k' w] d IH]; simpl.
  - rewrite String.eqb_refl. reflexivity.
  - destruct (String.eqb k' k) eqn:E; simpl; rewrite E; [reflexivity | exact IH].
Qed.

Lemma roots_get_set (roots : list (string * dict)) (k : string) (v : dict) :
  roots_get (roots_set roots k v) k = Some v.
Proof.
  induction roots as [|[k' w] roots IH]; simpl.
  - rewrite String.eqb_refl. reflexivity.
  - destruct (String.eqb k' k) eqn:E; simpl; rewrite E; [reflexivity | exact IH].
Qed.

Lemma convert_entries_set (d : dict) (k : string) (v : pyval) :
  map (fun e => match e with (key, value) => (key, convert value) end)
    (dict_set d k v)
  = dict_set
      (map (fun e => match e with (key, value) => (key, convert value) end) d)
      k (convert v).
Proof.
  induction d as [|[k' w] d IH]; simpl; [reflexivity|].
  destruct (String.eqb k' k); simpl; [reflexivity | rewrite IH; reflexivity].
Qed.

(** A normal value holds no plain dictionary: conversion leaves it as it is. *)
Lemma normal_node_set (d : dict) (k : string) (v : pyval) :
  convert (PNode d) = PNode d -> convert v = v ->
  convert (PNode (dict_set d k v)) = PNode (dict_set d k v).
Proof.
  simpl. intros Hd Hv. injection Hd as Hd.
  rewrite convert_entries_set, Hd, Hv. reflexivity.
Qed.

Lemma normal_node_get (d : dict) (k : string) (v : pyval) :
  convert (PNode d) = PNode d -> dict_get d k = Some v -> convert v = v.
Proof.
  simpl. intros Hd. injection Hd as Hd. revert Hd.
  induction d as [|[k' w] d IH]; simpl; [discriminate|].
  intros Hd Hget. injection Hd as Hw Hd.
  destruct (String.eqb k' k); [injection Hget as <-; exact Hw | exact (IH Hd Hget)].
Qed.

(** *** Writing one parameter, then reading it *)

Lemma build_below (d : dict) (p q : string) (rest : list string) (v : pyval) :
  _build_parameter_node_tree_for_one_parameter (PNode d) (p :: q :: rest) v
  = (child' ← _build_parameter_node_tree_for_one_parameter
                (default (PNode []) (dict_get d p)) (q :: rest) v;
     Ok (PNode (dict_set d p child'))).
Proof. reflexivity. Qed.

(** Building below a normal node gives a normal node. *)
Lemma build_normal (names : list string) :
  forall (d : dict) (v node' : pyval),
    convert (PNode d) = PNode d ->
    _build_parameter_node_tree_for_one_parameter (PNode d) names v = Ok node' ->
    exists d', node' = PNode d' /\ convert (PNode d') = PNode d'.
Proof.
  induction names as [|p rest IH]; intros d v node' Hd Hb; [discriminate|].
  destruct rest as [|q rest].
  - simpl in Hb. injection Hb as <-. eexists. split; [reflexivity|].
    apply normal_node_set; [exact Hd | apply convert_idempotent].
  - rewrite build_below in Hb.
    assert (Hchild : exists c, default (PNode []) (dict_get d p) = PNode c
                               /\ convert (PNode c) = PNode c).
    { destruct (dict_get d p) as [x|] eqn:Eg.
      - pose proof (normal_node_get d p x Hd Eg) as Hx.
        destruct x as [ | | | | | | c];
          try (exfalso; destruct rest; simpl in Hb; discriminate);
          try (exfalso; simpl in Hx; discriminate).
        exists c. split; [reflexivity | exact Hx].
      - exists []. split; reflexivity. }
    destruct Hchild as (c & Hc & Hn). rewrite Hc in Hb.
    destruct (_build_parameter_node_tree_for_one_parameter (PNode c)
                (q :: rest) v) as [child'|e] eqn:E;
      [|discriminate].
    destruct (IH c v child' Hn E) as (d' & -> & Hd').
    injection Hb as <-.
    eexists. split; [reflexivity|]. apply normal_node_set; assumption.
Qed.

Lemma resolve_part_identifier (p : string) (d : dict) (x : pyval) :
  is_identifier p = true -> dict_get d p = Some x ->
  resolve_part p (PNode d) = Ok (x, PNode d, p).
Proof.
  intros Hp Hx. unfold resolve_part. rewrite (parse_identifier p Hp). simpl.
  rewrite Hx. reflexivity.
Qed.

(** Reading the parts of a name in the tree the name was written to reaches
    the written value; the last lookup is in a node that has the key. *)
Lemma build_then_resolve (names : list string) :
  forall (d : dict) (v node' parent : pyval) (ref : string),
    forallb is_identifier names = true ->
    convert (PNode d) = PNode d ->
    _build_parameter_node_tree_for_one_parameter (PNode d) names v = Ok node' ->
    exists parent' ref',
      resolve_parts names (node', parent, ref) = Ok (convert v, parent', ref')
      /\ py_contains parent' ref' = Ok true.
Proof.
  induction names as [|p rest IH]; intros d v node' parent ref Hid Hd Hb;
    [discriminate|].
  simpl in Hid. apply andb_prop in Hid as [Hp Hrest].
  destruct rest as [|q rest].
  - simpl in Hb. injection Hb as <-. simpl.
    rewrite (resolve_part_identifier p _ (convert v) Hp (dict_get_set _ _ _)).
    simpl. exists (PNode (dict_set d p (convert v))), p. split; [reflexivity|].
    simpl. unfold dict_contains. rewrite dict_get_set. reflexivity.
  - rewrite build_below in Hb.
    assert (Hchild : exists c, default (PNode []) (dict_get d p) = PNode c
                               /\ convert (PNode c) = PNode c).
    { destruct (dict_get d p) as [x|] eqn:Eg.
      - pose proof (normal_node_get d p x Hd Eg) as Hx.
        destruct x as [ | | | | | | c];
          try (exfalso; destruct rest; simpl in Hb; discriminate);
          try (exfalso; simpl in Hx; discriminate).
        exists c. split; [reflexivity | exact Hx].
      - exists []. split; reflexivity. }
    destruct Hchild as (c & Hc & Hn). rewrite Hc in Hb.
    destruct (_build_parameter_node_tree_for_one_parameter (PNode c)
                (q :: rest) v) as [child'|e] eqn:E;
      [|discriminate].
    injection Hb as <-.
    destruct (build_normal _ c v child' Hn E) as (c' & -> & _).
    change (resolve_parts (p :: q :: rest) (PNode (dict_set d p (PNode c')), parent, ref))
      with (state ← resolve_part p (PNode (dict_set d p (PNode c')));
            resolve_parts (q :: rest) state).
    rewrite (resolve_part_identifier p _ (PNode c') Hp (dict_get_set _ _ _)).
    simpl. exact (IH c v (PNode c') (PNode (dict_set d p (PNode c'))) p Hrest Hn E).
Qed.

Lemma forallb_identifier_no_separator (l : list string) :
  forallb is_identifier l = true -> forallb no_separator l = true.
Proof.
  induction l as [|x l IH]; simpl; [reflexivity|].
  intros H. apply andb_prop in H as [Hx Hl].
  rewrite (is_identifier_no_separator x Hx), (IH Hl). reflexivity.
Qed.

Lemma parameter_name_split (p : string) (ps : list string) :
  forallb is_identifier (p :: ps) = true ->
  split_on "."%char (drop_first 1 (PARAMETER_KEY +:+ join "." (p :: ps)))
  = "parameter" :: p :: ps.
Proof.
  intros H.
  change (drop_first 1 (PARAMETER_KEY +:+ join "." (p :: ps)))
    with ("parameter" +:+ "." +:+ join "." (p :: ps)).
  rewrite split_on_app by reflexivity.
  rewrite split_on_join by (apply forallb_identifier_no_separator, H).
  reflexivity.
Qed.

Lemma get_parameter_node_normal (container : ParameterContainer) (root : string) :
  exists d, default (PNode []) (get_parameter_node container root) = PNode d
            /\ convert (PNode d) = PNode d.
Proof.
  unfold get_parameter_node. destruct (parameter_nodes container) as [roots|].
  - destruct (roots_get roots root) as [d|].
    + eexists. split; [reflexivity|]. apply (convert_idempotent (PNode d)).
    + exists []. split; reflexivity.
  - exists []. split; reflexivity.
Qed.

Lemma get_parameter_node_set (container : ParameterContainer) (root : string)
    (d : dict) :
  convert (PNode d) = PNode d ->
  get_parameter_node (set_parameter_node container root d) root = Some (PNode d).
Proof.
  intros Hd. unfold get_parameter_node, set_parameter_node.
  cbn [parameter_nodes]. rewrite roots_get_set, Hd. reflexivity.
Qed.

Lemma build_one_parameter_unfold (container : ParameterContainer) (s : string)
    (v : pyval) :
  build_one_parameter container (PARAMETER_KEY +:+ s) v
  = (parameter_name_root ←
       match split_on "."%char (drop_first 1 (PARAMETER_KEY +:+ s)) with
       | root :: _ => Ok root
       | [] => Raise IndexError
       end;
     parameter_node ←
       _build_parameter_node_tree_for_one_parameter
         (default (PNode []) (get_parameter_node container parameter_name_root))
         (split_on "."%char (drop_first 1 (PARAMETER_KEY +:+ s))) v;
     match parameter_node with
     | PNode d => Ok (set_parameter_node container parameter_name_root d)
     | _ => Raise TypeError
     end).
Proof. reflexivity. Qed.

Lemma read_parameter_unfold (s : string) (domain : Domain)
    (variables : option ParameterContainer)
    (parameters : option (list (string * option ParameterContainer))) :
  get_parameter_value_by_fully_qualified_parameter_name (PARAMETER_KEY +:+ s)
    (Some domain) variables parameters
  = (parameter_container ← parameters_getitem (Some domain) parameters;
     match split_on "."%char (drop_first 1 (PARAMETER_KEY +:+ s)) with
     | [] => Ok PNone
     | _ =>
         match parameter_container with
         | None => Raise AttributeError
         | Some parameter_container =>
             _get_parameter_value_from_parameter_container
               (drop_first 1 (PARAMETER_KEY +:+ s))
               (split_on "."%char (drop_first 1 (PARAMETER_KEY +:+ s)))
               parameter_container
         end
     end).
Proof. reflexivity. Qed.

(** C7, as the code has it.  Writing and reading are inverses for paths of
    bare identifiers: after [build_parameter_container] wrote the value [v]
    under [$parameter.p1.p2...pn], reading that name returns [v], with its
    dictionaries turned into [ParameterNode]s and nothing else changed.  A
    bracket accessor is resolved when reading only, against the value stored
    under the name of its segment: after writing the list [[{"c": v}]] under
    [$parameter.a.b], reading [$parameter.a.b[0]["c"]] returns [v]. *)
Theorem identifier_path_round_trip (p : string) (ps : list string) (v : pyval)
    (container container' : ParameterContainer) (domain : Domain)
    (variables : option ParameterContainer)
    (parameters : option (list (string * option ParameterContainer))) :
  let name := PARAMETER_KEY +:+ join "." (p :: ps) in
  forallb is_identifier (p :: ps) = true ->
  build_parameter_container container [(name, v)] = Ok container' ->
  parameters_getitem (Some domain) parameters = Ok (Some container') ->
  get_parameter_value_by_fully_qualified_parameter_name name (Some domain)
    variables parameters = Ok (convert v)
  /\ erase_nodes (convert v) = erase_nodes v
  /\ (forall built,
        build_parameter_container (mkContainer None)
          [("$parameter.a.b", PList [PDict [("c", v)]])] = Ok built ->
        get_parameter_value_by_fully_qualified_parameter_name
          Examples.bracket_name (Some Examples.example_domain) variables
          (Examples.parameters_of built) = Ok (convert v)).
Proof.
  intros name Hid Hbuild Hparams. split; [|split].
  - pose proof (parameter_name_split p ps Hid) as Hsplit.
    subst name. unfold build_parameter_container in Hbuild.
    rewrite build_one_parameter_unfold, Hsplit in Hbuild.
    destruct (get_parameter_node_normal container "parameter") as (d0 & Hd0 & Hn0).
    cbn [mbind result_bind Py.bind] in Hbuild. rewrite Hd0 in Hbuild.
    destruct (_build_parameter_node_tree_for_one_parameter (PNode d0)
                ("parameter" :: p :: ps) v) as [node'|e] eqn:E;
      [|discriminate].
    destruct (build_normal _ d0 v node' Hn0 E) as (d' & -> & Hn').
    injection Hbuild as <-.
    rewrite read_parameter_unfold, Hparams, Hsplit.
    cbn [mbind result_bind Py.bind].
    unfold _get_parameter_value_from_parameter_container.
    cbn [mbind result_bind Py.bind].
    rewrite (get_parameter_node_set container "parameter" d' Hn').
    assert (Hid' : forallb is_identifier ("parameter" :: p :: ps) = true)
      by exact Hid.
    destruct (build_then_resolve _ d0 v (PNode d') PNone EmptyString Hid' Hn0 E)
      as (parent' & ref' & Hres & Hin).
    rewrite Hres. cbn [mbind result_bind Py.bind]. rewrite Hin. reflexivity.
  - apply erase_nodes_convert.
  - intros built Hb. simpl in Hb. injection Hb as <-.
    unfold get_parameter_value_by_fully_qualified_parameter_name. simpl.
    unfold _get_parameter_value_from_parameter_container. simpl.
    rewrite (convert_idempotent v). reflexivity.
Qed.

Import Examples.

Lemma identifier_path_round_trip_a_b :
  exists built,
    build_parameter_container (mkContainer None)
      [("$parameter.a.b", PDict [("x", PInt 42)])] = Ok built
    /\ get_parameter_value_by_fully_qualified_parameter_name "$parameter.a.b"
         (Some example_domain) None (parameters_of built)
       = Ok (PNode [("x", PInt 42)]).
Proof.
  eexists. split; [reflexivity|].
  apply (proj1 (identifier_path_round_trip "a" ["b"] (PDict [("x", PInt 42)])
                  (mkContainer None) _ example_domain None (parameters_of _)
                  eq_refl eq_refl eq_refl)).
Defined.

(** C7 as stated fails: the name [$parameter.a.b[0]["c"]] is written under
    the literal key [b[0]["c"]] of the node [a], and reading the same name
    looks for the key [b]; it raises [KeyError] instead of returning the
    value written. *)
Lemma bracket_path_not_round_trip :
  exists built,
    build_parameter_container (mkContainer None) [(bracket_name, PInt 42)]
    = Ok built
    /\ get_parameter_value_by_fully_qualified_parameter_name bracket_name
         (Some example_domain) None (parameters_of built) = Raise KeyError
    /\ get_parameter_value_by_fully_qualified_parameter_name bracket_name
         (Some example_domain) None (parameters_of built) <> Ok (PInt 42).
Proof.
  eexists. split; [reflexivity|]. split; [reflexivity | discriminate].
Qed.

End ParamsTheory.

(** ** The parameter namespace: enumerating names *)

Module EnumerationTheory.
Import Frames Params ParamsTheory.

(** Every enumerated path extends the root path it was started from. *)
Lemma attribute_names_extend (v : pyval) :
  forall root path,
    In path (attribute_names_of_value root v) ->
    exists rest, path = (root ++ rest)%list.
Proof.
  induction v as [ | | | | l IH | d IH | d IH] using pyval_ind';
    intros root path Hin; simpl in Hin;
    try (destruct Hin as [<-|[]]; exists []; rewrite app_nil_r; reflexivity).
  apply in_flat_map in Hin as [[k x] [Hkx Hin]].
  rewrite List.Forall_forall in IH. specialize (IH (k, x) Hkx). simpl in IH.
  destruct (IH _ _ Hin) as [rest ->]. exists (k :: rest).
  rewrite <- app_assoc. reflexivity.
Qed.

Lemma traverse_const {A B : Type} (f : A -> result B) (b : B) (l : list A) :
  (forall x, In x l -> f x = Ok b) ->
  traverse f l = Ok (map (fun _ => b) l).
Proof.
  induction l as [|x l IH]; intros H; simpl; [reflexivity|].
  rewrite (H x (or_introl eq_refl)). simpl.
  rewrite IH by (intros y Hy; apply H; right; exact Hy). reflexivity.
Qed.

Lemma distinct_const {A : Type} (x : string) (l : list A) :
  distinct (map (fun _ => x) l) = match l with [] => [] | _ => [x] end.
Proof.
  unfold distinct. induction l as [|a l IH]; [reflexivity|].
  cbn [map remove_dups]. destruct l as [|a' l].
  - cbn [map remove_dups].
    destruct (decide_rel elem_of x []) as [H|H]; [inversion H | reflexivity].
  - destruct (decide_rel elem_of x (map (fun _ => x) (a' :: l))) as [H|H].
    + exact IH.
    + exfalso. apply H. left.
Qed.

(** *** The cut at a reserved literal *)

Lemma list_index_absent (key : string) (l : list string) :
  ~ In key l -> list_index key l = None.
Proof.
  induction l as [|x l IH]; simpl; [reflexivity|].
  intros H. destruct (String.eqb x key) eqn:E.
  - apply String.eqb_eq in E. exfalso. apply H. left. exact E.
  - rewrite IH by (intros Hin; apply H; right; exact Hin). reflexivity.
Qed.

Lemma list_index_first (key : string) (before after : list string) :
  ~ In key before ->
  list_index key (before ++ key :: after)%list = Some (length before).
Proof.
  induction before as [|x before IH]; simpl; intros H.
  - rewrite String.eqb_refl. reflexivity.
  - destruct (String.eqb x key) eqn:E.
    + apply String.eqb_eq in E. exfalso. apply H. left. exact E.
    + rewrite IH by (intros Hin; apply H; right; exact Hin). reflexivity.
Qed.

(** Iterating the literals in any order finds the index of the only literal
    the path holds. *)
Lemma first_literal_index (order path : list string) (lit : string) (i : nat) :
  In lit order ->
  list_index lit path = Some i ->
  (forall key, In key order -> key <> lit -> ~ In key path) ->
  match omap (fun key => list_index key path) order with
  | j :: _ => Some j
  | [] => None
  end = Some i.
Proof.
  intros Hin Hi Hother. induction order as [|key order IH]; [destruct Hin|].
  simpl. destruct (String.eqb key lit) eqn:E.
  - apply String.eqb_eq in E. subst key. rewrite Hi. reflexivity.
  - apply String.eqb_neq in E.
    rewrite (list_index_absent key path)
      by (apply Hother; [left; reflexivity | exact E]).
    apply IH.
    + destruct Hin as [->|Hin]; [congruence | exact Hin].
    + intros k Hk. apply Hother. right. exact Hk.
Qed.

Lemma reserved_check_false (path : list string) :
  (forall x, In x path -> ~ In x RESERVED_TERMINAL_LITERALS) ->
  existsb (fun x => bool_decide (x ∈ RESERVED_TERMINAL_LITERALS)) path = false.
Proof.
  intros H. induction path as [|x path IH]; simpl; [reflexivity|].
  rewrite bool_decide_eq_false_2.
  - apply IH. intros y Hy. apply H. right. exact Hy.
  - intros Hx. apply list_elem_of_In in Hx. exact (H x (or_introl eq_refl) Hx).
Qed.

Lemma reserved_check_true (path : list string) (lit : string) :
  In lit RESERVED_TERMINAL_LITERALS -> In lit path ->
  existsb (fun x => bool_decide (x ∈ RESERVED_TERMINAL_LITERALS)) path = true.
Proof.
  intros Hres Hin. apply existsb_exists. exists lit. split; [exact Hin|].
  apply bool_decide_eq_true_2, list_elem_of_In, Hres.
Qed.

(** The names enumerated for the root node of the variables namespace. *)
Lemma variables_names (order : list string) (node : dict) :
  _get_parameter_node_attribute_names order
    (Some PARAMETER_NAME_ROOT_FOR_VARIABLES) (Some node)
  = Ok (match attribute_names_of_value [PARAMETER_NAME_ROOT_FOR_VARIABLES]
                (PNode node) with
        | [] => []
        | _ => ["$variables"]
        end).
Proof.
  unfold _get_parameter_node_attribute_names,
    _get_parameter_node_attribute_names_as_lists.
  cbn [String.eqb PARAMETER_NAME_ROOT_FOR_VARIABLES].
  change (if String.eqb PARAMETER_NAME_ROOT_FOR_VARIABLES EmptyString
          then None else Some [PARAMETER_NAME_ROOT_FOR_VARIABLES])
    with (Some [PARAMETER_NAME_ROOT_FOR_VARIABLES]).
  cbv zeta.
  rewrite (traverse_const _ "$variables").
  - cbn [mbind result_bind Py.bind]. rewrite distinct_const.
    destruct (attribute_names_of_value _ _); reflexivity.
  - intros path Hin. apply attribute_names_extend in Hin as [rest ->].
    reflexivity.
Qed.

(** C8, as the code has it.  For a variables-scoped container the
    enumeration reports at most one name for the variables namespace, the
    bare marker [$variables], exactly one as soon as the variables tree has
    an entry that is not a [ParameterNode], whatever its depth or content.
    For the parameter namespace a leaf path that holds no reserved
    terminal literal is reported whole, and a leaf path that holds one kind
    of reserved literal is cut just before the first occurrence of it,
    whatever the order in which the set of literals is iterated. *)
Theorem variables_marker_and_reserved_cut (order : list string) :
  Permutation order RESERVED_TERMINAL_LITERALS ->
  (forall (roots : list (string * dict)) (node : dict),
     roots_get roots PARAMETER_NAME_ROOT_FOR_VARIABLES = Some node ->
     get_fully_qualified_parameter_names order None
       (Some (mkContainer (Some roots))) None
     = Ok (match attribute_names_of_value [PARAMETER_NAME_ROOT_FOR_VARIABLES]
                   (PNode node) with
           | [] => []
           | _ => ["$variables"]
           end))
  /\ (forall rest : list string,
        (forall x, In x rest -> ~ In x RESERVED_TERMINAL_LITERALS) ->
        _get_parameter_name_parts_up_to_including_reserved_literal order
          (PARAMETER_NAME_ROOT_FOR_PARAMETERS :: rest)
        = Ok (PARAMETER_NAME_ROOT_FOR_PARAMETERS :: rest))
  /\ (forall (before after : list string) (lit : string),
        In lit RESERVED_TERMINAL_LITERALS ->
        ~ In lit before ->
        (forall x, In x (before ++ lit :: after)%list ->
                   In x RESERVED_TERMINAL_LITERALS -> x = lit) ->
        _get_parameter_name_parts_up_to_including_reserved_literal order
          (PARAMETER_NAME_ROOT_FOR_PARAMETERS :: before ++ lit :: after)%list
        = Ok (PARAMETER_NAME_ROOT_FOR_PARAMETERS :: before)).
Proof.
  intros Hperm. split; [|split].
  - intros roots node Hnode. unfold get_fully_qualified_parameter_names.
    rewrite Hnode, variables_names. cbn [mbind result_bind Py.bind app].
    destruct (attribute_names_of_value _ _); reflexivity.
  - intros rest Hrest.
    unfold _get_parameter_name_parts_up_to_including_reserved_literal.
    change (String.eqb PARAMETER_NAME_ROOT_FOR_PARAMETERS
              PARAMETER_NAME_ROOT_FOR_VARIABLES) with false. cbv iota.
    rewrite reserved_check_false; [reflexivity|].
    intros x [<-|Hx]; [|exact (Hrest x Hx)].
    intros [H|[H|[H|[]]]]; discriminate.
  - intros before after lit Hres Hbefore Honly.
    unfold _get_parameter_name_parts_up_to_including_reserved_literal.
    change (String.eqb PARAMETER_NAME_ROOT_FOR_PARAMETERS
              PARAMETER_NAME_ROOT_FOR_VARIABLES) with false. cbv iota.
    rewrite (reserved_check_true _ lit Hres)
      by (right; apply in_or_app; right; left; reflexivity).
    cbn [negb]. cbv zeta.
    assert (Hlit : lit <> PARAMETER_NAME_ROOT_FOR_PARAMETERS).
    { intros ->. destruct Hres as [H|[H|[H|[]]]]; discriminate. }
    rewrite (first_literal_index order _ lit (S (length before))).
    + change ((PARAMETER_NAME_ROOT_FOR_PARAMETERS :: before) ++ lit :: after)%list
        with (PARAMETER_NAME_ROOT_FOR_PARAMETERS :: (before ++ lit :: after))%list.
      cbn [firstn]. rewrite firstn_app, Nat.sub_diag, firstn_all. cbn [firstn].
      rewrite app_nil_r. reflexivity.
    + apply (Permutation_in lit (Permutation_sym Hperm) Hres).
    + change ((PARAMETER_NAME_ROOT_FOR_PARAMETERS :: before) ++ lit :: after)%list
        with (PARAMETER_NAME_ROOT_FOR_PARAMETERS :: (before ++ lit :: after))%list.
      cbn [list_index].
      destruct (String.eqb PARAMETER_NAME_ROOT_FOR_PARAMETERS lit) eqn:E;
        [apply String.eqb_eq in E; congruence|].
      rewrite list_index_first by exact Hbefore. reflexivity.
    + intros key Hkey Hne Hin.
      pose proof (Permutation_in key Hperm Hkey) as Hkres.
      destruct Hin as [<-|Hin].
      * destruct Hkres as [H|[H|[H|[]]]]; discriminate.
      * apply Hne. exact (Honly key Hin Hkres).
Qed.

Lemma variables_marker_and_reserved_cut_example :
  get_fully_qualified_parameter_names RESERVED_TERMINAL_LITERALS None
    (Some (mkContainer
             (Some [("variables",
                     [("variables",
                       PNode [("x", PInt 1); ("y", PNode [("z", PInt 2)])])])])))
    None
  = Ok ["$variables"]
  /\ _get_parameter_name_parts_up_to_including_reserved_literal
       RESERVED_TERMINAL_LITERALS ["parameter"; "parameter"; "a"; "b"; "value"]
     = Ok ["parameter"; "parameter"; "a"; "b"].
Proof.
  destruct (variables_marker_and_reserved_cut RESERVED_TERMINAL_LITERALS)
    as (Hvariables & _ & Hcut).
  - reflexivity.
  - split.
    + rewrite (Hvariables _ [("variables",
                 PNode [("x", PInt 1); ("y", PNode [("z", PInt 2)])])]);
        reflexivity.
    + apply (Hcut ["parameter"; "a"; "b"] [] "value").
      * left. reflexivity.
      * intros [H|[H|[H|[]]]]; discriminate.
      * intros x [<-|[<-|[<-|[<-|[]]]]] [H|[H|[H|[]]]];
          try discriminate; reflexivity.
Defined.

(** C8 as stated fails: the marker reported for the variables namespace is
    [$variables], not [$variables.variables]; and a variables tree without
    any entry that is not a [ParameterNode] reports no name at all. *)
Lemma variables_marker_is_not_doubled :
  exists built built',
    build_parameter_container_for_variables
      [("false_positive_threshold", PInt 1)] = Ok built
    /\ get_fully_qualified_parameter_names RESERVED_TERMINAL_LITERALS None
         (Some built) None = Ok ["$variables"]
    /\ get_fully_qualified_parameter_names RESERVED_TERMINAL_LITERALS None
         (Some built) None <> Ok ["$variables.variables"]
    /\ build_parameter_container_for_variables [("tolerances", PDict [])]
       = Ok built'
    /\ get_fully_qualified_parameter_names RESERVED_TERMINAL_LITERALS None
         (Some built') None = Ok [].
Proof.
  eexists. eexists. split; [reflexivity|].
  split; [reflexivity|]. split; [discriminate|].
  split; reflexivity.
Qed.

End EnumerationTheory.

(** ** The dependency resolver: the rules the suffix metrics leave *)

Module DepsExtra.
Import Deps DepsTheory.

Section Rules.
Context {Provider : Type}.
Variable reg : @registry Provider.

(** The seven suffixes a rule of the resolver looks for. *)
Lemma suffix_rules_none (name : string) (dk base : kwargs) (eng : engine_type) :
  endswith name ".unexpected_count" = false ->
  endswith name ".unexpected_count.aggregate_fn" = false ->
  Forall (fun s => endswith name s = false) detail_suffixes ->
  suffix_rules reg name dk base eng = ∅.
Proof.
  intros H1 H2 H3. unfold suffix_rules. cbv zeta. rewrite H1, H2.
  apply fold_left_unchanged. eapply Forall_impl; [exact H3|].
  intros s Hs d. simpl in Hs. rewrite Hs. reflexivity.
Qed.

Lemma suffix_rules_aggregate_fn (name : string) (dk base : kwargs)
    (eng : engine_type) :
  endswith name ".unexpected_count.aggregate_fn" = true ->
  suffix_rules reg name dk base eng =
  {[ "unexpected_condition" :=
       mkMetric (drop_last name (String.length ".unexpected_count.aggregate_fn")
                   +:+ ".condition") dk base ]}.
Proof.
  intros H. unfold suffix_rules. cbv zeta.
  rewrite (endswith_exclusive name ".unexpected_count.aggregate_fn"
             ".unexpected_count" eq_refl eq_refl H), H.
  apply fold_left_unchanged.
  eapply Forall_impl.
  - apply (detail_suffixes_excluded _ _ H). unfold detail_suffixes.
    repeat first [ apply List.Forall_nil
                 | apply List.Forall_cons; [split; reflexivity|] ].
  - intros s Hs d. simpl in Hs. rewrite Hs. reflexivity.
Qed.

(** X1.  A metric whose name ends in [.unexpected_count.aggregate_fn] gets
    the dependency [unexpected_condition] on [<prefix>.condition], where
    [<prefix>] is the name without that suffix, with the requested metric's
    domain kwargs and its value kwargs without [result_format]; it gets no
    [metric_partial_fn] dependency. *)
Theorem aggregate_fn_dependency (metric : MetricConfiguration)
    (eng : engine_type) :
  endswith (metric_name metric) ".unexpected_count.aggregate_fn" = true ->
  exists deps prefix,
    MapMetricProvider_get_evaluation_dependencies reg metric eng = Ok deps
    /\ metric_name metric = prefix +:+ ".unexpected_count.aggregate_fn"
    /\ deps !! "unexpected_condition" =
         Some (mkMetric (prefix +:+ ".condition") (metric_domain_kwargs metric)
                 (delete "result_format" (metric_value_kwargs metric)))
    /\ deps !! "metric_partial_fn" = None.
Proof.
  intros H. destruct (endswith_split _ _ H) as [p Hp].
  rewrite (dependencies_decompose reg). cbv zeta.
  rewrite (suffix_rules_aggregate_fn _ _ _ _ H).
  replace (drop_last (metric_name metric)
             (String.length ".unexpected_count.aggregate_fn")) with p
    by (rewrite Hp; symmetry; apply drop_last_app; discriminate).
  destruct (reg (metric_name metric +:+ ".map") eng) as [pm|];
    eexists; exists p; (split; [reflexivity|]); (split; [exact Hp|]);
    split; simplify_map_eq; reflexivity.
Qed.

Lemma condition_name_no_suffix (prefix : string) :
  endswith (prefix +:+ ".condition") ".unexpected_count" = false
  /\ endswith (prefix +:+ ".condition") ".unexpected_count.aggregate_fn" = false
  /\ Forall (fun s => endswith (prefix +:+ ".condition") s = false)
       detail_suffixes.
Proof.
  pose proof (endswith_app prefix ".condition") as H.
  split; [|split].
  - exact (endswith_exclusive _ ".condition" ".unexpected_count" eq_refl eq_refl H).
  - exact (endswith_exclusive _ ".condition" ".unexpected_count.aggregate_fn"
             eq_refl eq_refl H).
  - apply (detail_suffixes_excluded _ _ H). unfold detail_suffixes.
    repeat first [ apply List.Forall_nil
                 | apply List.Forall_cons; [split; reflexivity|] ].
Qed.

(** X2.  A condition metric ([<prefix>.condition], whatever the prefix) is
    where the chains of suffix dependencies end: the resolver gives it no
    [unexpected_condition] and no [metric_partial_fn] dependency; its only
    possible dependency is [metric_map_fn], present exactly when a provider
    is registered for [<prefix>.condition.map]. *)
Theorem condition_metric_is_leaf (prefix : string) (dk vk : kwargs)
    (eng : engine_type) :
  MapMetricProvider_get_evaluation_dependencies reg
    (mkMetric (prefix +:+ ".condition") dk vk) eng
  = Ok (match reg ((prefix +:+ ".condition") +:+ ".map") eng with
        | Some _ =>
            {[ "metric_map_fn" :=
                 mkMetric ((prefix +:+ ".condition") +:+ ".map") dk vk ]}
        | None => ∅
        end).
Proof.
  rewrite (dependencies_decompose reg). cbn [metric_name metric_domain_kwargs
    metric_value_kwargs]. cbv zeta.
  destruct (condition_name_no_suffix prefix) as (H1 & H2 & H3).
  rewrite (suffix_rules_none _ _ _ _ H1 H2 H3).
  destruct (reg _ eng); reflexivity.
Qed.

(** The suffix rules never produce both suffix roles. *)
Lemma suffix_rules_one_role (name : string) (dk base : kwargs)
    (eng : engine_type) :
  suffix_rules reg name dk base eng !! "metric_partial_fn" = None
  \/ suffix_rules reg name dk base eng !! "unexpected_condition" = None.
Proof.
  destruct (endswith name ".unexpected_count") eqn:H.
  - assert (Hfold : forall d : gmap string MetricConfiguration,
      fold_left
        (fun (d : gmap string MetricConfiguration) suffix =>
           if endswith name suffix
           then <["unexpected_condition" :=
                    mkMetric (drop_last name (String.length suffix) +:+ ".condition")
                      dk base]> d
           else d) detail_suffixes d = d).
    { intros d. apply fold_left_unchanged. eapply Forall_impl.
      - apply (detail_suffixes_excluded _ _ H). unfold detail_suffixes.
        repeat first [ apply List.Forall_nil
                     | apply List.Forall_cons; [split; reflexivity|] ].
      - intros s Hs d'. simpl in Hs. rewrite Hs. reflexivity. }
    unfold suffix_rules. cbv zeta. rewrite H.
    rewrite (endswith_exclusive name ".unexpected_count"
               ".unexpected_count.aggregate_fn" eq_refl eq_refl H).
    rewrite Hfold.
    destruct (reg _ eng); [right | left]; reflexivity.
  - left. unfold suffix_rules. cbv zeta. rewrite H.
    set (d2 := if endswith name ".unexpected_count.aggregate_fn" then _ else _).
    assert (H2 : d2 !! "metric_partial_fn" = None).
    { subst d2. destruct (endswith name ".unexpected_count.aggregate_fn");
        reflexivity. }
    clearbody d2. revert d2 H2.
    induction detail_suffixes as [|s l IH]; intros d2 H2; [exact H2|].
    simpl. apply IH. destruct (endswith name s); [|exact H2].
    rewrite lookup_insert_ne by discriminate. exact H2.
Qed.

(** X3.  For the three column-domain provider classes the resolver returns
    dependencies under at most six roles ([metric_partial_fn],
    [unexpected_condition], [metric_map_fn] and the three table metrics),
    never under both [metric_partial_fn] and [unexpected_condition], and
    under [metric_map_fn] exactly when a provider is registered for
    [<name>.map] on the engine. *)
Theorem dependency_roles (cls : column_provider_class)
    (metric : MetricConfiguration) (eng : engine_type) :
  exists deps,
    get_evaluation_dependencies reg cls metric eng = Ok deps
    /\ (forall role, is_Some (deps !! role) ->
          role ∈ [ "metric_partial_fn"; "unexpected_condition"; "metric_map_fn";
                   "table.column_types"; "table.columns"; "table.row_count" ])
    /\ (deps !! "metric_partial_fn" = None
        \/ deps !! "unexpected_condition" = None)
    /\ (is_Some (deps !! "metric_map_fn")
        <-> is_Some (reg (metric_name metric +:+ ".map") eng)).
Proof.
  pose proof (suffix_rules_ok reg (metric_name metric)
                (metric_domain_kwargs metric)
                (delete "result_format" (metric_value_kwargs metric)) eng) as Hok.
  pose proof (suffix_rules_one_role (metric_name metric)
                (metric_domain_kwargs metric)
                (delete "result_format" (metric_value_kwargs metric)) eng) as Hone.
  set (d := suffix_rules reg (metric_name metric) (metric_domain_kwargs metric)
              (delete "result_format" (metric_value_kwargs metric)) eng) in *.
  assert (Hmap : d !! "metric_map_fn" = None).
  { destruct (d !! "metric_map_fn") as [c|] eqn:E; [|reflexivity].
    destruct (Hok _ _ E) as [[?|?] _]; discriminate. }
  assert (Hroles : forall role, is_Some (d !! role) ->
            role = "metric_partial_fn" \/ role = "unexpected_condition").
  { intros role [c Hc]. exact (proj1 (Hok _ _ Hc)). }
  unfold get_evaluation_dependencies,
    ColumnMapMetricProvider_get_evaluation_dependencies,
    ColumnPairMapMetricProvider_get_evaluation_dependencies,
    MulticolumnMapMetricProvider_get_evaluation_dependencies.
  rewrite (dependencies_decompose reg). cbv zeta. fold d.
  assert (Hall : forall (tdk : kwargs) (base : gmap string MetricConfiguration),
    (forall role, is_Some (base !! role) ->
       role = "metric_partial_fn" \/ role = "unexpected_condition"
       \/ role = "metric_map_fn") ->
    forall role, is_Some (add_table_dependencies tdk base !! role) ->
      role ∈ [ "metric_partial_fn"; "unexpected_condition"; "metric_map_fn";
               "table.column_types"; "table.columns"; "table.row_count" ]).
  { intros tdk base Hbase role. unfold add_table_dependencies.
    destruct (decide (role = "table.row_count")) as [->|N1];
      [intros _; repeat constructor|].
    rewrite lookup_insert_ne by congruence.
    destruct (decide (role = "table.columns")) as [->|N2];
      [intros _; repeat constructor|].
    rewrite lookup_insert_ne by congruence.
    destruct (decide (role = "table.column_types")) as [->|N3];
      [intros _; repeat constructor|].
    rewrite lookup_insert_ne by congruence.
    intros H. destruct (Hbase role H) as [-> | [-> | ->]]; repeat constructor. }
  assert (Htable : forall (tdk : kwargs) (base : gmap string MetricConfiguration)
                     role,
    role = "metric_partial_fn" \/ role = "unexpected_condition"
    \/ role = "metric_map_fn" ->
    add_table_dependencies tdk base !! role = base !! role).
  { intros tdk base role Hrole. unfold add_table_dependencies.
    rewrite !lookup_insert_ne by (destruct Hrole as [-> | [-> | ->]]; discriminate).
    reflexivity. }
  destruct cls;
    destruct (reg (metric_name metric +:+ ".map") eng) as [pm|] eqn:Ereg;
    cbn [mbind result_bind Py.bind]; eexists; (split; [reflexivity|]);
    (split; [|split]).
  all: try (apply Hall; intros role Hrole;
            first [ destruct (decide (role = "metric_map_fn")) as [->|Hne];
                    [auto | rewrite lookup_insert_ne in Hrole by congruence;
                            destruct (Hroles role Hrole); auto]
                  | destruct (Hroles role Hrole); auto ]).
  all: try (rewrite !Htable by auto;
            rewrite ?lookup_insert_ne by discriminate; exact Hone).
  all: rewrite Htable by auto; rewrite ?lookup_insert_eq, ?Hmap;
       split; intros [x Hx]; first [discriminate | eauto].
Qed.

End Rules.

Import Examples.

Lemma aggregate_fn_dependency_sql :
  exists deps,
    MapMetricProvider_get_evaluation_dependencies example_registry
      (mkMetric "column_values.nonnull.unexpected_count.aggregate_fn"
         example_domain_kwargs ∅) SqlAlchemyExecutionEngine = Ok deps
    /\ deps !! "unexpected_condition" =
         Some (mkMetric "column_values.nonnull.condition" example_domain_kwargs
                 (delete "result_format" ∅)).
Proof.
  destruct (aggregate_fn_dependency example_registry
              (mkMetric "column_values.nonnull.unexpected_count.aggregate_fn"
                 example_domain_kwargs ∅) SqlAlchemyExecutionEngine eq_refl)
    as (deps & p & Hdeps & Hp & Hc & _).
  exists deps. split; [exact Hdeps|].
  rewrite <- (string_app_inj_r "column_values.nonnull" p
                ".unexpected_count.aggregate_fn") in Hc
    by (discriminate || exact Hp).
  exact Hc.
Defined.

End DepsExtra.

(** ** The in-memory execution engine: domain records *)

Module PandasEngineTheory.
Import Deps Frames Providers Params PandasEngine FramesTheory ProvidersTheory.

Section Records.
Context {V : Type}.
Implicit Types (self : PandasExecutionEngine_obj V) (data : DataFrame V).

Lemma kwargs_get_insert_ne (d : kwargs) (k k' : string) (v : pyval) :
  k <> k' -> kwargs_get (<[k := v]> d) k' = kwargs_get d k'.
Proof. intros H. unfold kwargs_get. rewrite lookup_insert_ne by exact H. reflexivity. Qed.

Lemma in_dom_insert (d : kwargs) (k : string) (v : pyval) :
  k ∈ dom (<[k := v]> d).
Proof. apply elem_of_dom. rewrite lookup_insert_eq. eauto. Qed.

(** X4.  For a single-column domain the engine never looks at the column:
    the records [get_domain_records] returns, or the error it raises, are
    the same whatever the domain kwargs hold under the key [column]. *)
Theorem column_domain_records_ignore_column self (domain_kwargs : kwargs)
    (column column' : pyval) :
  get_domain_records self (<["column" := column]> domain_kwargs)
  = get_domain_records self (<["column" := column']> domain_kwargs).
Proof.
  unfold get_domain_records, batch_data. cbv zeta.
  rewrite !(kwargs_get_insert_ne _ "column") by discriminate.
  rewrite !(bool_decide_eq_true_2 _ (in_dom_insert _ "column" _)).
  reflexivity.
Qed.

(** What [get_domain_records] does once the batch is found and no table or
    row condition is given. *)
Lemma get_domain_records_found self (domain_kwargs : kwargs) data :
  py_truthy (kwargs_get domain_kwargs "table") = false ->
  batch_data self domain_kwargs = Ok data ->
  py_truthy (kwargs_get domain_kwargs "row_condition") = false ->
  get_domain_records self domain_kwargs
  = (if bool_decide ("column" ∈ dom domain_kwargs) then Ok data
     else if bool_decide ("column_A" ∈ dom domain_kwargs)
             && bool_decide ("column_B" ∈ dom domain_kwargs)
             && bool_decide ("ignore_row_if" ∈ dom domain_kwargs) then
       column_A_name ← getitem domain_kwargs "column_A";
       column_B_name ← getitem domain_kwargs "column_B";
       ignore_row_if ← getitem domain_kwargs "ignore_row_if";
       if py_eq_str ignore_row_if "both_values_are_missing" then
         dropna true (PList [column_A_name; column_B_name]) data
       else if py_eq_str ignore_row_if "either_value_is_missing" then
         dropna false (PList [column_A_name; column_B_name]) data
       else if negb (py_in_strs ignore_row_if ["neither"; "never"]) then
         Raise ValueError
       else Ok data
     else if bool_decide ("column_list" ∈ dom domain_kwargs)
             && bool_decide ("ignore_row_if" ∈ dom domain_kwargs) then
       column_list ← getitem domain_kwargs "column_list";
       ignore_row_if ← getitem domain_kwargs "ignore_row_if";
       if py_eq_str ignore_row_if "all_values_are_missing" then
         dropna true column_list data
       else if py_eq_str ignore_row_if "any_value_is_missing" then
         dropna false column_list data
       else if negb (py_eq_str ignore_row_if "never") then Raise ValueError
       else Ok data
     else Ok data).
Proof.
  intros Ht Hb Hr. unfold get_domain_records. cbv zeta.
  rewrite Ht, Hb, Hr. reflexivity.
Qed.

(** [dropna] over columns that exist. *)
Lemma dropna_columns (how_all : bool) (names : list string) data :
  Forall (fun n => n ∈ df_columns data) names ->
  dropna how_all (PList (map PStr names)) data
  = Ok (mkDataFrame (df_columns data)
          (List.filter (keeps_row how_all names) (df_rows data))).
Proof.
  intros Hall. unfold dropna. cbn [subset_labels].
  assert (Ht : traverse
            (fun c => match c with
                      | PStr name =>
                          if bool_decide (name ∈ df_columns data) then Ok name
                          else Raise KeyError
                      | _ => Raise KeyError
                      end) (map PStr names) = Ok names).
  { induction Hall as [|n l Hn Hl IH]; [reflexivity|].
    cbn [map traverse]. rewrite bool_decide_eq_true_2 by exact Hn.
    cbn [mbind result_bind Py.bind]. rewrite IH. reflexivity. }
  rewrite Ht. reflexivity.
Qed.

(** [dropna] with a label that is no column. *)
Lemma dropna_missing (how_all : bool) (before : list string)
    (missing : pyval) (after : list pyval) data :
  Forall (fun n => n ∈ df_columns data) before ->
  py_in_strs missing (df_columns data) = false ->
  dropna how_all (PList (map PStr before ++ missing :: after)) data
  = Raise KeyError.
Proof.
  intros Hall Hmiss. unfold dropna. cbn [subset_labels].
  induction Hall as [|n l Hn Hl IH].
  - cbn [map app traverse]. destruct missing as [| | |s| | |]; try reflexivity.
    unfold py_in_strs in Hmiss. rewrite Hmiss. reflexivity.
  - cbn [map app traverse]. rewrite bool_decide_eq_true_2 by exact Hn.
    cbn [mbind result_bind Py.bind].
    destruct (traverse _ (map PStr l ++ missing :: after)) as [ns|e] eqn:E;
      [discriminate IH|].
    simpl in IH. exact IH.
Qed.

(** The records of a column-pair domain, directive by directive. *)
Lemma pair_records self (domain_kwargs : kwargs) data
    (column_A column_B : string) (ignore_row_if : string) :
  py_truthy (kwargs_get domain_kwargs "table") = false ->
  batch_data self domain_kwargs = Ok data ->
  py_truthy (kwargs_get domain_kwargs "row_condition") = false ->
  domain_kwargs !! "column" = None ->
  domain_kwargs !! "column_A" = Some (PStr column_A) ->
  domain_kwargs !! "column_B" = Some (PStr column_B) ->
  domain_kwargs !! "ignore_row_if" = Some (PStr ignore_row_if) ->
  column_A ∈ df_columns data ->
  column_B ∈ df_columns data ->
  get_domain_records self domain_kwargs
  = if String.eqb ignore_row_if "both_values_are_missing" then
      Ok (mkDataFrame (df_columns data)
            (List.filter (fun r => is_value (r.2 column_A)
                                   || is_value (r.2 column_B))
               (df_rows data)))
    else if String.eqb ignore_row_if "either_value_is_missing" then
      Ok (mkDataFrame (df_columns data)
            (List.filter (fun r => is_value (r.2 column_A)
                                   && is_value (r.2 column_B))
               (df_rows data)))
    else if bool_decide (ignore_row_if ∈ ["neither"; "never"]) then Ok data
    else Raise ValueError.
Proof.
  intros Ht Hb Hr Hc HA HB Hi HinA HinB.
  rewrite (get_domain_records_found self domain_kwargs data Ht Hb Hr).
  rewrite bool_decide_eq_false_2 by (rewrite not_elem_of_dom; exact Hc).
  rewrite !bool_decide_eq_true_2 by (eapply key_in_dom; eassumption).
  cbn [andb].
  rewrite (getitem_Some _ _ _ HA), (getitem_Some _ _ _ HB),
    (getitem_Some _ _ _ Hi).
  cbn [mbind result_bind Py.bind py_eq_str py_in_strs].
  assert (Hcols : Forall (fun n => n ∈ df_columns data) [column_A; column_B])
    by (repeat constructor; assumption).
  change (PList [PStr column_A; PStr column_B])
    with (PList (map PStr [column_A; column_B])).
  rewrite !(dropna_columns _ _ data Hcols).
  destruct (String.eqb ignore_row_if "both_values_are_missing").
  - do 2 f_equal. apply filter_ext. intros r. unfold keeps_row.
    cbn [existsb]. rewrite orb_false_r. reflexivity.
  - destruct (String.eqb ignore_row_if "either_value_is_missing").
    + do 2 f_equal. apply filter_ext. intros r. unfold keeps_row.
      cbn [forallb]. rewrite andb_true_r. reflexivity.
    + destruct (bool_decide (ignore_row_if ∈ ["neither"; "never"]));
        reflexivity.
Qed.

(** X5.  Column-pair domains: with [ignore_row_if] set to
    [both_values_are_missing] the engine keeps exactly the rows in which one
    of the two columns holds a value, with [either_value_is_missing] the
    rows in which both do, with [neither] or [never] every row; any other
    directive is a [ValueError].  Rows keep their order and their index
    labels. *)
Theorem column_pair_domain_records self (domain_kwargs : kwargs) data
    (column_A column_B : string) (ignore_row_if : string) :
  py_truthy (kwargs_get domain_kwargs "table") = false ->
  batch_data self domain_kwargs = Ok data ->
  py_truthy (kwargs_get domain_kwargs "row_condition") = false ->
  domain_kwargs !! "column" = None ->
  domain_kwargs !! "column_A" = Some (PStr column_A) ->
  domain_kwargs !! "column_B" = Some (PStr column_B) ->
  domain_kwargs !! "ignore_row_if" = Some (PStr ignore_row_if) ->
  column_A ∈ df_columns data ->
  column_B ∈ df_columns data ->
  get_domain_records self domain_kwargs
  = if String.eqb ignore_row_if "both_values_are_missing" then
      Ok (mkDataFrame (df_columns data)
            (List.filter (fun r => is_value (r.2 column_A)
                                   || is_value (r.2 column_B))
               (df_rows data)))
    else if String.eqb ignore_row_if "either_value_is_missing" then
      Ok (mkDataFrame (df_columns data)
            (List.filter (fun r => is_value (r.2 column_A)
                                   && is_value (r.2 column_B))
               (df_rows data)))
    else if bool_decide (ignore_row_if ∈ ["neither"; "never"]) then Ok data
    else Raise ValueError.
Proof. apply pair_records. Qed.

(** X6.  Multicolumn domains: with [ignore_row_if] set to
    [all_values_are_missing] the engine keeps exactly the rows in which some
    listed column holds a value, with [any_value_is_missing] the rows in
    which every listed column does, with [never] every row; any other
    directive, [neither] included, is a [ValueError]. *)
Theorem multicolumn_domain_records self (domain_kwargs : kwargs) data
    (column_list : list string) (ignore_row_if : string) :
  py_truthy (kwargs_get domain_kwargs "table") = false ->
  batch_data self domain_kwargs = Ok data ->
  py_truthy (kwargs_get domain_kwargs "row_condition") = false ->
  domain_kwargs !! "column" = None ->
  domain_kwargs !! "column_A" = None ->
  domain_kwargs !! "column_list" = Some (PList (map PStr column_list)) ->
  domain_kwargs !! "ignore_row_if" = Some (PStr ignore_row_if) ->
  Forall (fun n => n ∈ df_columns data) column_list ->
  get_domain_records self domain_kwargs
  = if String.eqb ignore_row_if "all_values_are_missing" then
      Ok (mkDataFrame (df_columns data)
            (List.filter
               (fun r => existsb (fun n => is_value (r.2 n)) column_list)
               (df_rows data)))
    else if String.eqb ignore_row_if "any_value_is_missing" then
      Ok (mkDataFrame (df_columns data)
            (List.filter
               (fun r => forallb (fun n => is_value (r.2 n)) column_list)
               (df_rows data)))
    else if String.eqb ignore_row_if "never" then Ok data
    else Raise ValueError.
Proof.
  intros Ht Hb Hr Hc HA Hl Hi Hcols.
  rewrite (get_domain_records_found self domain_kwargs data Ht Hb Hr).
  rewrite bool_decide_eq_false_2 by (rewrite not_elem_of_dom; exact Hc).
  rewrite (bool_decide_eq_false_2 ("column_A" ∈ dom domain_kwargs))
    by (rewrite not_elem_of_dom; exact HA).
  cbn [andb].
  rewrite !bool_decide_eq_true_2 by (eapply key_in_dom; eassumption).
  cbn [andb].
  rewrite (getitem_Some _ _ _ Hl), (getitem_Some _ _ _ Hi).
  cbn [mbind result_bind Py.bind py_eq_str].
  rewrite !(dropna_columns _ _ data Hcols).
  destruct (String.eqb ignore_row_if "all_values_are_missing"); [reflexivity|].
  destruct (String.eqb ignore_row_if "any_value_is_missing"); [reflexivity|].
  destruct (String.eqb ignore_row_if "never"); reflexivity.
Qed.

Lemma dropna_ok (how_all : bool) (subset : pyval) data (df : DataFrame V) :
  dropna how_all subset data = Ok df ->
  exists names,
    df = mkDataFrame (df_columns data)
           (List.filter (keeps_row how_all names) (df_rows data)).
Proof.
  unfold dropna. destruct (traverse _ _) as [names|e]; [|discriminate].
  intros H. injection H as <-. exists names. reflexivity.
Qed.

Lemma filter_bool_sublist {A : Type} (p : A -> bool) (l : list A) :
  sublist (List.filter p l) l.
Proof.
  induction l as [|x l IH]; simpl; [constructor|].
  destruct (p x); constructor; exact IH.
Qed.

(** X7.  Without a row condition the domain records are always rows of the
    batch: whatever the domain kwargs, the frame [get_domain_records]
    returns has the columns of the batch and a subsequence of its rows (no
    row is added, changed or reordered). *)
Theorem domain_records_subsequence self (domain_kwargs : kwargs) data
    (df : DataFrame V) :
  batch_data self domain_kwargs = Ok data ->
  py_truthy (kwargs_get domain_kwargs "row_condition") = false ->
  get_domain_records self domain_kwargs = Ok df ->
  df_columns df = df_columns data /\ sublist (df_rows df) (df_rows data).
Proof.
  intros Hb Hr Hrun.
  assert (Ht : py_truthy (kwargs_get domain_kwargs "table") = false).
  { unfold get_domain_records in Hrun. cbv zeta in Hrun.
    destruct (py_truthy (kwargs_get domain_kwargs "table"));
      [discriminate | reflexivity]. }
  rewrite (get_domain_records_found self domain_kwargs data Ht Hb Hr) in Hrun.
  assert (Hdata : forall r : result (DataFrame V), r = Ok data -> r = Ok df ->
            df_columns df = df_columns data
            /\ sublist (df_rows df) (df_rows data)).
  { intros r -> H. injection H as <-. split; reflexivity. }
  assert (Hdrop : forall h s, dropna h s data = Ok df ->
            df_columns df = df_columns data
            /\ sublist (df_rows df) (df_rows data)).
  { intros h s H. destruct (dropna_ok _ _ _ _ H) as [names ->].
    split; [reflexivity | apply filter_bool_sublist]. }
  destruct (bool_decide ("column" ∈ dom domain_kwargs)); [eauto|].
  destruct (bool_decide ("column_A" ∈ dom domain_kwargs)
            && bool_decide ("column_B" ∈ dom domain_kwargs)
            && bool_decide ("ignore_row_if" ∈ dom domain_kwargs)).
  - destruct (getitem domain_kwargs "column_A") as [a|]; [|discriminate].
    destruct (getitem domain_kwargs "column_B") as [b|]; [|discriminate].
    destruct (getitem domain_kwargs "ignore_row_if") as [i|]; [|discriminate].
    cbn [mbind result_bind Py.bind] in Hrun.
    destruct (py_eq_str i "both_values_are_missing"); [eauto|].
    destruct (py_eq_str i "either_value_is_missing"); [eauto|].
    destruct (negb (py_in_strs i ["neither"; "never"])); [discriminate | eauto].
  - destruct (bool_decide ("column_list" ∈ dom domain_kwargs)
              && bool_decide ("ignore_row_if" ∈ dom domain_kwargs)); [|eauto].
    destruct (getitem domain_kwargs "column_list") as [l|]; [|discriminate].
    destruct (getitem domain_kwargs "ignore_row_if") as [i|]; [|discriminate].
    cbn [mbind result_bind Py.bind] in Hrun.
    destruct (py_eq_str i "all_values_are_missing"); [eauto|].
    destruct (py_eq_str i "any_value_is_missing"); [eauto|].
    destruct (negb (py_eq_str i "never")); [discriminate | eauto].
Qed.

(** X8.  On the in-memory engine a column-pair domain whose [ignore_row_if]
    drops rows is resolved by reading the two columns: when one of them is
    not a column of the batch, [get_domain_records] raises pandas'
    [KeyError], and the column-pair partials, which resolve the domain
    before they check the column names against [table.columns], fail with
    that same [KeyError], whatever the business function and the metrics. *)
Theorem column_pair_missing_column_engine_error {R : Type} self
    (domain_kwargs : kwargs) data (column_A column_B : pyval)
    (ignore_row_if : string) :
  py_truthy (kwargs_get domain_kwargs "table") = false ->
  batch_data self domain_kwargs = Ok data ->
  py_truthy (kwargs_get domain_kwargs "row_condition") = false ->
  domain_kwargs !! "column" = None ->
  domain_kwargs !! "column_A" = Some column_A ->
  domain_kwargs !! "column_B" = Some column_B ->
  domain_kwargs !! "ignore_row_if" = Some (PStr ignore_row_if) ->
  ignore_row_if ∈ ["both_values_are_missing"; "either_value_is_missing"] ->
  py_in_strs column_A (df_columns data) = false
  \/ py_in_strs column_B (df_columns data) = false ->
  get_domain_records self domain_kwargs = Raise KeyError
  /\ (forall fn cls metric_value_kwargs metrics,
        pandas_column_pair_condition_partial fn cls (as_engine self)
          domain_kwargs metric_value_kwargs metrics = Raise KeyError)
  /\ (forall (fn : Series (cell V) -> Series (cell V) -> kwargs
                   -> Metrics (Series bool) -> result R)
             cls metric_value_kwargs metrics,
        pandas_column_pair_function_partial fn cls (as_engine self)
          domain_kwargs metric_value_kwargs metrics = Raise KeyError).
Proof.
  intros Ht Hb Hr Hc HA HB Hi Hdir Hmiss.
  assert (Hrec : get_domain_records self domain_kwargs = Raise KeyError).
  { rewrite (get_domain_records_found self domain_kwargs data Ht Hb Hr).
    rewrite bool_decide_eq_false_2 by (rewrite not_elem_of_dom; exact Hc).
    rewrite !bool_decide_eq_true_2 by (eapply key_in_dom; eassumption).
    cbn [andb].
    rewrite (getitem_Some _ _ _ HA), (getitem_Some _ _ _ HB),
      (getitem_Some _ _ _ Hi).
    cbn [mbind result_bind Py.bind py_eq_str].
    assert (Hdrop : forall h,
              dropna h (PList [column_A; column_B]) data = Raise KeyError).
    { intros h. destruct (py_in_strs column_A (df_columns data)) eqn:EA.
      - destruct Hmiss as [Hm|Hm]; [discriminate|].
        destruct column_A as [| | |a| | |]; try discriminate.
        apply bool_decide_eq_true_1 in EA.
        apply (dropna_missing h [a] column_B [] data);
          [repeat constructor; exact EA | exact Hm].
      - apply (dropna_missing h [] column_A [column_B] data);
          [constructor | exact EA]. }
    apply elem_of_cons in Hdir as [->|Hdir]; [apply Hdrop|].
    apply elem_of_cons in Hdir as [->|Hdir]; [apply Hdrop | inversion Hdir]. }
  split; [exact Hrec|]. split; intros fn cls vk metrics.
  - unfold pandas_column_pair_condition_partial, as_engine,
      Providers.get_compute_domain, get_compute_domain.
    rewrite Hrec. reflexivity.
  - unfold pandas_column_pair_function_partial, as_engine,
      Providers.get_compute_domain, get_compute_domain.
    rewrite Hrec. reflexivity.
Qed.

(** X9.  On the in-memory engine a single-column domain is resolved without
    reading the column, so a column name that [table.columns] lacks always
    reaches the adapter's own check: once the batch is found, the column
    function and condition partials raise
    [InvalidMetricAccessorDomainKwargsKeyError], whether or not the batch
    has such a column and whatever the business function. *)
Theorem column_missing_dedicated_error {R : Type} self
    (domain_kwargs : kwargs) data (column_name : pyval)
    (compute accessor : kwargs) (columns : list string)
    (metrics : Metrics (Series bool)) :
  py_truthy (kwargs_get domain_kwargs "table") = false ->
  batch_data self domain_kwargs = Ok data ->
  py_truthy (kwargs_get domain_kwargs "row_condition") = false ->
  "column" ∈ dom domain_kwargs ->
  _split_domain_kwargs self domain_kwargs COLUMN = Ok (compute, accessor) ->
  accessor !! "column" = Some column_name ->
  table_columns metrics = Some columns ->
  py_in_strs column_name columns = false ->
  (forall kw fn cls metric_value_kwargs,
     pandas_column_condition_partial kw fn cls (as_engine self)
       domain_kwargs metric_value_kwargs metrics
     = Raise InvalidMetricAccessorDomainKwargsKeyError)
  /\ (forall kw (fn : Series (cell V) -> kwargs -> Metrics (Series bool)
                      -> result R) cls metric_value_kwargs,
        pandas_column_function_partial kw fn cls (as_engine self)
          domain_kwargs metric_value_kwargs metrics
        = Raise InvalidMetricAccessorDomainKwargsKeyError).
Proof.
  intros Ht Hb Hr Hc Hs Ha Hcols Hmiss.
  assert (Hcd : Providers.get_compute_domain (as_engine self) domain_kwargs COLUMN
                = Ok (data, compute, accessor)).
  { unfold as_engine, Providers.get_compute_domain, get_compute_domain.
    rewrite (get_domain_records_found self domain_kwargs data Ht Hb Hr).
    rewrite bool_decide_eq_true_2 by exact Hc.
    cbn [mbind result_bind Py.bind]. rewrite Ht, Hs. reflexivity. }
  split; intros kw fn cls vk.
  - unfold pandas_column_condition_partial. rewrite Hcd.
    cbn [mbind result_bind Py.bind]. rewrite (getitem_Some _ _ _ Ha).
    cbn [mbind result_bind Py.bind].
    rewrite (check_column_exists_missing _ columns) by assumption.
    reflexivity.
  - unfold pandas_column_function_partial. rewrite Hcd.
    cbn [mbind result_bind Py.bind]. rewrite (getitem_Some _ _ _ Ha).
    cbn [mbind result_bind Py.bind].
    rewrite (check_column_exists_missing _ columns) by assumption.
    reflexivity.
Qed.

End Records.

Import EngineExamples.

Lemma column_pair_domain_records_both :
  get_domain_records pair_engine
    (pair_domain_kwargs "a" "b" "both_values_are_missing")
  = Ok (mkDataFrame ["a"; "b"]
          [ (0%Z, pair_row (Some 1%Z) (Some 2%Z)); (1%Z, pair_row None (Some 3%Z));
            (3%Z, pair_row (Some 4%Z) None) ]).
Proof.
  rewrite (column_pair_domain_records pair_engine _ pair_frame "a" "b"
             "both_values_are_missing");
    [reflexivity | reflexivity | reflexivity | reflexivity | reflexivity
    | reflexivity | reflexivity | reflexivity | repeat constructor
    | repeat constructor].
Defined.

Lemma multicolumn_domain_records_neither :
  get_domain_records pair_engine (list_domain_kwargs ["a"; "b"] "neither")
  = Raise ValueError.
Proof.
  rewrite (multicolumn_domain_records pair_engine _ pair_frame ["a"; "b"]
             "neither");
    [reflexivity | reflexivity | reflexivity | reflexivity | reflexivity
    | reflexivity | reflexivity | reflexivity | repeat constructor].
Defined.

Lemma domain_records_subsequence_either :
  exists df,
    get_domain_records pair_engine
      (pair_domain_kwargs "a" "b" "either_value_is_missing") = Ok df
    /\ sublist (df_rows df) (df_rows pair_frame).
Proof.
  eexists. split; [reflexivity|].
  apply (domain_records_subsequence pair_engine
           (pair_domain_kwargs "a" "b" "either_value_is_missing") pair_frame);
    reflexivity.
Defined.

Lemma column_pair_missing_column_engine_error_nonexistent :
  pandas_column_pair_condition_partial equal_series Examples.default_class
    (as_engine pair_engine)
    (pair_domain_kwargs "nonexistent" "b" "both_values_are_missing") ∅
    (mkMetrics None (Some ["a"; "b"]))
  = Raise KeyError.
Proof.
  apply (column_pair_missing_column_engine_error (R := unit) pair_engine
           (pair_domain_kwargs "nonexistent" "b" "both_values_are_missing")
           pair_frame (PStr "nonexistent") (PStr "b") "both_values_are_missing");
    try reflexivity.
  - repeat constructor.
  - left. reflexivity.
Defined.

Lemma column_missing_dedicated_error_nonexistent :
  pandas_column_condition_partial None Examples.failing_series
    Examples.default_class (as_engine pair_engine)
    {[ "batch_id" := PStr "b1"; "column" := PStr "nonexistent" ]} ∅
    (mkMetrics None (Some ["a"; "b"]))
  = Raise InvalidMetricAccessorDomainKwargsKeyError.
Proof.
  apply (column_missing_dedicated_error (R := unit) pair_engine
           {[ "batch_id" := PStr "b1"; "column" := PStr "nonexistent" ]}
           pair_frame (PStr "nonexistent") {[ "batch_id" := PStr "b1" ]}
           {[ "column" := PStr "nonexistent" ]} ["a"; "b"]);
    reflexivity.
Defined.

End PandasEngineTheory.

(** ** The remaining adapters: column checks and stored conditions *)

Module MoreProvidersTheory.
Import Deps Frames Providers MoreProviders FramesTheory ProvidersTheory
       MissingColumnTheory PartialsTheory.

Section RemainingAdapters.
Context {V R Selectable Dialect SaEngine : Type}.
Variable cls : ProviderClass.
Variables metric_domain_kwargs metric_value_kwargs : kwargs.
Variables (columns : list string) (compute accessor : kwargs).
Variable sql_engine : @SqlAlchemyExecutionEngine_obj Selectable Dialect SaEngine.
Variable spark_engine : ExecutionEngine SparkDataFrame.
Variable pandas_engine : ExecutionEngine (DataFrame V).
Variables (selectable : Selectable) (data : SparkDataFrame).
Variables (metrics : Metrics bexpr) (pandas_metrics : Metrics (Series bool)).
Hypothesis Hcolumns : table_columns metrics = Some columns.
Hypothesis Hpcolumns : table_columns pandas_metrics = Some columns.

Lemma check_in_loop_missing (l : list pyval) :
  (exists x, x ∈ l /\ py_in_strs x columns = false) ->
  traverse
    (fun column_name =>
       if py_in_strs column_name columns then Ok tt
       else Raise InvalidMetricAccessorDomainKwargsKeyError) l
  = Raise InvalidMetricAccessorDomainKwargsKeyError.
Proof.
  intros [x [Hx Hmiss]]. induction l as [|y l IH]; [inversion Hx|].
  cbn [traverse]. destruct (py_in_strs y columns) eqn:Ey; [|reflexivity].
  cbn [mbind result_bind Py.bind].
  apply elem_of_cons in Hx. destruct Hx as [->|Hx]; [congruence|].
  rewrite (IH Hx). reflexivity.
Qed.

Section Pair.
Variables column_A_name column_B_name : pyval.
Hypothesis HA : accessor !! "column_A" = Some column_A_name.
Hypothesis HB : accessor !! "column_B" = Some column_B_name.
Hypothesis Hmissing :
  py_in_strs column_A_name columns = false
  \/ py_in_strs column_B_name columns = false.

Lemma pair_check_fails {C : Type} (m : Metrics C) :
  table_columns m = Some columns ->
  check_columns_exist [column_A_name; column_B_name] m
  = Raise InvalidMetricAccessorDomainKwargsKeyError.
Proof.
  intros Hm. apply (check_columns_exist_missing _ columns); [exact Hm|].
  destruct Hmissing as [H|H]; [exists column_A_name | exists column_B_name];
    (split; [|exact H]); repeat constructor.
Qed.

Lemma sql_pair_missing :
  get_compute_domain (sql_base sql_engine) metric_domain_kwargs COLUMN_PAIR
    = Ok (selectable, compute, accessor) ->
  (forall fn : vexpr -> vexpr -> kwargs -> Metrics bexpr -> result R,
     raises_invalid_accessor
       (sqlalchemy_column_pair_function_partial fn cls sql_engine
          metric_domain_kwargs metric_value_kwargs metrics))
  /\ (forall fn,
        raises_invalid_accessor
          (sqlalchemy_column_pair_condition_partial fn cls sql_engine
             metric_domain_kwargs metric_value_kwargs metrics)).
Proof.
  intros Hcd. split; intros fn; unfold raises_invalid_accessor,
    sqlalchemy_column_pair_function_partial,
    sqlalchemy_column_pair_condition_partial;
    rewrite Hcd; cbn [mbind result_bind Py.bind];
    rewrite (getitem_Some _ _ _ HA), (getitem_Some _ _ _ HB);
    cbn [mbind result_bind Py.bind];
    rewrite (pair_check_fails metrics Hcolumns); reflexivity.
Qed.

Lemma spark_pair_missing :
  get_compute_domain spark_engine metric_domain_kwargs COLUMN_PAIR
    = Ok (data, compute, accessor) ->
  (forall fn : vexpr -> vexpr -> kwargs -> Metrics bexpr -> result R,
     raises_invalid_accessor
       (spark_column_pair_function_partial fn cls spark_engine
          metric_domain_kwargs metric_value_kwargs metrics))
  /\ (forall fn,
        raises_invalid_accessor
          (spark_column_pair_condition_partial fn cls spark_engine
             metric_domain_kwargs metric_value_kwargs metrics)).
Proof.
  intros Hcd. split; intros fn; unfold raises_invalid_accessor,
    spark_column_pair_function_partial, spark_column_pair_condition_partial;
    rewrite Hcd; cbn [mbind result_bind Py.bind];
    rewrite (getitem_Some _ _ _ HA), (getitem_Some _ _ _ HB);
    cbn [mbind result_bind Py.bind];
    rewrite (pair_check_fails metrics Hcolumns); reflexivity.
Qed.

Lemma pandas_pair_details_missing (mask : Series bool)
    (domain_kwargs : kwargs) (df : DataFrame V) :
  unexpected_condition pandas_metrics = Some (mask, compute, accessor) ->
  dict_merge compute accessor = Ok domain_kwargs ->
  get_domain_records pandas_engine domain_kwargs = Ok df ->
  raises_invalid_accessor
    (_pandas_column_pair_map_condition_values cls pandas_engine
       metric_domain_kwargs metric_value_kwargs pandas_metrics)
  /\ raises_invalid_accessor
       (_pandas_column_pair_map_condition_filtered_row_count cls pandas_engine
          metric_domain_kwargs metric_value_kwargs pandas_metrics).
Proof.
  intros Hm Hmerge Hdf.
  assert (Hin : forall key v, accessor !! key = Some v -> key ∈ dom domain_kwargs).
  { intros key v Hk. unfold dict_merge in Hmerge.
    destruct (bool_decide (dom compute ∩ dom accessor = ∅)); [|discriminate].
    injection Hmerge as <-. apply elem_of_dom.
    destruct (compute !! key) as [w|] eqn:E.
    - exists w. apply lookup_union_Some_l. exact E.
    - exists v. rewrite lookup_union_r by exact E. exact Hk. }
  split; unfold raises_invalid_accessor,
    _pandas_column_pair_map_condition_values,
    _pandas_column_pair_map_condition_filtered_row_count,
    metrics_unexpected_condition;
    rewrite Hm; cbn [mbind result_bind Py.bind]; rewrite Hmerge;
    cbn [mbind result_bind Py.bind]; rewrite Hdf;
    cbn [mbind result_bind Py.bind];
    rewrite !bool_decide_eq_true_2 by (eapply Hin; eassumption);
    cbn [andb negb];
    rewrite (getitem_Some _ _ _ HA), (getitem_Some _ _ _ HB);
    cbn [mbind result_bind Py.bind];
    rewrite (pair_check_fails pandas_metrics Hpcolumns); reflexivity.
Qed.

End Pair.

Section Multicolumn.
Variable column_list : list pyval.
Hypothesis Hlist : accessor !! "column_list" = Some (PList column_list).
Hypothesis Hmissing :
  exists x, x ∈ column_list /\ py_in_strs x columns = false.

Lemma sql_multicolumn_missing :
  get_compute_domain (sql_base sql_engine) metric_domain_kwargs MULTICOLUMN
    = Ok (selectable, compute, accessor) ->
  (forall fn : list vexpr -> kwargs -> pyval -> list string -> Dialect
               -> Selectable -> SaEngine -> Metrics bexpr -> result R,
     raises_invalid_accessor
       (sqlalchemy_multicolumn_function_partial fn cls sql_engine
          metric_domain_kwargs metric_value_kwargs metrics))
  /\ (forall fn,
        raises_invalid_accessor
          (sqlalchemy_multicolumn_condition_partial fn cls sql_engine
             metric_domain_kwargs metric_value_kwargs metrics)).
Proof.
  intros Hcd. split; intros fn; unfold raises_invalid_accessor,
    sqlalchemy_multicolumn_function_partial,
    sqlalchemy_multicolumn_condition_partial;
    rewrite Hcd; cbn [mbind result_bind Py.bind];
    rewrite (getitem_Some _ _ _ Hlist); cbn [mbind result_bind Py.bind py_iter].
  - unfold metrics_table_columns. rewrite Hcolumns.
    cbn [mbind result_bind Py.bind].
    rewrite (check_in_loop_missing _ Hmissing). reflexivity.
  - rewrite (check_columns_exist_missing _ columns metrics Hcolumns Hmissing).
    reflexivity.
Qed.

Lemma spark_multicolumn_missing :
  get_compute_domain spark_engine metric_domain_kwargs MULTICOLUMN
    = Ok (data, compute, accessor) ->
  (forall fn : SparkDataFrame -> kwargs -> Metrics bexpr -> result R,
     raises_invalid_accessor
       (spark_multicolumn_function_partial fn cls spark_engine
          metric_domain_kwargs metric_value_kwargs metrics))
  /\ (forall fn,
        raises_invalid_accessor
          (spark_multicolumn_condition_partial fn cls spark_engine
             metric_domain_kwargs metric_value_kwargs metrics)).
Proof.
  intros Hcd. split; intros fn; unfold raises_invalid_accessor,
    spark_multicolumn_function_partial, spark_multicolumn_condition_partial;
    rewrite Hcd; cbn [mbind result_bind Py.bind];
    rewrite (getitem_Some _ _ _ Hlist); cbn [mbind result_bind Py.bind py_iter];
    rewrite (check_columns_exist_missing _ columns metrics Hcolumns Hmissing);
    reflexivity.
Qed.

Lemma pandas_multicolumn_count_missing (mask : Series bool)
    (domain_kwargs : kwargs) (df : DataFrame V) :
  unexpected_condition pandas_metrics = Some (mask, compute, accessor) ->
  dict_merge compute accessor = Ok domain_kwargs ->
  get_domain_records pandas_engine domain_kwargs = Ok df ->
  raises_invalid_accessor
    (_pandas_multicolumn_map_condition_filtered_row_count cls pandas_engine
       metric_domain_kwargs metric_value_kwargs pandas_metrics).
Proof.
  intros Hm Hmerge Hdf.
  unfold raises_invalid_accessor,
    _pandas_multicolumn_map_condition_filtered_row_count,
    metrics_unexpected_condition.
  rewrite Hm. cbn [mbind result_bind Py.bind]. rewrite Hmerge.
  cbn [mbind result_bind Py.bind]. rewrite Hdf.
  cbn [mbind result_bind Py.bind].
  rewrite bool_decide_eq_false_2
    by (intros Hn; apply Hn; eapply key_in_dom; exact Hlist).
  rewrite (getitem_Some _ _ _ Hlist). cbn [mbind result_bind Py.bind py_iter].
  rewrite (check_columns_exist_missing _ columns pandas_metrics Hpcolumns
             Hmissing).
  reflexivity.
Qed.

End Multicolumn.

End RemainingAdapters.

(** X10.  The column-pair and multicolumn partials of the SQLAlchemy and
    Spark backends, and the in-memory providers of the column-pair values
    and of the filtered row counts, check every column name of the accessor
    kwargs against [table.columns] as soon as the engine has resolved the
    domain: when a name is not a member they raise
    [InvalidMetricAccessorDomainKwargsKeyError], whatever the business
    function and whatever the data holds. *)
Theorem remaining_adapters_check_columns
    {V R Selectable Dialect SaEngine : Type} (cls : ProviderClass)
    (metric_domain_kwargs metric_value_kwargs : kwargs)
    (columns : list string) (compute accessor : kwargs)
    (sql_engine : @SqlAlchemyExecutionEngine_obj Selectable Dialect SaEngine)
    (spark_engine : ExecutionEngine SparkDataFrame)
    (pandas_engine : ExecutionEngine (DataFrame V))
    (selectable : Selectable) (data : SparkDataFrame)
    (metrics : Metrics bexpr) (pandas_metrics : Metrics (Series bool))
    (mask : Series bool) (domain_kwargs : kwargs) (df : DataFrame V)
    (domain_type : MetricDomainTypes) (missing : list pyval) :
  table_columns metrics = Some columns ->
  table_columns pandas_metrics = Some columns ->
  unexpected_condition pandas_metrics = Some (mask, compute, accessor) ->
  dict_merge compute accessor = Ok domain_kwargs ->
  get_domain_records pandas_engine domain_kwargs = Ok df ->
  get_compute_domain (sql_base sql_engine) metric_domain_kwargs domain_type
    = Ok (selectable, compute, accessor) ->
  get_compute_domain spark_engine metric_domain_kwargs domain_type
    = Ok (data, compute, accessor) ->
  (exists x, x ∈ missing /\ py_in_strs x columns = false) ->
  (domain_type = COLUMN_PAIR ->
   (exists a b, accessor !! "column_A" = Some a /\ accessor !! "column_B" = Some b
                /\ missing = [a; b]) ->
   (forall fn : vexpr -> vexpr -> kwargs -> Metrics bexpr -> result R,
      raises_invalid_accessor
        (sqlalchemy_column_pair_function_partial fn cls sql_engine
           metric_domain_kwargs metric_value_kwargs metrics))
   /\ (forall fn,
         raises_invalid_accessor
           (sqlalchemy_column_pair_condition_partial fn cls sql_engine
              metric_domain_kwargs metric_value_kwargs metrics))
   /\ (forall fn : vexpr -> vexpr -> kwargs -> Metrics bexpr -> result R,
         raises_invalid_accessor
           (spark_column_pair_function_partial fn cls spark_engine
              metric_domain_kwargs metric_value_kwargs metrics))
   /\ (forall fn,
         raises_invalid_accessor
           (spark_column_pair_condition_partial fn cls spark_engine
              metric_domain_kwargs metric_value_kwargs metrics))
   /\ raises_invalid_accessor
        (_pandas_column_pair_map_condition_values cls pandas_engine
           metric_domain_kwargs metric_value_kwargs pandas_metrics)
   /\ raises_invalid_accessor
        (_pandas_column_pair_map_condition_filtered_row_count cls pandas_engine
           metric_domain_kwargs metric_value_kwargs pandas_metrics))
  /\ (domain_type = MULTICOLUMN ->
      accessor !! "column_list" = Some (PList missing) ->
      (forall fn : list vexpr -> kwargs -> pyval -> list string -> Dialect
                   -> Selectable -> SaEngine -> Metrics bexpr -> result R,
         raises_invalid_accessor
           (sqlalchemy_multicolumn_function_partial fn cls sql_engine
              metric_domain_kwargs metric_value_kwargs metrics))
      /\ (forall fn,
            raises_invalid_accessor
              (sqlalchemy_multicolumn_condition_partial fn cls sql_engine
                 metric_domain_kwargs metric_value_kwargs metrics))
      /\ (forall fn : SparkDataFrame -> kwargs -> Metrics bexpr -> result R,
            raises_invalid_accessor
              (spark_multicolumn_function_partial fn cls spark_engine
                 metric_domain_kwargs metric_value_kwargs metrics))
      /\ (forall fn,
            raises_invalid_accessor
              (spark_multicolumn_condition_partial fn cls spark_engine
                 metric_domain_kwargs metric_value_kwargs metrics))
      /\ raises_invalid_accessor
           (_pandas_multicolumn_map_condition_filtered_row_count cls
              pandas_engine metric_domain_kwargs metric_value_kwargs
              pandas_metrics)).
Proof.
  intros Hc Hpc Hm Hmerge Hdf Hsql Hspark Hmiss. split.
  - intros -> (a & b & HA & HB & ->).
    assert (Hab : py_in_strs a columns = false \/ py_in_strs b columns = false).
    { destruct Hmiss as (x & Hx & Hxm).
      apply elem_of_cons in Hx as [->|Hx]; [left; exact Hxm|].
      apply elem_of_cons in Hx as [->|Hx]; [right; exact Hxm | inversion Hx]. }
    destruct (sql_pair_missing (R := R) cls metric_domain_kwargs
                metric_value_kwargs columns compute accessor sql_engine
                selectable metrics Hc a b HA HB Hab Hsql) as [S1 S2].
    destruct (spark_pair_missing (R := R) cls metric_domain_kwargs
                metric_value_kwargs columns compute accessor spark_engine data
                metrics Hc a b HA HB Hab Hspark) as [P1 P2].
    destruct (pandas_pair_details_missing cls metric_domain_kwargs
                metric_value_kwargs columns compute accessor pandas_engine
                pandas_metrics Hpc a b HA HB Hab mask domain_kwargs df
                Hm Hmerge Hdf) as [D1 D2].
    repeat split; assumption.
  - intros -> Hlist.
    destruct (sql_multicolumn_missing (R := R) cls metric_domain_kwargs
                metric_value_kwargs columns compute accessor sql_engine
                selectable metrics Hc missing Hlist Hmiss Hsql) as [S1 S2].
    destruct (spark_multicolumn_missing (R := R) cls metric_domain_kwargs
                metric_value_kwargs columns compute accessor spark_engine data
                metrics Hc missing Hlist Hmiss Hspark) as [P1 P2].
    pose proof (pandas_multicolumn_count_missing cls metric_domain_kwargs
                  metric_value_kwargs columns compute accessor pandas_engine
                  pandas_metrics Hpc missing Hlist Hmiss mask domain_kwargs df
                  Hm Hmerge Hdf) as D1.
    repeat split; assumption.
Qed.

Import Examples EngineExamples.

Lemma remaining_adapters_check_columns_pair :
  MoreProviders.sqlalchemy_column_pair_condition_partial equal_sql default_class
    (fixed_sql_engine missing_pair_accessor) example_domain_kwargs ∅
    (mkMetrics None (Some ["a"; "b"]))
  = Raise InvalidMetricAccessorDomainKwargsKeyError.
Proof.
  refine (proj1 (proj2 (proj1
    (remaining_adapters_check_columns (V := Z) (R := unit) default_class
       example_domain_kwargs ∅ ["a"; "b"] age_compute
       missing_pair_accessor (fixed_sql_engine missing_pair_accessor)
       (fixed_spark_engine missing_pair_accessor)
       (fixed_engine missing_pair_accessor) tt
       (mkSparkDataFrame ["age"]) (mkMetrics None (Some ["a"; "b"]))
       (mkMetrics (Some (age_null_mask, age_compute, missing_pair_accessor))
          (Some ["a"; "b"]))
       age_null_mask (age_compute ∪ missing_pair_accessor) age_frame
       COLUMN_PAIR [PStr "nonexistent"; PStr "b"]
       eq_refl eq_refl eq_refl _ eq_refl eq_refl eq_refl _) eq_refl _)) equal_sql).
  - reflexivity.
  - exists (PStr "nonexistent"). split; [constructor | reflexivity].
  - exists (PStr "nonexistent"), (PStr "b"). repeat split; reflexivity.
Defined.

End MoreProvidersTheory.

(** ** The stored conditions of the query backends and their counts *)

Module ConditionsTheory.
Import Deps Frames Providers MoreProviders FramesTheory ProvidersTheory
       PartialsTheory.

Lemma and3_true_l (x : option bool) : and3 (Some true) x = x.
Proof. destruct x as [[]|]; reflexivity. Qed.

Lemma and3_false_l (x : option bool) : and3 (Some false) x = Some false.
Proof. destruct x as [[]|]; reflexivity. Qed.

(** X11.  For the same business predicate the SQLAlchemy column condition
    partial stores [NOT (column IS NULL) AND NOT meets] under
    [filter_column_isnull] (else [NOT meets]): a row whose column is null
    is never unexpected, even where the predicate is unknown, and on a row
    whose column holds a value the condition is the three-valued negation
    of the predicate.  The Spark partial of type [MAP_CONDITION_FN] stores
    [column IS NOT NULL AND NOT meets], which evaluates like the SQLAlchemy
    condition on every row.  The Spark partial of type
    [WINDOW_CONDITION_FN] stores [NOT meets] alone and moves the null
    filter into the compute domain kwargs ([add_column_row_condition] on
    the column): there the stored condition is true on a null row on which
    the predicate is false, where the SQLAlchemy condition is false. *)
Theorem query_conditions_agree {V Selectable Dialect SaEngine : Type}
    (kw : option bool) (cls : ProviderClass)
    (metric_domain_kwargs metric_value_kwargs : kwargs)
    (compute accessor : kwargs) (columns : list string) (column : string)
    (sql_engine : @SqlAlchemyExecutionEngine_obj Selectable Dialect SaEngine)
    (selectable : Selectable)
    (sql_fn : vexpr -> kwargs -> Dialect -> Selectable -> SaEngine
              -> Metrics bexpr -> result bexpr)
    (spark_engine : ExecutionEngine SparkDataFrame) (data : SparkDataFrame)
    (spark_fn : vexpr -> kwargs -> SparkDataFrame -> Metrics bexpr -> kwargs
                -> kwargs -> result bexpr)
    (metrics : Metrics bexpr) (meets : bexpr) :
  let filter_column_isnull := get_filter_column_isnull kw cls true in
  accessor !! "column" = Some (PStr column) ->
  column ∈ columns ->
  table_columns metrics = Some columns ->
  get_compute_domain (sql_base sql_engine) metric_domain_kwargs COLUMN
    = Ok (selectable, compute, accessor) ->
  get_compute_domain spark_engine metric_domain_kwargs COLUMN
    = Ok (data, compute, accessor) ->
  column ∈ spark_columns data ->
  sql_fn (Column column) metric_value_kwargs (dialect_module sql_engine)
    selectable (engine sql_engine) metrics = Ok meets ->
  spark_fn (Column column) metric_value_kwargs data metrics compute accessor
    = Ok meets ->
  exists c_sql c_spark,
    sqlalchemy_column_condition_partial kw sql_fn cls sql_engine
      metric_domain_kwargs metric_value_kwargs metrics
    = Ok (c_sql, compute, accessor)
    /\ spark_column_condition_partial kw MAP_CONDITION_FN spark_fn cls
         spark_engine metric_domain_kwargs metric_value_kwargs metrics
       = Ok (c_spark, compute, accessor)
    /\ spark_column_condition_partial kw WINDOW_CONDITION_FN spark_fn cls
         spark_engine metric_domain_kwargs metric_value_kwargs metrics
       = (compute_domain_kwargs ←
            (if filter_column_isnull
             then add_column_row_condition spark_engine compute
                    (Some (PStr column))
             else Ok compute);
          Ok (Not meets, compute_domain_kwargs, accessor))
    /\ forall (interp : string -> cell V -> option bool)
              (row : string -> cell V),
         eval interp row c_sql = eval interp row c_spark
         /\ (filter_column_isnull = true -> row column = None ->
             eval interp row c_sql = Some false)
         /\ (row column <> None ->
             eval interp row c_sql = not3 (eval interp row meets))
         /\ (filter_column_isnull = true -> row column = None ->
             eval interp row meets = Some false ->
             eval interp row (Not meets) = Some true
             /\ eval interp row c_sql <> eval interp row (Not meets)).
Proof.
  intros flag Hcol Hin Hm Hsql Hspark Hdata Hsfn Hpfn.
  exists (if flag then And (Not (IsNull (Column column))) (Not meets)
          else Not meets),
         (if flag then And (IsNotNull (Column column)) (Not meets)
          else Not meets).
  split; [|split; [|split]].
  - unfold sqlalchemy_column_condition_partial. rewrite Hsql.
    cbn [mbind result_bind Py.bind]. rewrite (getitem_Some _ _ _ Hcol).
    cbn [mbind result_bind Py.bind].
    rewrite (check_column_exists_present column columns) by assumption.
    cbn [mbind result_bind Py.bind sa_column]. rewrite Hsfn.
    cbn [mbind result_bind Py.bind]. fold flag. destruct flag; reflexivity.
  - unfold spark_column_condition_partial. rewrite Hspark.
    cbn [mbind result_bind Py.bind]. rewrite (getitem_Some _ _ _ Hcol).
    cbn [mbind result_bind Py.bind].
    rewrite (check_column_exists_present column columns) by assumption.
    cbn [mbind result_bind Py.bind spark_getitem].
    rewrite (bool_decide_eq_true_2 (column ∈ spark_columns data)) by exact Hdata.
    cbn [mbind result_bind Py.bind]. rewrite Hpfn.
    cbn [mbind result_bind Py.bind].
    rewrite (bool_decide_eq_false_2 (MAP_CONDITION_FN = WINDOW_CONDITION_FN))
      by discriminate.
    fold flag. destruct flag; reflexivity.
  - unfold spark_column_condition_partial. rewrite Hspark.
    cbn [mbind result_bind Py.bind]. rewrite (getitem_Some _ _ _ Hcol).
    cbn [mbind result_bind Py.bind].
    rewrite (check_column_exists_present column columns) by assumption.
    cbn [mbind result_bind Py.bind spark_getitem].
    rewrite (bool_decide_eq_true_2 (column ∈ spark_columns data)) by exact Hdata.
    cbn [mbind result_bind Py.bind]. rewrite Hpfn.
    cbn [mbind result_bind Py.bind].
    rewrite (bool_decide_eq_true_2 (WINDOW_CONDITION_FN = WINDOW_CONDITION_FN))
      by reflexivity.
    fold flag. reflexivity.
  - intros interp row. destruct flag; cbn [eval eval_v not3 fmap option_fmap
      option_map]; destruct (row column) as [v|] eqn:E; cbn [negb];
      rewrite ?and3_true_l, ?and3_false_l;
      (split; [reflexivity|split; [|split]]); try reflexivity;
      try discriminate; try (intros; congruence);
      intros _ _ ->; split; [reflexivity | discriminate].
Qed.

(** The sum of the CASE values counts the rows on which the condition is
    true. *)
Lemma sum_case_count {V : Type} (interp : string -> cell V -> option bool)
    (condition : bexpr) (rows : list (string -> cell V)) :
  fold_right Z.add 0%Z (map (case_value interp condition) rows)
  = Z.of_nat
      (length (List.filter
                 (fun row => match eval interp row condition with
                             | Some true => true
                             | _ => false
                             end) rows)).
Proof.
  induction rows as [|row rows IH]; [reflexivity|].
  cbn [map fold_right List.filter]. rewrite IH. unfold case_value.
  destruct (eval interp row condition) as [[]|]; cbn [length]; lia.
Qed.

(** X12.  The aggregate form of the unexpected count
    ([SUM(CASE WHEN condition THEN 1 ELSE 0 END)], built by the SQLAlchemy
    and Spark aggregate providers from the stored condition, with the
    domain kwargs passed on unchanged) counts, over a table with at least
    one row, the rows on which the stored condition is true; for the
    condition a column condition partial stores under
    [filter_column_isnull], these are the rows whose column holds a value
    and on which the business predicate is false: a row on which the
    predicate is unknown is not counted. *)
Theorem aggregate_counts_false_rows {V : Type} (metrics : Metrics bexpr)
    (condition : bexpr) (compute accessor : kwargs) :
  unexpected_condition metrics = Some (condition, compute, accessor) ->
  _map_condition_unexpected_count_aggregate_fn metrics
  = Ok (SumCase condition, compute, accessor)
  /\ (forall (interp : string -> cell V -> option bool) rows,
        rows <> [] ->
        eval_aggregate interp rows (SumCase condition)
        = Some (Z.of_nat
                  (length (List.filter
                             (fun row =>
                                match eval interp row condition with
                                | Some true => true
                                | _ => false
                                end) rows))))
  /\ (forall (interp : string -> cell V -> option bool) rows column meets,
        condition = And (Not (IsNull (Column column))) (Not meets) ->
        rows <> [] ->
        eval_aggregate interp rows (SumCase condition)
        = Some (Z.of_nat
                  (length (List.filter
                             (fun row =>
                                is_value (row column)
                                && match eval interp row meets with
                                   | Some false => true
                                   | _ => false
                                   end) rows)))).
Proof.
  intros Hm.
  assert (Hsum : forall (interp : string -> cell V -> option bool) rows,
    rows <> [] ->
    eval_aggregate interp rows (SumCase condition)
    = Some (Z.of_nat
              (length (List.filter
                         (fun row => match eval interp row condition with
                                     | Some true => true
                                     | _ => false
                                     end) rows)))).
  { intros interp rows Hne. unfold eval_aggregate.
    destruct rows as [|row rows]; [congruence|].
    rewrite sum_case_count. reflexivity. }
  split; [|split].
  - unfold _map_condition_unexpected_count_aggregate_fn,
      metrics_get_unexpected_condition. rewrite Hm. reflexivity.
  - exact Hsum.
  - intros interp rows column meets -> Hne. rewrite (Hsum interp rows Hne).
    do 3 f_equal. apply filter_ext. intros row. cbn [eval eval_v].
    destruct (row column) as [v|]; cbn [is_value not3 fmap option_fmap
      option_map negb andb];
      destruct (eval interp row meets) as [[]|]; reflexivity.
Qed.

Lemma count_true_negb (bs : list bool) :
  count_true (map negb bs) + count_true bs = length bs.
Proof.
  unfold count_true. induction bs as [|b bs IH]; [reflexivity|].
  cbn [map length]. destruct b; cbn [negb].
  - rewrite filter_cons_False by discriminate.
    rewrite filter_cons_True by reflexivity. cbn [length]. lia.
  - rewrite filter_cons_True by reflexivity.
    rewrite filter_cons_False by discriminate. cbn [length]. lia.
Qed.

(** X13.  On the in-memory backend the unexpected rows and the rows that
    meet the expectation partition the domain rows: the count the
    unexpected-count provider returns for the condition a column condition
    partial stored, plus the number of rows on which the business function
    answered true, is the number of rows the business function answered
    for; when that function keeps the index of its column, this is the
    number of domain rows (after the null rows were dropped, when
    [filter_column_isnull] is set). *)
Theorem unexpected_and_expected_partition {V : Type}
    (kw : option bool) (cls : ProviderClass)
    (metric_domain_kwargs metric_value_kwargs : kwargs)
    (compute_domain_kwargs accessor_domain_kwargs : kwargs)
    (columns : list string) (column : string)
    (pandas_engine : ExecutionEngine (DataFrame V)) (df : DataFrame V)
    (pandas_fn : Series (cell V) -> kwargs -> Metrics (Series bool)
                 -> result (Series bool))
    (pandas_metrics : Metrics (Series bool))
    (stored : Series bool * kwargs * kwargs) :
  let rows := domain_rows (get_filter_column_isnull kw cls true) df column in
  accessor_domain_kwargs !! "column" = Some (PStr column) ->
  column ∈ columns ->
  table_columns pandas_metrics = Some columns ->
  get_compute_domain pandas_engine metric_domain_kwargs COLUMN
    = Ok (df, compute_domain_kwargs, accessor_domain_kwargs) ->
  column ∈ df_columns df ->
  pandas_column_condition_partial kw pandas_fn cls pandas_engine
    metric_domain_kwargs metric_value_kwargs pandas_metrics = Ok stored ->
  exists meets unexpected_count,
    pandas_fn (map (fun r => (r.1, r.2 column)) rows) metric_value_kwargs
      pandas_metrics = Ok meets
    /\ (forall value_kwargs domain_kwargs table_columns,
          _pandas_map_condition_unexpected_count cls pandas_engine
            domain_kwargs value_kwargs (mkMetrics (Some stored) table_columns)
          = Ok unexpected_count)
    /\ unexpected_count + count_nonzero meets = length meets
    /\ (meets.*1 = rows.*1 -> unexpected_count + count_nonzero meets = length rows).
Proof.
  intros rows Hcol Hin Hpm Hpd Hdf Hrun.
  rewrite (pandas_condition_partial_run kw cls metric_domain_kwargs
             metric_value_kwargs compute_domain_kwargs accessor_domain_kwargs
             columns column pandas_engine df pandas_fn pandas_metrics
             Hcol Hin Hpm Hpd Hdf) in Hrun.
  fold rows in Hrun.
  destruct (pandas_fn _ _ _) as [meets|e] eqn:E; [|discriminate].
  cbn [mbind result_bind Py.bind] in Hrun. injection Hrun as <-.
  exists meets, (count_nonzero (map (fun e => (e.1, negb e.2)) meets)).
  assert (Hsum : count_nonzero (map (fun e => (e.1, negb e.2)) meets)
                 + count_nonzero meets = length meets).
  { unfold count_nonzero.
    replace ((map (fun e : label * bool => (e.1, negb e.2)) meets).*2)
      with (map negb meets.*2)
      by (unfold fmap; rewrite !List.map_map; reflexivity).
    rewrite count_true_negb, length_fmap. reflexivity. }
  split; [reflexivity|]. split; [reflexivity|]. split; [exact Hsum|].
  intros Hidx. rewrite Hsum.
  rewrite <- (length_fmap fst meets), Hidx, length_fmap. reflexivity.
Qed.

Import Examples EngineExamples.

Lemma query_conditions_agree_age :
  exists c_sql c_spark,
    sqlalchemy_column_condition_partial None positive_sql default_class
      (fixed_sql_engine age_accessor) example_domain_kwargs ∅
      (mkMetrics None (Some ["age"]))
    = Ok (c_sql, age_compute, age_accessor)
    /\ spark_column_condition_partial None MAP_CONDITION_FN positive_spark
         default_class (fixed_spark_engine age_accessor) example_domain_kwargs
         ∅ (mkMetrics None (Some ["age"]))
       = Ok (c_spark, age_compute, age_accessor)
    /\ eval positive_interp (age_row None) c_sql
       = eval positive_interp (age_row None) c_spark
    /\ eval positive_interp (age_row None) c_sql = Some false.
Proof.
  destruct (query_conditions_agree (V := Z) None default_class
              example_domain_kwargs ∅ age_compute age_accessor ["age"] "age"
              (fixed_sql_engine age_accessor) tt positive_sql
              (fixed_spark_engine age_accessor) (mkSparkDataFrame ["age"])
              positive_spark (mkMetrics None (Some ["age"]))
              (Pred "positive" (Column "age")))
    as (c_sql & c_spark & Hsql & Hspark & _ & Hrows);
    [reflexivity | repeat constructor | reflexivity | reflexivity | reflexivity
    | repeat constructor | reflexivity | reflexivity |].
  exists c_sql, c_spark. split; [exact Hsql|]. split; [exact Hspark|].
  destruct (Hrows positive_interp (age_row None)) as (Hsame & Hnull & _).
  split; [exact Hsame|]. apply Hnull; reflexivity.
Defined.

Lemma aggregate_counts_false_rows_age :
  _map_condition_unexpected_count_aggregate_fn
    (mkMetrics
       (Some (And (Not (IsNull (Column "age")))
                (Not (Pred "positive" (Column "age"))),
              age_compute, age_accessor)) (Some ["age"]))
  = Ok (SumCase (And (Not (IsNull (Column "age")))
                   (Not (Pred "positive" (Column "age")))),
        age_compute, age_accessor)
  /\ eval_aggregate positive_interp
       [age_row (Some 10%Z); age_row (Some (-20)%Z); age_row None]
       (SumCase (And (Not (IsNull (Column "age")))
                   (Not (Pred "positive" (Column "age")))))
     = Some 1%Z.
Proof.
  destruct (aggregate_counts_false_rows (V := Z)
              (mkMetrics
                 (Some (And (Not (IsNull (Column "age")))
                          (Not (Pred "positive" (Column "age"))),
                        age_compute, age_accessor)) (Some ["age"]))
              (And (Not (IsNull (Column "age")))
                 (Not (Pred "positive" (Column "age"))))
              age_compute age_accessor eq_refl) as [Hfn [Hsum _]].
  split; [exact Hfn|].
  apply (Hsum positive_interp
           [age_row (Some 10%Z); age_row (Some (-20)%Z); age_row None]).
  discriminate.
Defined.

Lemma unexpected_and_expected_partition_age :
  exists meets unexpected_count,
    gt15_series
      (map (fun r : label * (string -> cell Z) => (r.1, r.2 "age"))
         (domain_rows true age_frame "age")) ∅
      (mkMetrics None (Some ["age"])) = Ok meets
    /\ (forall value_kwargs domain_kwargs table_columns,
          _pandas_map_condition_unexpected_count default_class
            (fixed_engine age_accessor) domain_kwargs value_kwargs
            (mkMetrics
               (Some ([(0%Z, true); (1%Z, false); (3%Z, false)], age_compute,
                      age_accessor)) table_columns)
          = Ok unexpected_count)
    /\ unexpected_count + count_nonzero meets = length meets
    /\ (meets.*1 = (domain_rows true age_frame "age").*1 ->
        unexpected_count + count_nonzero meets
        = length (domain_rows true age_frame "age")).
Proof.
  apply (unexpected_and_expected_partition None default_class
           example_domain_kwargs ∅ age_compute age_accessor ["age"] "age"
           (fixed_engine age_accessor) age_frame gt15_series
           (mkMetrics None (Some ["age"])));
    try reflexivity; repeat constructor.
Defined.

End ConditionsTheory.

(** ** The in-memory providers: index list and rows *)

Module IndexTheory.
Import Deps Frames Providers FramesTheory ProvidersTheory.

Section PandasColumn.
Context {V : Type}.
Variables (kw : option bool) (cls : ProviderClass).
Variable execution_engine : ExecutionEngine (DataFrame V).
Variables metric_domain_kwargs metric_value_kwargs : kwargs.
Variables (mask : Series bool) (compute accessor domain_kwargs : kwargs).
Variables (columns : list string) (column : string) (df : DataFrame V).
Variables result_format format : pyval.

Let metrics : Metrics (Series bool) :=
  mkMetrics (Some (mask, compute, accessor)) (Some columns).
Let rows := domain_rows (get_filter_column_isnull kw cls false) df column.

Hypothesis Hmerge : dict_merge compute accessor = Ok domain_kwargs.
Hypothesis Hrecords : get_domain_records execution_engine domain_kwargs = Ok df.
Hypothesis Hcompute : get_domain_records execution_engine compute = Ok df.
Hypothesis Hcolumn : accessor !! "column" = Some (PStr column).
Hypothesis Hcolumns : column ∈ columns.
Hypothesis Hframe : column ∈ df_columns df.
Hypothesis Haligned : mask.*1 = rows.*1.
Hypothesis Hformat : metric_value_kwargs !! "result_format" = Some result_format.
Hypothesis Hname : py_getitem_str result_format "result_format" = Ok format.

(** The frame the index and the rows providers select from. *)
Lemma accessor_columns_checked :
  check_accessor_columns (get_filter_column_isnull kw cls false) accessor
    metrics df
  = Ok (mkDataFrame (df_columns df) rows).
Proof.
  unfold check_accessor_columns.
  rewrite bool_decide_eq_true_2 by (eapply key_in_dom; exact Hcolumn).
  rewrite (getitem_Some _ _ _ Hcolumn). cbn [mbind result_bind Py.bind].
  rewrite (check_column_exists_present column columns) by (reflexivity || assumption).
  cbn [mbind result_bind Py.bind].
  apply pandas_domain_frame, Hframe.
Qed.

Lemma mask_selects_rows :
  df_getitem_mask (mkDataFrame (df_columns df) rows) mask
  = Ok (mkDataFrame (df_columns df) (select rows mask.*2)).
Proof.
  unfold df_getitem_mask, df_index. cbn [df_rows df_columns].
  rewrite check_bool_indexer_aligned by exact Haligned. reflexivity.
Qed.

Lemma pandas_index_run :
  _pandas_map_condition_index kw cls execution_engine metric_domain_kwargs
    metric_value_kwargs metrics
  = (if py_eq_str format "COMPLETE" then Ok (select rows mask.*2).*1
     else
       partial_unexpected_count ←
         py_getitem_str result_format "partial_unexpected_count";
       bound ← py_slice_bound partial_unexpected_count;
       Ok (slice_to_bound (select rows mask.*2).*1 bound)).
Proof.
  unfold _pandas_map_condition_index, metrics_get_unexpected_condition.
  cbn [metrics unexpected_condition mbind result_bind Py.bind].
  rewrite Hmerge. cbn [mbind result_bind Py.bind]. rewrite Hrecords.
  cbn [mbind result_bind Py.bind].
  change (mkMetrics (Some (mask, compute, accessor)) (Some columns)) with metrics.
  rewrite accessor_columns_checked. cbn [mbind result_bind Py.bind].
  rewrite (getitem_Some _ _ _ Hformat). cbn [mbind result_bind Py.bind].
  rewrite mask_selects_rows. cbn [mbind result_bind Py.bind]. rewrite Hname.
  cbn [mbind result_bind Py.bind]. reflexivity.
Qed.

Lemma pandas_rows_run :
  _pandas_map_condition_rows kw cls execution_engine metric_domain_kwargs
    metric_value_kwargs metrics
  = (if py_eq_str format "COMPLETE"
     then Ok (mkDataFrame (df_columns df) (select rows mask.*2))
     else
       partial_unexpected_count ←
         py_getitem_str result_format "partial_unexpected_count";
       bound ← py_slice_bound partial_unexpected_count;
       Ok (mkDataFrame (df_columns df)
             (slice_to_bound (select rows mask.*2) bound))).
Proof.
  unfold _pandas_map_condition_rows, metrics_get_unexpected_condition.
  cbn [metrics unexpected_condition mbind result_bind Py.bind].
  rewrite Hmerge. cbn [mbind result_bind Py.bind]. rewrite Hrecords.
  cbn [mbind result_bind Py.bind].
  change (mkMetrics (Some (mask, compute, accessor)) (Some columns)) with metrics.
  rewrite accessor_columns_checked. cbn [mbind result_bind Py.bind].
  rewrite (getitem_Some _ _ _ Hformat). cbn [mbind result_bind Py.bind].
  rewrite mask_selects_rows. cbn [mbind result_bind Py.bind]. rewrite Hname.
  cbn [mbind result_bind Py.bind]. reflexivity.
Qed.

Lemma column_values_of_rows (l : list (label * (string -> cell V))) :
  (map (fun r : label * (string -> cell V) => (r.1, r.2 column)) l).*2
  = map (fun r => r.2 column) l.
Proof.
  induction l as [|r l IH]; [reflexivity|].
  cbn [map fmap list_fmap snd]. f_equal. exact IH.
Qed.

Lemma pandas_values_run :
  _pandas_column_map_condition_values kw cls execution_engine
    metric_domain_kwargs metric_value_kwargs metrics
  = (if py_eq_str format "COMPLETE"
     then Ok (map (fun r => r.2 column) (select rows mask.*2))
     else
       partial_unexpected_count ←
         py_getitem_str result_format "partial_unexpected_count";
       bound ← py_slice_bound partial_unexpected_count;
       Ok (map (fun r => r.2 column)
             (slice_to_bound (select rows mask.*2) bound))).
Proof.
  unfold _pandas_column_map_condition_values, metrics_unexpected_condition.
  cbn [metrics unexpected_condition mbind result_bind Py.bind].
  rewrite Hcompute. cbn [mbind result_bind Py.bind].
  rewrite bool_decide_eq_false_2
    by (intros Hn; apply Hn; eapply key_in_dom; exact Hcolumn).
  rewrite (getitem_Some _ _ _ Hcolumn). cbn [mbind result_bind Py.bind].
  rewrite (check_column_exists_present column columns) by (reflexivity || assumption).
  cbn [mbind result_bind Py.bind].
  rewrite (pandas_domain_frame _ df column Hframe).
  cbn [mbind result_bind Py.bind df_getitem_py].
  unfold df_getitem. cbn [df_columns df_rows].
  rewrite bool_decide_eq_true_2 by exact Hframe.
  cbn [mbind result_bind Py.bind]. fold rows.
  rewrite series_getitem_mask_aligned
    by (rewrite Haligned; unfold fmap; rewrite List.map_map; reflexivity).
  cbn [mbind result_bind Py.bind].
  rewrite (getitem_Some _ _ _ Hformat). cbn [mbind result_bind Py.bind].
  rewrite Hname. cbn [mbind result_bind Py.bind].
  assert (Hsel : select (map (fun r : label * (string -> cell V) =>
                                (r.1, r.2 column)) rows) mask.*2
                 = map (fun r => (r.1, r.2 column)) (select rows mask.*2)).
  { symmetry. apply (select_fmap (fun r : label * (string -> cell V) =>
                                    (r.1, r.2 column))). }
  rewrite Hsel.
  destruct (py_eq_str format "COMPLETE").
  - unfold series_to_list. rewrite column_values_of_rows. reflexivity.
  - destruct (py_getitem_str result_format "partial_unexpected_count")
      as [p|e]; [|reflexivity].
    cbn [mbind result_bind Py.bind].
    destruct (py_slice_bound p) as [bound|e]; [|reflexivity].
    cbn [mbind result_bind Py.bind]. f_equal. unfold series_to_list.
    destruct bound as [n|]; cbn [slice_to_bound].
    + unfold slice_to. rewrite !length_map.
      destruct (n <? 0)%Z; rewrite <- !List.firstn_map;
        rewrite column_values_of_rows; reflexivity.
    + rewrite column_values_of_rows. reflexivity.
Qed.

End PandasColumn.

(** X14.  On the in-memory backend the unexpected index list and the
    unexpected values correspond position by position: with the result
    format COMPLETE the index provider returns the index labels of the
    unexpected rows and the values provider the column values of those same
    rows, in row order; with another format and a cap [n] of at least 0 both
    are cut to the first [n] of these rows.  So the i-th value is the value
    at the i-th label. *)
Theorem index_list_matches_values {V : Type}
    (kw : option bool) (cls : ProviderClass)
    (execution_engine : ExecutionEngine (DataFrame V))
    (metric_domain_kwargs metric_value_kwargs : kwargs)
    (mask : Series bool) (compute accessor domain_kwargs : kwargs)
    (columns : list string) (column : string) (df : DataFrame V)
    (result_format format : pyval) :
  let metrics := mkMetrics (Some (mask, compute, accessor)) (Some columns) in
  let rows := domain_rows (get_filter_column_isnull kw cls false) df column in
  let unexpected_rows := select rows mask.*2 in
  dict_merge compute accessor = Ok domain_kwargs ->
  get_domain_records execution_engine domain_kwargs = Ok df ->
  get_domain_records execution_engine compute = Ok df ->
  accessor !! "column" = Some (PStr column) ->
  column ∈ columns ->
  column ∈ df_columns df ->
  mask.*1 = rows.*1 ->
  metric_value_kwargs !! "result_format" = Some result_format ->
  py_getitem_str result_format "result_format" = Ok format ->
  (py_eq_str format "COMPLETE" = true ->
   _pandas_map_condition_index kw cls execution_engine metric_domain_kwargs
     metric_value_kwargs metrics = Ok unexpected_rows.*1
   /\ _pandas_column_map_condition_values kw cls execution_engine
        metric_domain_kwargs metric_value_kwargs metrics
      = Ok (map (fun r => r.2 column) unexpected_rows))
  /\ (forall n : Z,
        py_eq_str format "COMPLETE" = false ->
        py_getitem_str result_format "partial_unexpected_count" = Ok (PInt n) ->
        (0 <= n)%Z ->
        _pandas_map_condition_index kw cls execution_engine
          metric_domain_kwargs metric_value_kwargs metrics
        = Ok (firstn (Z.to_nat n) unexpected_rows).*1
        /\ _pandas_column_map_condition_values kw cls execution_engine
             metric_domain_kwargs metric_value_kwargs metrics
           = Ok (map (fun r => r.2 column)
                   (firstn (Z.to_nat n) unexpected_rows))).
Proof.
  intros metrics rows unexpected_rows Hmerge Hrec Hcomp Hcol Hcols Hframe Hal
    Hrf Hname.
  subst metrics.
  rewrite (pandas_index_run kw cls execution_engine metric_domain_kwargs
             metric_value_kwargs mask compute accessor domain_kwargs columns
             column df result_format format Hmerge Hrec Hcol Hcols Hframe Hal
             Hrf Hname).
  rewrite (pandas_values_run kw cls execution_engine metric_domain_kwargs
             metric_value_kwargs mask compute accessor columns column df
             result_format format Hcomp Hcol Hcols Hframe Hal Hrf Hname).
  fold rows. fold unexpected_rows. split.
  - intros ->. split; reflexivity.
  - intros n -> -> Hpos. cbn [mbind result_bind Py.bind py_slice_bound
      slice_to_bound].
    rewrite !slice_to_nonneg by exact Hpos.
    rewrite <- fmap_take. split; reflexivity.
Qed.

(** X15.  On the in-memory backend the rows provider returns the domain
    frame cut down to the unexpected rows, with all its columns and in row
    order: with the result format COMPLETE as many rows as the unexpected
    count, with another format and a cap [n] of at least 0 the first [n] of
    them. *)
Theorem unexpected_rows_frame {V : Type}
    (kw : option bool) (cls : ProviderClass)
    (execution_engine : ExecutionEngine (DataFrame V))
    (metric_domain_kwargs metric_value_kwargs : kwargs)
    (mask : Series bool) (compute accessor domain_kwargs : kwargs)
    (columns : list string) (column : string) (df : DataFrame V)
    (result_format format : pyval) :
  let metrics := mkMetrics (Some (mask, compute, accessor)) (Some columns) in
  let rows := domain_rows (get_filter_column_isnull kw cls false) df column in
  let unexpected_rows := select rows mask.*2 in
  dict_merge compute accessor = Ok domain_kwargs ->
  get_domain_records execution_engine domain_kwargs = Ok df ->
  accessor !! "column" = Some (PStr column) ->
  column ∈ columns ->
  column ∈ df_columns df ->
  mask.*1 = rows.*1 ->
  metric_value_kwargs !! "result_format" = Some result_format ->
  py_getitem_str result_format "result_format" = Ok format ->
  length unexpected_rows = count_nonzero mask
  /\ (py_eq_str format "COMPLETE" = true ->
      _pandas_map_condition_rows kw cls execution_engine metric_domain_kwargs
        metric_value_kwargs metrics
      = Ok (mkDataFrame (df_columns df) unexpected_rows))
  /\ (forall n : Z,
        py_eq_str format "COMPLETE" = false ->
        py_getitem_str result_format "partial_unexpected_count" = Ok (PInt n) ->
        (0 <= n)%Z ->
        _pandas_map_condition_rows kw cls execution_engine
          metric_domain_kwargs metric_value_kwargs metrics
        = Ok (mkDataFrame (df_columns df)
                (firstn (Z.to_nat n) unexpected_rows))).
Proof.
  intros metrics rows unexpected_rows Hmerge Hrec Hcol Hcols Hframe Hal
    Hrf Hname.
  subst metrics.
  rewrite (pandas_rows_run kw cls execution_engine metric_domain_kwargs
             metric_value_kwargs mask compute accessor domain_kwargs columns
             column df result_format format Hmerge Hrec Hcol Hcols Hframe Hal
             Hrf Hname).
  fold rows. fold unexpected_rows. split; [|split].
  - unfold unexpected_rows, count_nonzero. apply length_select.
    rewrite <- (length_fmap fst rows), <- Hal, !length_fmap. reflexivity.
  - intros ->. reflexivity.
  - intros n -> -> Hpos. cbn [mbind result_bind Py.bind py_slice_bound
      slice_to_bound].
    rewrite slice_to_nonneg by exact Hpos. reflexivity.
Qed.

Import Examples.

Lemma index_list_matches_values_age :
  _pandas_map_condition_index None no_filter_class (fixed_engine age_accessor)
    example_domain_kwargs basic_value_kwargs
    (mkMetrics (Some (age_null_mask, age_compute, age_accessor)) (Some ["age"]))
  = Ok [2%Z]
  /\ _pandas_column_map_condition_values None no_filter_class
       (fixed_engine age_accessor) example_domain_kwargs basic_value_kwargs
       (mkMetrics (Some (age_null_mask, age_compute, age_accessor))
          (Some ["age"]))
     = Ok [None].
Proof.
  destruct (index_list_matches_values None no_filter_class
              (fixed_engine age_accessor) example_domain_kwargs
              basic_value_kwargs age_null_mask age_compute age_accessor
              (age_compute ∪ age_accessor) ["age"] "age" age_frame
              basic_result_format (PStr "BASIC")) as [_ Hcut];
    [reflexivity | reflexivity | reflexivity | reflexivity
    | repeat constructor | repeat constructor | reflexivity | reflexivity
    | reflexivity |].
  apply (Hcut 10%Z); [reflexivity | reflexivity | lia].
Defined.

Lemma unexpected_rows_frame_age :
  _pandas_map_condition_rows None no_filter_class (fixed_engine age_accessor)
    example_domain_kwargs basic_value_kwargs
    (mkMetrics (Some (age_null_mask, age_compute, age_accessor)) (Some ["age"]))
  = Ok (mkDataFrame ["age"] [(2%Z, age_row None)]).
Proof.
  destruct (unexpected_rows_frame None no_filter_class
              (fixed_engine age_accessor) example_domain_kwargs
              basic_value_kwargs age_null_mask age_compute age_accessor
              (age_compute ∪ age_accessor) ["age"] "age" age_frame
              basic_result_format (PStr "BASIC")) as [_ [_ Hcut]];
    [reflexivity | reflexivity | reflexivity | repeat constructor
    | repeat constructor | reflexivity | reflexivity | reflexivity |].
  apply (Hcut 10%Z); [reflexivity | reflexivity | lia].
Defined.

End IndexTheory.

(** ** The in-memory providers of the column-pair domain *)

Module PairTheory.
Import Deps Frames Providers Params MoreProviders PandasEngine FramesTheory
       ProvidersTheory PandasEngineTheory.

Lemma dict_merge_lookup (a b merged : kwargs) (key : string) (v : pyval) :
  dict_merge a b = Ok merged -> b !! key = Some v -> merged !! key = Some v.
Proof.
  unfold dict_merge. intros Hm Hb.
  destruct (bool_decide (dom a ∩ dom b = ∅)) eqn:E; [|discriminate].
  injection Hm as <-. apply bool_decide_eq_true_1 in E.
  assert (Ha : a !! key = None).
  { destruct (a !! key) as [w|] eqn:Ea; [|reflexivity]. exfalso.
    assert (Hin : key ∈ dom a ∩ dom b).
    { apply elem_of_intersection. split; apply elem_of_dom; eauto. }
    rewrite E in Hin. apply elem_of_empty in Hin. exact Hin. }
  rewrite lookup_union_r by exact Ha. exact Hb.
Qed.

Section Pair.
Context {V : Type}.

(** X16.  The filtered row count of a column-pair metric on the in-memory
    engine is the number of rows the [ignore_row_if] directive leaves: with
    [both_values_are_missing] the rows in which one of the two columns holds
    a value, with [either_value_is_missing] the rows in which both do, with
    [neither] or [never] all the rows of the batch; the stored condition
    plays no part in it. *)
Theorem pair_filtered_row_count (cls : ProviderClass)
    (self : PandasExecutionEngine_obj V)
    (metric_domain_kwargs metric_value_kwargs : kwargs)
    (metrics : Metrics (Series bool)) (mask : Series bool)
    (compute accessor domain_kwargs : kwargs) (data : DataFrame V)
    (columns : list string) (column_A column_B ignore_row_if : string) :
  unexpected_condition metrics = Some (mask, compute, accessor) ->
  table_columns metrics = Some columns ->
  dict_merge compute accessor = Ok domain_kwargs ->
  py_truthy (kwargs_get domain_kwargs "table") = false ->
  batch_data self domain_kwargs = Ok data ->
  py_truthy (kwargs_get domain_kwargs "row_condition") = false ->
  domain_kwargs !! "column" = None ->
  accessor !! "column_A" = Some (PStr column_A) ->
  accessor !! "column_B" = Some (PStr column_B) ->
  domain_kwargs !! "ignore_row_if" = Some (PStr ignore_row_if) ->
  column_A ∈ columns -> column_B ∈ columns ->
  column_A ∈ df_columns data -> column_B ∈ df_columns data ->
  _pandas_column_pair_map_condition_filtered_row_count cls (as_engine self)
    metric_domain_kwargs metric_value_kwargs metrics
  = if String.eqb ignore_row_if "both_values_are_missing" then
      Ok (length (List.filter (fun r => is_value (r.2 column_A)
                                        || is_value (r.2 column_B))
                    (df_rows data)))
    else if String.eqb ignore_row_if "either_value_is_missing" then
      Ok (length (List.filter (fun r => is_value (r.2 column_A)
                                        && is_value (r.2 column_B))
                    (df_rows data)))
    else if bool_decide (ignore_row_if ∈ ["neither"; "never"])
    then Ok (length (df_rows data))
    else Raise ValueError.
Proof.
  intros Hm Hcols Hmerge Ht Hb Hr Hc HA HB Hi HcA HcB HdA HdB.
  pose proof (dict_merge_lookup _ _ _ _ _ Hmerge HA) as HA'.
  pose proof (dict_merge_lookup _ _ _ _ _ Hmerge HB) as HB'.
  unfold _pandas_column_pair_map_condition_filtered_row_count,
    metrics_unexpected_condition.
  rewrite Hm. cbn [mbind result_bind Py.bind]. rewrite Hmerge.
  cbn [mbind result_bind Py.bind as_engine Providers.get_domain_records].
  rewrite (pair_records self domain_kwargs data column_A column_B ignore_row_if
             Ht Hb Hr Hc HA' HB' Hi HdA HdB).
  assert (Hcheck : check_columns_exist [PStr column_A; PStr column_B] metrics
                   = Ok tt).
  { unfold check_columns_exist. cbn [traverse].
    rewrite !(check_column_exists_present _ columns) by assumption.
    reflexivity. }
  assert (Hkeys : negb (bool_decide ("column_A" ∈ dom domain_kwargs)
                        && bool_decide ("column_B" ∈ dom domain_kwargs))
                  = false).
  { rewrite !bool_decide_eq_true_2 by (eapply key_in_dom; eassumption).
    reflexivity. }
  destruct (String.eqb ignore_row_if "both_values_are_missing");
    [|destruct (String.eqb ignore_row_if "either_value_is_missing");
      [|destruct (bool_decide (ignore_row_if ∈ ["neither"; "never"]))]];
    cbn [mbind result_bind Py.bind]; try reflexivity;
    rewrite Hkeys, (getitem_Some _ _ _ HA), (getitem_Some _ _ _ HB);
    cbn [mbind result_bind Py.bind]; rewrite Hcheck; reflexivity.
Qed.

(** X17.  The unexpected values of a column-pair metric on the in-memory
    backend are the pairs (value of column A, value of column B) of the
    unexpected rows, in row order: all of them with the result format
    COMPLETE, the first [n] with another format and a cap [n] of at least
    0. *)
Theorem pair_unexpected_values (cls : ProviderClass)
    (execution_engine : ExecutionEngine (DataFrame V))
    (metric_domain_kwargs metric_value_kwargs : kwargs)
    (mask : Series bool) (compute accessor domain_kwargs : kwargs)
    (columns : list string) (column_A column_B : string) (df : DataFrame V)
    (result_format format : pyval) :
  let metrics := mkMetrics (Some (mask, compute, accessor)) (Some columns) in
  let unexpected :=
    map (fun r => (r.2 column_A, r.2 column_B)) (select (df_rows df) mask.*2) in
  dict_merge compute accessor = Ok domain_kwargs ->
  Providers.get_domain_records execution_engine domain_kwargs = Ok df ->
  accessor !! "column_A" = Some (PStr column_A) ->
  accessor !! "column_B" = Some (PStr column_B) ->
  column_A <> column_B ->
  column_A ∈ columns -> column_B ∈ columns ->
  column_A ∈ df_columns df -> column_B ∈ df_columns df ->
  mask.*1 = df_index df ->
  metric_value_kwargs !! "result_format" = Some result_format ->
  py_getitem_str result_format "result_format" = Ok format ->
  (py_eq_str format "COMPLETE" = true ->
   _pandas_column_pair_map_condition_values cls execution_engine
     metric_domain_kwargs metric_value_kwargs metrics = Ok unexpected)
  /\ (forall n : Z,
        py_eq_str format "COMPLETE" = false ->
        py_getitem_str result_format "partial_unexpected_count" = Ok (PInt n) ->
        (0 <= n)%Z ->
        _pandas_column_pair_map_condition_values cls execution_engine
          metric_domain_kwargs metric_value_kwargs metrics
        = Ok (firstn (Z.to_nat n) unexpected)).
Proof.
  intros metrics unexpected Hmerge Hrec HA HB Hne HcA HcB HdA HdB Hal Hrf Hname.
  pose proof (dict_merge_lookup _ _ _ _ _ Hmerge HA) as HA'.
  pose proof (dict_merge_lookup _ _ _ _ _ Hmerge HB) as HB'.
  assert (Hrun :
    _pandas_column_pair_map_condition_values cls execution_engine
      metric_domain_kwargs metric_value_kwargs metrics
    = (if py_eq_str format "COMPLETE" then Ok unexpected
       else
         partial_unexpected_count ←
           py_getitem_str result_format "partial_unexpected_count";
         bound ← py_slice_bound partial_unexpected_count;
         Ok (slice_to_bound unexpected bound))).
  { unfold _pandas_column_pair_map_condition_values,
      metrics_unexpected_condition.
    cbn [metrics unexpected_condition mbind result_bind Py.bind].
    rewrite Hmerge. cbn [mbind result_bind Py.bind]. rewrite Hrec.
    cbn [mbind result_bind Py.bind].
    rewrite !bool_decide_eq_true_2 by (eapply key_in_dom; eassumption).
    cbn [andb negb].
    rewrite (getitem_Some _ _ _ HA), (getitem_Some _ _ _ HB).
    cbn [mbind result_bind Py.bind].
    unfold check_columns_exist. cbn [traverse].
    rewrite !(check_column_exists_present _ columns) by (reflexivity || assumption).
    cbn [mbind result_bind Py.bind].
    unfold df_getitem_list. cbn [traverse].
    rewrite !bool_decide_eq_true_2 by assumption.
    cbn [mbind result_bind Py.bind].
    unfold df_getitem_mask, df_index. cbn [df_rows df_columns].
    rewrite series_eq_True_id.
    rewrite check_bool_indexer_aligned by exact Hal.
    cbn [mbind result_bind Py.bind].
    rewrite (getitem_Some _ _ _ Hrf). cbn [mbind result_bind Py.bind].
    unfold df_getitem_py, df_getitem. cbn [df_columns df_rows].
    rewrite !bool_decide_eq_true_2 by (repeat constructor).
    cbn [mbind result_bind Py.bind]. rewrite Hname.
    cbn [mbind result_bind Py.bind].
    assert (Hzip : zip
      (series_to_list (map (fun r : label * (string -> cell V) =>
                              (r.1, r.2 column_A)) (select (df_rows df) mask.*2)))
      (series_to_list (map (fun r : label * (string -> cell V) =>
                              (r.1, r.2 column_B)) (select (df_rows df) mask.*2)))
      = unexpected).
    { subst unexpected. unfold series_to_list.
      induction (select (df_rows df) mask.*2) as [|r l IH]; [reflexivity|].
      cbn [map fmap list_fmap snd zip zip_with] in *. f_equal. exact IH. }
    rewrite Hzip. reflexivity. }
  rewrite Hrun. split.
  - intros ->. reflexivity.
  - intros n -> -> Hpos.
    cbn [mbind result_bind Py.bind py_slice_bound slice_to_bound].
    rewrite slice_to_nonneg by exact Hpos. reflexivity.
Qed.

End Pair.

Import Examples EngineExamples.

Lemma pair_filtered_row_count_either :
  _pandas_column_pair_map_condition_filtered_row_count default_class
    (as_engine pair_engine) ∅ ∅
    (mkMetrics
       (Some ([(0%Z, false)],
              {[ "batch_id" := PStr "b1";
                 "ignore_row_if" := PStr "either_value_is_missing" ]},
              {[ "column_A" := PStr "a"; "column_B" := PStr "b" ]}))
       (Some ["a"; "b"]))
  = Ok 1.
Proof.
  rewrite (pair_filtered_row_count default_class pair_engine ∅ ∅ _
             [(0%Z, false)]
             {[ "batch_id" := PStr "b1";
                "ignore_row_if" := PStr "either_value_is_missing" ]}
             {[ "column_A" := PStr "a"; "column_B" := PStr "b" ]}
             (pair_domain_kwargs "a" "b" "either_value_is_missing")
             pair_frame ["a"; "b"] "a" "b" "either_value_is_missing");
    [reflexivity | reflexivity | reflexivity | reflexivity | reflexivity
    | reflexivity | reflexivity | reflexivity | reflexivity | reflexivity
    | reflexivity | repeat constructor | repeat constructor
    | repeat constructor | repeat constructor].
Defined.

Lemma pair_unexpected_values_neither :
  _pandas_column_pair_map_condition_values default_class
    (as_engine pair_engine) ∅ basic_value_kwargs
    (mkMetrics
       (Some ([(0%Z, false); (1%Z, true); (2%Z, true); (3%Z, false)],
              {[ "batch_id" := PStr "b1"; "ignore_row_if" := PStr "neither" ]},
              {[ "column_A" := PStr "a"; "column_B" := PStr "b" ]}))
       (Some ["a"; "b"]))
  = Ok [(None, Some 3%Z); (None, None)].
Proof.
  destruct (pair_unexpected_values default_class (as_engine pair_engine) ∅
              basic_value_kwargs
              [(0%Z, false); (1%Z, true); (2%Z, true); (3%Z, false)]
              {[ "batch_id" := PStr "b1"; "ignore_row_if" := PStr "neither" ]}
              {[ "column_A" := PStr "a"; "column_B" := PStr "b" ]}
              (pair_domain_kwargs "a" "b" "neither") ["a"; "b"] "a" "b"
              pair_frame basic_result_format (PStr "BASIC")) as [_ Hcut];
    [reflexivity | reflexivity | reflexivity | reflexivity | discriminate
    | repeat constructor | repeat constructor | repeat constructor
    | repeat constructor | reflexivity | reflexivity | reflexivity |].
  apply (Hcut 10%Z); [reflexivity | reflexivity | lia].
Defined.

End PairTheory.

(** ** The parameter namespace: conversions, independent and conflicting
    writes, absent names *)

Module ParamsExtra.
Import Frames Params ParamsMore ParamsTheory.

Abbreviation to_dictionaries := convert_parameter_nodes_to_dictionaries.

Lemma no_dict_convert (v : pyval) : no_dict v = true -> convert v = v.
Proof.
  induction v as [ | | | | l IH | d IH | d IH] using pyval_ind'; simpl;
    try reflexivity; try discriminate.
  intros H. f_equal. induction IH as [|x l Hx _ IHl]; [reflexivity|].
  simpl in H. apply andb_prop in H as [H1 H2]. simpl.
  rewrite (Hx H1), (IHl H2). reflexivity.
Qed.

(** X18.  The two conversions of the parameter namespace are inverse to
    each other up to lists: converting the [ParameterNode]s of a converted
    value back to dictionaries and converting again gives the converted
    value; a value of plain dictionaries none of which is inside a list
    comes back unchanged from the two conversions; but the conversion back
    does not enter lists, so the dictionaries of a list stay
    [ParameterNode]s. *)
Theorem conversions_round_trip (v : pyval) :
  convert (to_dictionaries (convert v)) = convert v
  /\ (dicts_outside_lists v = true -> to_dictionaries (convert v) = v)
  /\ (forall l, to_dictionaries (convert (PList l)) = PList (map convert l)).
Proof.
  split; [|split].
  - induction v as [ | | | | l IH | d IH | d IH] using pyval_ind'; simpl;
      try reflexivity.
    + f_equal. rewrite List.map_map. apply List.map_ext. intros x.
      apply convert_idempotent.
    + f_equal. rewrite !List.map_map.
      induction IH as [|[k x] d H _ IHd]; simpl; [reflexivity|].
      simpl in H. rewrite H, IHd. reflexivity.
    + f_equal. rewrite !List.map_map.
      induction IH as [|[k x] d H _ IHd]; simpl; [reflexivity|].
      simpl in H. rewrite H, IHd. reflexivity.
  - induction v as [ | | | | l IH | d IH | d IH] using pyval_ind'; simpl;
      try reflexivity; try discriminate.
    + intros H. f_equal. clear IH.
      induction l as [|x l IHl]; [reflexivity|].
      simpl in H. apply andb_prop in H as [H1 H2]. simpl.
      rewrite (no_dict_convert x H1), (IHl H2). reflexivity.
    + intros H. f_equal. rewrite List.map_map.
      induction IH as [|[k x] d Hx _ IHd]; simpl; [reflexivity|].
      simpl in H, Hx. apply andb_prop in H as [H1 H2].
      rewrite (Hx H1), (IHd H2). reflexivity.
  - reflexivity.
Qed.

Lemma conversions_round_trip_nested :
  to_dictionaries
    (convert (PDict [("a", PDict [("b", PInt 1)]); ("c", PList [PInt 2])]))
  = PDict [("a", PDict [("b", PInt 1)]); ("c", PList [PInt 2])].
Proof.
  apply (proj1 (proj2 (conversions_round_trip
                         (PDict [("a", PDict [("b", PInt 1)]);
                                 ("c", PList [PInt 2])])))).
  reflexivity.
Defined.

(** *** Writes on paths that part ways *)

Lemma dict_get_set_ne (d : dict) (k k' : string) (v : pyval) :
  String.eqb k' k = false -> dict_get (dict_set d k v) k' = dict_get d k'.
Proof.
  intros Hne. induction d as [|[k0 w] d IH]; simpl.
  - rewrite String.eqb_sym, Hne. reflexivity.
  - destruct (String.eqb k0 k) eqn:E; simpl.
    + apply String.eqb_eq in E. subst k0.
      rewrite String.eqb_sym, Hne. reflexivity.
    + destruct (String.eqb k0 k'); [reflexivity | exact IH].
Qed.

Lemma resolve_part_identifier_eq (p : string) (d : dict) :
  is_identifier p = true ->
  resolve_part p (PNode d)
  = match dict_get d p with
    | Some x => Ok (x, PNode d, p)
    | None => Raise KeyError
    end.
Proof.
  intros Hp. unfold resolve_part. rewrite (parse_identifier p Hp). simpl.
  destruct (dict_get d p); reflexivity.
Qed.

(** The node a write returns is the node written to, with the entry of the
    first part of the path set. *)
Lemma build_head (d : dict) (b : string) (rest : list string) (v node' : pyval) :
  _build_parameter_node_tree_for_one_parameter (PNode d) (b :: rest) v = Ok node' ->
  exists y, node' = PNode (dict_set d b y).
Proof.
  destruct rest as [|q rest].
  - simpl. intros H. injection H as <-. eexists. reflexivity.
  - rewrite build_below.
    destruct (_build_parameter_node_tree_for_one_parameter _ (q :: rest) v)
      as [child'|e]; [|discriminate].
    intros H. injection H as <-. eexists. reflexivity.
Qed.

(** The child a write goes through, when the path goes on below a normal
    node, is a normal node. *)
Lemma build_child (d : dict) (p q : string) (rest : list string)
    (v node' : pyval) :
  convert (PNode d) = PNode d ->
  _build_parameter_node_tree_for_one_parameter (PNode d) (p :: q :: rest) v
    = Ok node' ->
  exists c child',
    default (PNode []) (dict_get d p) = PNode c
    /\ convert (PNode c) = PNode c
    /\ _build_parameter_node_tree_for_one_parameter (PNode c) (q :: rest) v
       = Ok child'
    /\ node' = PNode (dict_set d p child').
Proof.
  intros Hd Hb. rewrite build_below in Hb.
  assert (Hchild : exists c, default (PNode []) (dict_get d p) = PNode c
                             /\ convert (PNode c) = PNode c).
  { destruct (dict_get d p) as [x|] eqn:Eg.
    - pose proof (normal_node_get d p x Hd Eg) as Hx.
      destruct x as [ | | | | | | c];
        try (exfalso; destruct rest; simpl in Hb; discriminate);
        try (exfalso; simpl in Hx; discriminate).
      exists c. split; [reflexivity | exact Hx].
    - exists []. split; reflexivity. }
  destruct Hchild as (c & Hc & Hn). rewrite Hc in Hb.
  destruct (_build_parameter_node_tree_for_one_parameter (PNode c)
              (q :: rest) v) as [child'|e] eqn:E; [|discriminate].
  injection Hb as <-. exists c, child'. repeat split; assumption.
Qed.

(** A write leaves what a path that parts ways with the written one
    reaches. *)
Lemma build_keeps_other_paths (names1 : list string) :
  forall (names2 : list string) (d : dict) (v node' : pyval)
         (parent1 parent2 : pyval) (ref1 ref2 : string)
         (x par : pyval) (r : string),
    diverge names1 names2 = true ->
    forallb is_identifier names1 = true ->
    convert (PNode d) = PNode d ->
    _build_parameter_node_tree_for_one_parameter (PNode d) names2 v = Ok node' ->
    resolve_parts names1 (PNode d, parent1, ref1) = Ok (x, par, r) ->
    py_contains par r = Ok true ->
    exists par',
      resolve_parts names1 (node', parent2, ref2) = Ok (x, par', r)
      /\ py_contains par' r = Ok true.
Proof.
  induction names1 as [|a rest1 IH];
    intros names2 d v node' parent1 parent2 ref1 ref2 x par r Hdiv Hid Hd Hb
      Hres Hin; [discriminate|].
  destruct names2 as [|b rest2]; [discriminate|].
  simpl in Hid. apply andb_prop in Hid as [Ha Hrest].
  cbn [resolve_parts mbind result_bind Py.bind fst] in Hres |- *.
  rewrite (resolve_part_identifier_eq a d Ha) in Hres.
  destruct (dict_get d a) as [xa|] eqn:Eg; [|discriminate].
  cbn [mbind result_bind Py.bind] in Hres.
  cbn [diverge] in Hdiv. destruct (String.eqb a b) eqn:E.
  - apply String.eqb_eq in E. subst b.
    destruct rest1 as [|a1 rest1]; [discriminate|].
    destruct rest2 as [|b2 rest2]; [destruct a1; discriminate|].
    destruct (build_child d a b2 rest2 v node' Hd Hb)
      as (c & child' & Hc & Hn & Hbc & ->).
    rewrite Eg in Hc. simpl in Hc. subst xa.
    rewrite (resolve_part_identifier_eq a _ Ha), dict_get_set.
    cbn [mbind result_bind Py.bind].
    exact (IH (b2 :: rest2) c v child' (PNode d) _ a a x par r Hdiv Hrest Hn
             Hbc Hres Hin).
  - destruct (build_head d b rest2 v node' Hb) as (y & ->).
    rewrite (resolve_part_identifier_eq a _ Ha), (dict_get_set_ne d b a y E), Eg.
    cbn [mbind result_bind Py.bind].
    destruct rest1 as [|a1 rest1].
    + cbn [resolve_parts] in Hres |- *. injection Hres as <- <- <-.
      eexists. split; [reflexivity|].
      cbn [py_contains]. unfold dict_contains.
      rewrite (dict_get_set_ne d b a y E), Eg. reflexivity.
    + exists par. split; [exact Hres | exact Hin].
Qed.

(** A write leaves a path that parts ways with the written one missing, if
    it was missing. *)
Lemma build_keeps_missing_paths (names1 : list string) :
  forall (names2 : list string) (d : dict) (v node' : pyval)
         (parent1 parent2 : pyval) (ref1 ref2 : string),
    diverge names1 names2 = true ->
    forallb is_identifier names1 = true ->
    convert (PNode d) = PNode d ->
    _build_parameter_node_tree_for_one_parameter (PNode d) names2 v = Ok node' ->
    resolve_parts names1 (PNode d, parent1, ref1) = Raise KeyError ->
    resolve_parts names1 (node', parent2, ref2) = Raise KeyError.
Proof.
  induction names1 as [|a rest1 IH];
    intros names2 d v node' parent1 parent2 ref1 ref2 Hdiv Hid Hd Hb Hres;
    [discriminate|].
  destruct names2 as [|b rest2]; [discriminate|].
  simpl in Hid. apply andb_prop in Hid as [Ha Hrest].
  cbn [resolve_parts mbind result_bind Py.bind fst] in Hres |- *.
  rewrite (resolve_part_identifier_eq a d Ha) in Hres.
  cbn [diverge] in Hdiv. destruct (String.eqb a b) eqn:E.
  - apply String.eqb_eq in E. subst b.
    destruct rest1 as [|a1 rest1]; [discriminate|].
    destruct rest2 as [|b2 rest2]; [destruct a1; discriminate|].
    destruct (build_child d a b2 rest2 v node' Hd Hb)
      as (c & child' & Hc & Hn & Hbc & ->).
    rewrite (resolve_part_identifier_eq a _ Ha), dict_get_set.
    cbn [mbind result_bind Py.bind].
    apply (IH (b2 :: rest2) c v child' (PNode d) _ a a Hdiv Hrest Hn Hbc).
    destruct (dict_get d a) as [xa|] eqn:Eg.
    + simpl in Hc. subst xa. exact Hres.
    + simpl in Hc. injection Hc as <-.
      simpl in Hrest. apply andb_prop in Hrest as [Ha1 _].
      cbn [resolve_parts mbind result_bind Py.bind fst].
      rewrite (resolve_part_identifier_eq a1 _ Ha1). reflexivity.
  - destruct (build_head d b rest2 v node' Hb) as (y & ->).
    rewrite (resolve_part_identifier_eq a _ Ha), (dict_get_set_ne d b a y E).
    destruct (dict_get d a) as [xa|] eqn:Eg; [|reflexivity].
    cbn [mbind result_bind Py.bind] in Hres |- *.
    destruct rest1 as [|a1 rest1]; [discriminate | exact Hres].
Qed.

(** One write under [$parameter]: the root node before and after. *)
Lemma build_one_root (container container' : ParameterContainer)
    (names : list string) (v : pyval) :
  forallb no_separator names = true -> names <> [] ->
  build_one_parameter container (PARAMETER_KEY +:+ join "." names) v
    = Ok container' ->
  exists d0 d',
    default (PNode []) (get_parameter_node container "parameter") = PNode d0
    /\ convert (PNode d0) = PNode d0
    /\ _build_parameter_node_tree_for_one_parameter (PNode d0)
         ("parameter" :: names) v = Ok (PNode d')
    /\ convert (PNode d') = PNode d'
    /\ container' = set_parameter_node container "parameter" d'.
Proof.
  intros Hsep Hne Hb.
  assert (Hsplit : split_on "."%char
                     (drop_first 1 (PARAMETER_KEY +:+ join "." names))
                   = "parameter" :: names).
  { destruct names as [|p ps]; [congruence|].
    change (drop_first 1 (PARAMETER_KEY +:+ join "." (p :: ps)))
      with ("parameter" +:+ "." +:+ join "." (p :: ps)).
    rewrite split_on_app by reflexivity.
    rewrite split_on_join by exact Hsep. reflexivity. }
  rewrite build_one_parameter_unfold, Hsplit in Hb.
  destruct (get_parameter_node_normal container "parameter") as (d0 & Hd0 & Hn0).
  cbn [mbind result_bind Py.bind] in Hb. rewrite Hd0 in Hb.
  destruct (_build_parameter_node_tree_for_one_parameter (PNode d0)
              ("parameter" :: names) v) as [node'|e] eqn:E; [|discriminate].
  destruct (build_normal _ d0 v node' Hn0 E) as (d' & -> & Hn').
  injection Hb as <-. exists d0, d'. repeat split; assumption.
Qed.

(** Reading a name of [$parameter] in a container whose root node is
    known. *)
Lemma read_root (container : ParameterContainer) (names : list string)
    (d : dict) (domain : Domain) (variables : option ParameterContainer)
    (parameters : option (list (string * option ParameterContainer))) :
  forallb no_separator names = true -> names <> [] ->
  parameters_getitem (Some domain) parameters = Ok (Some container) ->
  get_parameter_node container "parameter" = Some (PNode d) ->
  get_parameter_value_by_fully_qualified_parameter_name
    (PARAMETER_KEY +:+ join "." names) (Some domain) variables parameters
  = ('(return_value, parent_parameter_node, attribute_value_reference) ←
       match resolve_parts ("parameter" :: names) (PNode d, PNone, EmptyString) with
       | Raise KeyError => Raise KeyError
       | r => r
       end;
     present ← py_contains parent_parameter_node attribute_value_reference;
     if negb present then Raise KeyError else Ok return_value).
Proof.
  intros Hsep Hne Hparams Hnode.
  assert (Hsplit : split_on "."%char
                     (drop_first 1 (PARAMETER_KEY +:+ join "." names))
                   = "parameter" :: names).
  { destruct names as [|p ps]; [congruence|].
    change (drop_first 1 (PARAMETER_KEY +:+ join "." (p :: ps)))
      with ("parameter" +:+ "." +:+ join "." (p :: ps)).
    rewrite split_on_app by reflexivity.
    rewrite split_on_join by exact Hsep. reflexivity. }
  rewrite read_parameter_unfold, Hparams, Hsplit.
  cbn [mbind result_bind Py.bind].
  unfold _get_parameter_value_from_parameter_container.
  cbn [mbind result_bind Py.bind]. rewrite Hnode. reflexivity.
Qed.

Lemma diverge_nonempty (names1 names2 : list string) :
  diverge names1 names2 = true -> names1 <> [] /\ names2 <> [].
Proof.
  destruct names1, names2; try discriminate. intros _. split; discriminate.
Qed.

(** X19.  Two writes on paths of bare identifiers that part ways (neither
    is a prefix of the other) do not disturb each other: after
    [build_parameter_container] wrote [v] under the first name and [w]
    under the second, reading the first name returns [v] and reading the
    second returns [w] (with their dictionaries turned into
    [ParameterNode]s), whatever the container held before. *)
Theorem separate_writes_both_readable (names1 names2 : list string)
    (v w : pyval) (container container' : ParameterContainer) (domain : Domain)
    (variables : option ParameterContainer)
    (parameters : option (list (string * option ParameterContainer))) :
  let name1 := PARAMETER_KEY +:+ join "." names1 in
  let name2 := PARAMETER_KEY +:+ join "." names2 in
  forallb is_identifier names1 = true ->
  forallb is_identifier names2 = true ->
  diverge names1 names2 = true ->
  build_parameter_container container [(name1, v); (name2, w)] = Ok container' ->
  parameters_getitem (Some domain) parameters = Ok (Some container') ->
  get_parameter_value_by_fully_qualified_parameter_name name1 (Some domain)
    variables parameters = Ok (convert v)
  /\ get_parameter_value_by_fully_qualified_parameter_name name2 (Some domain)
       variables parameters = Ok (convert w).
Proof.
  intros name1 name2 Hid1 Hid2 Hdiv Hbuild Hparams. subst name1 name2.
  destruct (diverge_nonempty _ _ Hdiv) as [Hne1 Hne2].
  pose proof (forallb_identifier_no_separator _ Hid1) as Hsep1.
  pose proof (forallb_identifier_no_separator _ Hid2) as Hsep2.
  cbn [build_parameter_container mbind result_bind Py.bind] in Hbuild.
  destruct (build_one_parameter container _ v) as [c1|e] eqn:E1; [|discriminate].
  cbn [mbind result_bind Py.bind] in Hbuild.
  destruct (build_one_parameter c1 _ w) as [c2|e] eqn:E2; [|discriminate].
  cbn [mbind result_bind Py.bind] in Hbuild. injection Hbuild as <-.
  destruct (build_one_root _ _ _ _ Hsep1 Hne1 E1)
    as (d0 & d1 & Hd0 & Hn0 & Hb1 & Hn1 & ->).
  destruct (build_one_root _ _ _ _ Hsep2 Hne2 E2)
    as (d1' & d2 & Hd1 & _ & Hb2 & Hn2 & ->).
  rewrite (get_parameter_node_set container "parameter" d1 Hn1) in Hd1.
  simpl in Hd1. injection Hd1 as <-.
  pose proof (get_parameter_node_set
                (set_parameter_node container "parameter" d1) "parameter" d2 Hn2)
    as Hnode.
  rewrite (read_root _ names1 d2 domain variables parameters Hsep1 Hne1
             Hparams Hnode).
  rewrite (read_root _ names2 d2 domain variables parameters Hsep2 Hne2
             Hparams Hnode).
  assert (Hid1' : forallb is_identifier ("parameter" :: names1) = true)
    by exact Hid1.
  assert (Hid2' : forallb is_identifier ("parameter" :: names2) = true)
    by exact Hid2.
  split.
  - destruct (build_then_resolve _ d0 v (PNode d1) PNone EmptyString Hid1' Hn0 Hb1)
      as (par & r & Hres & Hin).
    assert (Hdiv' : diverge ("parameter" :: names1) ("parameter" :: names2) = true)
      by exact Hdiv.
    destruct (build_keeps_other_paths _ _ d1 w (PNode d2) PNone PNone EmptyString
                EmptyString (convert v) par r Hdiv' Hid1' Hn1 Hb2 Hres Hin)
      as (par' & Hres' & Hin').
    rewrite Hres'. cbn [mbind result_bind Py.bind]. rewrite Hin'. reflexivity.
  - destruct (build_then_resolve _ d1 w (PNode d2) PNone EmptyString Hid2' Hn1 Hb2)
      as (par & r & Hres & Hin).
    rewrite Hres. cbn [mbind result_bind Py.bind]. rewrite Hin. reflexivity.
Qed.

(** *** A name below a value that is no dictionary *)

Lemma convert_keeps_class (x : pyval) :
  is_dictionary x = false -> is_dictionary (convert x) = false.
Proof. destruct x; simpl; congruence. Qed.

Lemma build_below_value (x : pyval) (q : string) (qs : list string) (v : pyval) :
  is_dictionary x = false ->
  _build_parameter_node_tree_for_one_parameter x (q :: qs) v = Raise TypeError.
Proof. destruct x, qs; simpl; congruence. Qed.

(** Below the place a value that is no dictionary was written to, nothing
    can be written. *)
Lemma build_below_leaf (names : list string) :
  forall (d d' : dict) (x v : pyval) (q : string) (qs : list string),
    convert (PNode d) = PNode d ->
    is_dictionary x = false ->
    _build_parameter_node_tree_for_one_parameter (PNode d) names x
      = Ok (PNode d') ->
    _build_parameter_node_tree_for_one_parameter (PNode d')
      (names ++ q :: qs) v = Raise TypeError.
Proof.
  induction names as [|p rest IH]; intros d d' x v q qs Hd Hx Hb;
    [discriminate|].
  destruct rest as [|p2 rest].
  - simpl in Hb. injection Hb as <-.
    change (([p] ++ q :: qs)%list) with (p :: q :: qs).
    rewrite build_below, dict_get_set. cbn [default from_option id].
    rewrite (build_below_value _ q qs v (convert_keeps_class x Hx)).
    reflexivity.
  - destruct (build_child d p p2 rest x (PNode d') Hd Hb)
      as (c & child' & Hc & Hn & Hbc & Heq).
    injection Heq as ->.
    destruct (build_normal _ c x child' Hn Hbc) as (c' & -> & _).
    change (((p :: p2 :: rest) ++ q :: qs)%list)
      with (p :: p2 :: (rest ++ q :: qs)%list).
    rewrite build_below, dict_get_set. cbn [default from_option id].
    change (p2 :: (rest ++ q :: qs)%list) with (((p2 :: rest) ++ q :: qs)%list).
    rewrite (IH c c' x v q qs Hn Hx Hbc). reflexivity.
Qed.

(** X20.  A name cannot be written below a name that holds a value which
    is no dictionary: once [build_parameter_container] wrote such a value
    under [$parameter.p1...pn], writing any value under a longer name
    [$parameter.p1...pn.q1...qm] raises [TypeError], in a later call as
    well as later in the same call. *)
Theorem write_below_value_fails (names : list string) (q : string)
    (qs : list string) (x v : pyval)
    (container container' : ParameterContainer) :
  let name := PARAMETER_KEY +:+ join "." names in
  let longer := PARAMETER_KEY +:+ join "." (names ++ q :: qs) in
  forallb no_separator (names ++ q :: qs) = true ->
  names <> [] ->
  is_dictionary x = false ->
  build_parameter_container container [(name, x)] = Ok container' ->
  build_parameter_container container' [(longer, v)] = Raise TypeError
  /\ build_parameter_container container [(name, x); (longer, v)]
     = Raise TypeError.
Proof.
  intros name longer Hsep Hne Hx Hbuild. subst name longer.
  assert (Hsep1 : forallb no_separator names = true).
  { rewrite forallb_app in Hsep. apply andb_prop in Hsep as [H _]. exact H. }
  assert (Hne2 : (names ++ q :: qs)%list <> []).
  { destruct names; discriminate. }
  cbn [build_parameter_container mbind result_bind Py.bind] in Hbuild |- *.
  destruct (build_one_parameter container _ x) as [c1|e] eqn:E1; [|discriminate].
  cbn [mbind result_bind Py.bind] in Hbuild |- *. injection Hbuild as <-.
  destruct (build_one_root _ _ _ _ Hsep1 Hne E1)
    as (d0 & d1 & Hd0 & Hn0 & Hb1 & Hn1 & ->).
  assert (Hfail : build_one_parameter
                    (set_parameter_node container "parameter" d1)
                    (PARAMETER_KEY +:+ join "." (names ++ q :: qs)) v
                  = Raise TypeError).
  { destruct (build_one_parameter _ _ v) as [c2|e] eqn:E2.
    - destruct (build_one_root _ _ _ _ Hsep Hne2 E2)
        as (d1' & d2 & Hd1 & _ & Hb2 & _ & _).
      rewrite (get_parameter_node_set container "parameter" d1 Hn1) in Hd1.
      simpl in Hd1. injection Hd1 as <-.
      change ("parameter" :: (names ++ q :: qs)%list)
        with ((("parameter" :: names) ++ q :: qs)%list) in Hb2.
      rewrite (build_below_leaf _ d0 d1 x v q qs Hn0 Hx Hb1) in Hb2.
      discriminate.
    - revert E2. rewrite build_one_parameter_unfold.
      assert (Hsplit : split_on "."%char
                (drop_first 1
                   (PARAMETER_KEY +:+ join "." (names ++ q :: qs)))
              = "parameter" :: (names ++ q :: qs)%list).
      { destruct (names ++ q :: qs)%list as [|p ps] eqn:En; [congruence|].
        change (drop_first 1 (PARAMETER_KEY +:+ join "." (p :: ps)))
          with ("parameter" +:+ "." +:+ join "." (p :: ps)).
        rewrite split_on_app by reflexivity.
        rewrite split_on_join by exact Hsep. reflexivity. }
      rewrite Hsplit. cbn [mbind result_bind Py.bind].
      rewrite (get_parameter_node_set container "parameter" d1 Hn1).
      cbn [default from_option id].
      change ("parameter" :: (names ++ q :: qs)%list)
        with ((("parameter" :: names) ++ q :: qs)%list).
      rewrite (build_below_leaf _ d0 d1 x v q qs Hn0 Hx Hb1).
      cbn [mbind result_bind Py.bind]. congruence. }
  rewrite Hfail. split; reflexivity.
Qed.

(** *** Names that were never written *)

(** X21.  Reading a name of bare identifiers that was never written
    returns [None] from a container nothing was written to, and raises
    [KeyError] once [build_parameter_container] wrote into that container a
    name of [$parameter] that parts ways with it: the answer for an absent
    name depends on whether its namespace exists. *)
Theorem absent_name_none_then_key_error (names1 names2 : list string)
    (v : pyval) (container' : ParameterContainer) (domain : Domain)
    (variables : option ParameterContainer)
    (before after : option (list (string * option ParameterContainer))) :
  let name1 := PARAMETER_KEY +:+ join "." names1 in
  let name2 := PARAMETER_KEY +:+ join "." names2 in
  forallb is_identifier names1 = true ->
  forallb no_separator names2 = true ->
  diverge names1 names2 = true ->
  parameters_getitem (Some domain) before = Ok (Some (mkContainer None)) ->
  build_parameter_container (mkContainer None) [(name2, v)] = Ok container' ->
  parameters_getitem (Some domain) after = Ok (Some container') ->
  get_parameter_value_by_fully_qualified_parameter_name name1 (Some domain)
    variables before = Ok PNone
  /\ get_parameter_value_by_fully_qualified_parameter_name name1 (Some domain)
       variables after = Raise KeyError.
Proof.
  intros name1 name2 Hid1 Hsep2 Hdiv Hbefore Hbuild Hafter. subst name1 name2.
  destruct (diverge_nonempty _ _ Hdiv) as [Hne1 Hne2].
  pose proof (forallb_identifier_no_separator _ Hid1) as Hsep1.
  split.
  - rewrite read_parameter_unfold, Hbefore.
    cbn [mbind result_bind Py.bind].
    destruct names1 as [|p ps]; [congruence|].
    rewrite (parameter_name_split p ps Hid1). reflexivity.
  - cbn [build_parameter_container mbind result_bind Py.bind] in Hbuild.
    destruct (build_one_parameter _ _ v) as [c1|e] eqn:E1; [|discriminate].
    cbn [mbind result_bind Py.bind] in Hbuild. injection Hbuild as <-.
    destruct (build_one_root _ _ _ _ Hsep2 Hne2 E1)
      as (d0 & d1 & Hd0 & Hn0 & Hb1 & Hn1 & ->).
    simpl in Hd0. injection Hd0 as <-.
    rewrite (read_root _ names1 d1 domain variables after Hsep1 Hne1 Hafter
               (get_parameter_node_set (mkContainer None) "parameter" d1 Hn1)).
    assert (Hid1' : forallb is_identifier ("parameter" :: names1) = true)
      by exact Hid1.
    assert (Hdiv' : diverge ("parameter" :: names1) ("parameter" :: names2) = true)
      by exact Hdiv.
    rewrite (build_keeps_missing_paths _ _ [] v (PNode d1) PNone PNone
               EmptyString EmptyString Hdiv' Hid1' Hn0 Hb1 eq_refl).
    reflexivity.
Qed.

Import Examples.

Lemma separate_writes_both_readable_a_b :
  exists built,
    build_parameter_container (mkContainer None)
      [("$parameter.a.b", PInt 1); ("$parameter.a.c", PInt 2)] = Ok built
    /\ get_parameter_value_by_fully_qualified_parameter_name "$parameter.a.b"
         (Some example_domain) None (parameters_of built) = Ok (PInt 1)
    /\ get_parameter_value_by_fully_qualified_parameter_name "$parameter.a.c"
         (Some example_domain) None (parameters_of built) = Ok (PInt 2).
Proof.
  eexists. split; [reflexivity|].
  apply (separate_writes_both_readable ["a"; "b"] ["a"; "c"] (PInt 1) (PInt 2)
           (mkContainer None) _ example_domain None (parameters_of _)
           eq_refl eq_refl eq_refl eq_refl eq_refl).
Defined.

Lemma write_below_value_fails_a_b :
  exists built,
    build_parameter_container (mkContainer None) [("$parameter.a", PInt 1)]
    = Ok built
    /\ build_parameter_container built [("$parameter.a.b", PInt 2)]
       = Raise TypeError.
Proof.
  eexists. split; [reflexivity|].
  apply (proj1 (write_below_value_fails ["a"] "b" [] (PInt 1) (PInt 2)
                  (mkContainer None) _ eq_refl ltac:(discriminate) eq_refl
                  eq_refl)).
Defined.

Lemma absent_name_none_then_key_error_a_b :
  get_parameter_value_by_fully_qualified_parameter_name "$parameter.a"
    (Some example_domain) None (parameters_of (mkContainer None)) = Ok PNone
  /\ exists built,
       build_parameter_container (mkContainer None) [("$parameter.b", PInt 2)]
       = Ok built
       /\ get_parameter_value_by_fully_qualified_parameter_name "$parameter.a"
            (Some example_domain) None (parameters_of built) = Raise KeyError.
Proof.
  pose proof (absent_name_none_then_key_error ["a"] ["b"] (PInt 2) _
                example_domain None (parameters_of (mkContainer None))
                (parameters_of _) eq_refl eq_refl eq_refl eq_refl eq_refl
                eq_refl) as [Hnone Herror].
  split; [exact Hnone|]. eexists. split; [reflexivity | exact Herror].
Defined.

End ParamsExtra.

(** ** The variables of a profiler configuration *)

Module VariablesTheory.
Import Frames Params ParamsMore ParamsTheory ParamsExtra.

Lemma dict_set_absent (d : dict) (k : string) (v : pyval) :
  dict_get d k = None -> dict_set d k v = (d ++ [(k, v)])%list.
Proof.
  induction d as [|[k0 w] d IH]; simpl; [reflexivity|].
  destruct (String.eqb k0 k); [discriminate|].
  intros H. rewrite (IH H). reflexivity.
Qed.

Lemma dict_get_app_absent (d : dict) (k k' : string) (v : pyval) :
  String.eqb k k' = false -> dict_get d k' = None ->
  dict_get (d ++ [(k, v)])%list k' = None.
Proof.
  intros Hne. induction d as [|[k0 w] d IH]; simpl.
  - rewrite Hne. reflexivity.
  - destruct (String.eqb k0 k'); [discriminate | exact IH].
Qed.

Lemma prefix_cancel (p s t : string) : p +:+ s = p +:+ t -> s = t.
Proof.
  induction p as [|a p IH]; intros H; [exact H|].
  injection H as H. exact (IH H).
Qed.

(** The names of the variables, in the order of the configuration: the
    keys of a dictionary are distinct, so no entry is overwritten. *)
Lemma variables_parameter_values (configs : list (string * pyval)) :
  forall acc : dict,
    NoDup configs.*1 ->
    (forall k, k ∈ configs.*1 -> dict_get acc (VARIABLES_KEY +:+ k) = None) ->
    fold_left (fun acc e => dict_set acc (VARIABLES_KEY +:+ e.1) e.2) configs acc
    = (acc ++ map (fun e => (VARIABLES_KEY +:+ e.1, e.2)) configs)%list.
Proof.
  induction configs as [|[k v] configs IH]; intros acc Hnd Hacc.
  - simpl. rewrite app_nil_r. reflexivity.
  - cbn [fold_left fst snd map]. rewrite fmap_cons in Hnd, Hacc.
    apply NoDup_cons in Hnd as [Hk Hnd].
    rewrite dict_set_absent by (apply Hacc; left).
    rewrite IH.
    + rewrite <- app_assoc. reflexivity.
    + exact Hnd.
    + intros k' Hk'. apply dict_get_app_absent; [|apply Hacc; right; exact Hk'].
      destruct (String.eqb (VARIABLES_KEY +:+ k) (VARIABLES_KEY +:+ k')) eqn:E;
        [|reflexivity].
      apply String.eqb_eq in E. apply prefix_cancel in E. subst k'.
      contradiction.
Qed.

Lemma written_keeps (configs : list (string * pyval)) :
  forall (c : dict) (k : string),
    k ∉ configs.*1 -> dict_get (written configs c) k = dict_get c k.
Proof.
  induction configs as [|[k0 v0] configs IH]; intros c k Hk; [reflexivity|].
  rewrite fmap_cons in Hk. apply not_elem_of_cons in Hk as [Hne Hk].
  cbn [written fold_left fst snd]. fold (written configs (dict_set c k0 (convert v0))).
  rewrite (IH _ k Hk). apply dict_get_set_ne.
  destruct (String.eqb k k0) eqn:E; [|reflexivity].
  apply String.eqb_eq in E. contradiction.
Qed.

Lemma written_get (configs : list (string * pyval)) :
  forall (c : dict) (k : string) (v : pyval),
    NoDup configs.*1 -> (k, v) ∈ configs ->
    dict_get (written configs c) k = Some (convert v).
Proof.
  induction configs as [|[k0 v0] configs IH]; intros c k v Hnd Hin.
  - apply elem_of_nil in Hin. contradiction.
  - rewrite fmap_cons in Hnd. apply NoDup_cons in Hnd as [Hk0 Hnd].
    cbn [written fold_left fst snd].
    fold (written configs (dict_set c k0 (convert v0))).
    apply elem_of_cons in Hin as [Heq | Hin].
    + injection Heq as -> ->.
      rewrite (written_keeps configs _ k0 Hk0). apply dict_get_set.
    + exact (IH _ k v Hnd Hin).
Qed.

Lemma normal_child (d c : dict) (k : string) :
  convert (PNode d) = PNode d ->
  default (PNode []) (dict_get d k) = PNode c ->
  convert (PNode c) = PNode c.
Proof.
  intros Hd Hc. destruct (dict_get d k) as [x|] eqn:E; simpl in Hc.
  - subst x. exact (normal_node_get d k _ Hd E).
  - injection Hc as <-. reflexivity.
Qed.

(** One variable written. *)
Lemma build_one_variable (container : ParameterContainer) (d c : dict)
    (k : string) (v : pyval) :
  default (PNode []) (get_parameter_node container "variables") = PNode d ->
  default (PNode []) (dict_get d "variables") = PNode c ->
  no_separator k = true ->
  build_one_parameter container (VARIABLES_KEY +:+ k) v
  = Ok (set_parameter_node container "variables"
          (dict_set d "variables" (PNode (dict_set c k (convert v))))).
Proof.
  intros Hd Hc Hk. unfold build_one_parameter.
  change (validate_fully_qualified_parameter_name (VARIABLES_KEY +:+ k))
    with (@Ok unit tt).
  cbn [mbind result_bind Py.bind].
  change (drop_first 1 (VARIABLES_KEY +:+ k)) with ("variables" +:+ "." +:+ k).
  rewrite split_on_app by reflexivity.
  rewrite (split_on_no_separator k Hk).
  cbn [mbind result_bind Py.bind]. rewrite Hd.
  cbn [_build_parameter_node_tree_for_one_parameter]. rewrite Hc.
  reflexivity.
Qed.

(** All the variables written, one after the other. *)
Lemma build_variables (configs : list (string * pyval)) :
  forall (container : ParameterContainer) (d c : dict),
    configs <> [] ->
    forallb no_separator configs.*1 = true ->
    default (PNode []) (get_parameter_node container "variables") = PNode d ->
    convert (PNode d) = PNode d ->
    default (PNode []) (dict_get d "variables") = PNode c ->
    exists container' d',
      build_parameter_container container
        (map (fun e => (VARIABLES_KEY +:+ e.1, e.2)) configs) = Ok container'
      /\ get_parameter_node container' "variables" = Some (PNode d')
      /\ dict_get d' "variables" = Some (PNode (written configs c)).
Proof.
  induction configs as [|[k v] configs IH]; intros container d c Hne Hsep Hd Hn Hc;
    [congruence|].
  rewrite fmap_cons in Hsep. cbn [forallb fst] in Hsep.
  apply andb_prop in Hsep as [Hk Hsep].
  cbn [map fst snd build_parameter_container].
  rewrite (build_one_variable container d c k v Hd Hc Hk).
  cbn [mbind result_bind Py.bind].
  pose proof (normal_child d c "variables" Hn Hc) as Hnc.
  assert (Hn' : convert (PNode (dict_set d "variables"
                                  (PNode (dict_set c k (convert v)))))
                = PNode (dict_set d "variables"
                           (PNode (dict_set c k (convert v))))).
  { apply normal_node_set; [exact Hn|].
    apply normal_node_set; [exact Hnc | apply convert_idempotent]. }
  pose proof (get_parameter_node_set container "variables" _ Hn') as Hnode.
  destruct configs as [|e configs].
  - eexists _, _. split; [reflexivity|]. split; [exact Hnode|].
    apply dict_get_set.
  - destruct (IH (set_parameter_node container "variables"
                    (dict_set d "variables" (PNode (dict_set c k (convert v)))))
                (dict_set d "variables" (PNode (dict_set c k (convert v))))
                (dict_set c k (convert v)))
      as (container' & d' & Hb & Hnode' & Hget).
    + discriminate.
    + exact Hsep.
    + rewrite Hnode. reflexivity.
    + exact Hn'.
    + rewrite dict_get_set. reflexivity.
    + exists container', d'. split; [exact Hb|]. split; [exact Hnode'|].
      exact Hget.
Qed.

(** Reading a variable below the node [variables]. *)
Lemma read_variable (container : ParameterContainer) (d c : dict) (k : string)
    (x : pyval) (domain : option Domain)
    (parameters : option (list (string * option ParameterContainer))) :
  is_identifier k = true ->
  get_parameter_node container "variables" = Some (PNode d) ->
  dict_get d "variables" = Some (PNode c) ->
  dict_get c k = Some x ->
  get_parameter_value_by_fully_qualified_parameter_name (VARIABLES_KEY +:+ k)
    domain (Some container) parameters = Ok x.
Proof.
  intros Hid Hnode Hd Hc.
  unfold get_parameter_value_by_fully_qualified_parameter_name.
  change (validate_fully_qualified_parameter_name (VARIABLES_KEY +:+ k))
    with (@Ok unit tt).
  cbn [mbind result_bind Py.bind].
  change (String.eqb (VARIABLES_KEY +:+ k)
            DOMAIN_KWARGS_PARAMETER_FULLY_QUALIFIED_NAME) with false.
  change (startswith (VARIABLES_KEY +:+ k)
            DOMAIN_KWARGS_PARAMETER_FULLY_QUALIFIED_NAME) with false.
  change (startswith (VARIABLES_KEY +:+ k) VARIABLES_PREFIX) with true.
  cbn iota. cbn [mbind result_bind Py.bind].
  change (drop_first 1 (VARIABLES_KEY +:+ k)) with ("variables" +:+ "." +:+ k).
  rewrite split_on_app by reflexivity.
  rewrite (split_on_no_separator k (is_identifier_no_separator k Hid)).
  unfold _get_parameter_value_from_parameter_container.
  cbn [mbind result_bind Py.bind]. rewrite Hnode.
  cbn [resolve_parts mbind result_bind Py.bind fst].
  rewrite (resolve_part_identifier_eq "variables" d eq_refl), Hd.
  cbn [mbind result_bind Py.bind fst].
  rewrite (resolve_part_identifier_eq k c Hid), Hc.
  cbn [mbind result_bind Py.bind py_contains]. unfold dict_contains.
  rewrite Hc. reflexivity.
Qed.

(** X22.  Every variable of a profiler configuration can be read back:
    for a non-empty configuration whose keys are bare identifiers,
    [build_parameter_container_for_variables] returns a container, and
    reading [$variables.k] in it returns the value configured for [k] (with
    its dictionaries turned into [ParameterNode]s), whatever the domain and
    the parameters of the domains are. *)
Theorem variables_round_trip (configs : list (string * pyval)) :
  configs <> [] ->
  NoDup configs.*1 ->
  forallb is_identifier configs.*1 = true ->
  exists container,
    build_parameter_container_for_variables configs = Ok container
    /\ forall (k : string) (v : pyval) (domain : option Domain)
              (parameters : option (list (string * option ParameterContainer))),
         (k, v) ∈ configs ->
         get_parameter_value_by_fully_qualified_parameter_name
           (VARIABLES_KEY +:+ k) domain (Some container) parameters
         = Ok (convert v).
Proof.
  intros Hne Hnd Hid.
  unfold build_parameter_container_for_variables.
  rewrite (variables_parameter_values configs [] Hnd) by reflexivity.
  cbn [app].
  destruct (build_variables configs (mkContainer None) [] [] Hne
              (forallb_identifier_no_separator _ Hid) eq_refl eq_refl eq_refl)
    as (container & d & Hb & Hnode & Hget).
  exists container. split; [exact Hb|].
  intros k v domain parameters Hin.
  apply (read_variable container d (written configs []) k); try assumption.
  - rewrite forallb_forall in Hid. apply Hid.
    apply list_elem_of_In. apply (list_elem_of_fmap_2 fst _ _ Hin).
  - apply written_get; assumption.
Qed.

Lemma variables_round_trip_thresholds :
  exists container,
    build_parameter_container_for_variables
      [("alpha", PInt 5); ("limits", PDict [("max", PInt 9)])] = Ok container
    /\ get_parameter_value_by_fully_qualified_parameter_name "$variables.limits"
         None (Some container) None = Ok (PNode [("max", PInt 9)]).
Proof.
  destruct (variables_round_trip
              [("alpha", PInt 5); ("limits", PDict [("max", PInt 9)])])
    as (container & Hb & Hread).
  - discriminate.
  - apply (bool_decide_unpack _). vm_compute. exact I.
  - reflexivity.
  - exists container. split; [exact Hb|].
    apply (Hread "limits" (PDict [("max", PInt 9)]) None None).
    repeat constructor.
Defined.

End VariablesTheory.
